(** * FrequencyCounter: a shallow embedding of the Timer0 frequency counter

    The module under study (FrequencyCounter.cpp, for the ATmega32U4) keeps a
    handful of file-scope variables and Timer0 registers, and changes them
    from four places: the class methods called by the sketch ([mode], [read],
    [available]), the Timer0 overflow interrupt, the 10 ms gate function
    [FreqCtrGateISR], and the pin-change hook [PCChangeIntFunc].

    Every C function becomes a function on an explicit [state] record.
    Integers are [Z] with the wrap-around of their AVR width written out
    (byte = 8 bits, unsigned int = 16, unsigned long = 32, unsigned long long
    = 64).  The compile-time options are the ones of the source: FCEXTERN =
    1, FCPERIOD = 1, PERIODTIMOUT = 5000, FCPRESCALER = 1, FRQCTRDEBUG
    undefined.

    Granularity.  Each handler and each method call is one atomic step; an
    interrupt that arrives in the middle of [mode] or [read] is not
    modelled, and [noInterrupts()] / [interrupts()] leave no trace.  The
    calls [pinMode(6, INPUT_PULLUP)] in [mode] and the port set-up of
    [InitPCInterrupt] act on registers that no other code of the module
    reads; they are left out.  [SysTimerIntFunc], which calls
    [FreqCtrGateISR] on every tenth millisecond, appears as the event
    [Tick]. *)

From Stdlib Require Import ZArith List String Ascii Bool Lia.
Import ListNotations.

Local Open Scope string_scope.
Local Open Scope Z_scope.

(** ** Fixed-width integers *)

Definition u8  (x : Z) : Z := x mod 256.
Definition u16 (x : Z) : Z := x mod 65536.
Definition u32 (x : Z) : Z := x mod 4294967296.
Definition u64 (x : Z) : Z := x mod 18446744073709551616.

(** Conversion to a signed 8-bit [char] (avr-gcc's plain char is signed). *)
Definition s8 (x : Z) : Z :=
  let y := x mod 256 in if y <? 128 then y else y - 256.

(** ** Compile-time constants (FCPERIOD && FCEXTERN) *)

Definition FCEXTNO      : Z := 6.
Definition FCPRDNO      : Z := 7.
Definition FCMODEMAX    : Z := 9.
Definition PERIODTIMOUT : Z := 5000.
Definition FCEXTGATEMSK : Z := 32.     (* PCINTMASK9 = 0x20 *)
Definition TOV0         : Z := 0.
Definition TOIE0        : Z := 0.

(** ** Module variables and the registers the module touches *)

Record state : Type := mkState {
  _FreqCtrReady : Z;   (* volatile byte: true after each new update *)
  fcResult      : Z;   (* volatile unsigned long: the raw value *)
  fcOVF         : Z;   (* volatile unsigned long: upper bits / last micros *)
  fcprescaler   : Z;   (* volatile unsigned int: gate-time countdown *)
  fcprescalInit : Z;   (* unsigned int: countdown reload value *)
  fcGateTime    : Z;   (* sbyte: selected gate time (mode) *)
  PrdCnt        : Z;   (* byte: averaging for period measure *)
  TCCR0A        : Z;
  TCCR0B        : Z;
  TCNT0         : Z;
  TIFR0         : Z;
  TIMSK0        : Z;
  PCMSK0        : Z;
  PCICR         : Z
}.

(** All variables are zero-initialised; the registers are taken as zero. *)
Definition init : state := mkState 0 0 0 0 0 0 0 0 0 0 0 0 0 0.

Definition set__FreqCtrReady (v : Z) (s : state) : state :=
  mkState v (fcResult s) (fcOVF s) (fcprescaler s) (fcprescalInit s)
          (fcGateTime s) (PrdCnt s) (TCCR0A s) (TCCR0B s) (TCNT0 s)
          (TIFR0 s) (TIMSK0 s) (PCMSK0 s) (PCICR s).
Definition set_fcResult (v : Z) (s : state) : state :=
  mkState (_FreqCtrReady s) v (fcOVF s) (fcprescaler s) (fcprescalInit s)
          (fcGateTime s) (PrdCnt s) (TCCR0A s) (TCCR0B s) (TCNT0 s)
          (TIFR0 s) (TIMSK0 s) (PCMSK0 s) (PCICR s).
Definition set_fcOVF (v : Z) (s : state) : state :=
  mkState (_FreqCtrReady s) (fcResult s) v (fcprescaler s) (fcprescalInit s)
          (fcGateTime s) (PrdCnt s) (TCCR0A s) (TCCR0B s) (TCNT0 s)
          (TIFR0 s) (TIMSK0 s) (PCMSK0 s) (PCICR s).
Definition set_fcprescaler (v : Z) (s : state) : state :=
  mkState (_FreqCtrReady s) (fcResult s) (fcOVF s) v (fcprescalInit s)
          (fcGateTime s) (PrdCnt s) (TCCR0A s) (TCCR0B s) (TCNT0 s)
          (TIFR0 s) (TIMSK0 s) (PCMSK0 s) (PCICR s).
Definition set_fcprescalInit (v : Z) (s : state) : state :=
  mkState (_FreqCtrReady s) (fcResult s) (fcOVF s) (fcprescaler s) v
          (fcGateTime s) (PrdCnt s) (TCCR0A s) (TCCR0B s) (TCNT0 s)
          (TIFR0 s) (TIMSK0 s) (PCMSK0 s) (PCICR s).
Definition set_fcGateTime (v : Z) (s : state) : state :=
  mkState (_FreqCtrReady s) (fcResult s) (fcOVF s) (fcprescaler s)
          (fcprescalInit s) v (PrdCnt s) (TCCR0A s) (TCCR0B s) (TCNT0 s)
          (TIFR0 s) (TIMSK0 s) (PCMSK0 s) (PCICR s).
Definition set_PrdCnt (v : Z) (s : state) : state :=
  mkState (_FreqCtrReady s) (fcResult s) (fcOVF s) (fcprescaler s)
          (fcprescalInit s) (fcGateTime s) v (TCCR0A s) (TCCR0B s) (TCNT0 s)
          (TIFR0 s) (TIMSK0 s) (PCMSK0 s) (PCICR s).
Definition set_TCCR0A (v : Z) (s : state) : state :=
  mkState (_FreqCtrReady s) (fcResult s) (fcOVF s) (fcprescaler s)
          (fcprescalInit s) (fcGateTime s) (PrdCnt s) v (TCCR0B s) (TCNT0 s)
          (TIFR0 s) (TIMSK0 s) (PCMSK0 s) (PCICR s).
Definition set_TCCR0B (v : Z) (s : state) : state :=
  mkState (_FreqCtrReady s) (fcResult s) (fcOVF s) (fcprescaler s)
          (fcprescalInit s) (fcGateTime s) (PrdCnt s) (TCCR0A s) v (TCNT0 s)
          (TIFR0 s) (TIMSK0 s) (PCMSK0 s) (PCICR s).
Definition set_TCNT0 (v : Z) (s : state) : state :=
  mkState (_FreqCtrReady s) (fcResult s) (fcOVF s) (fcprescaler s)
          (fcprescalInit s) (fcGateTime s) (PrdCnt s) (TCCR0A s) (TCCR0B s) v
          (TIFR0 s) (TIMSK0 s) (PCMSK0 s) (PCICR s).
Definition set_TIFR0 (v : Z) (s : state) : state :=
  mkState (_FreqCtrReady s) (fcResult s) (fcOVF s) (fcprescaler s)
          (fcprescalInit s) (fcGateTime s) (PrdCnt s) (TCCR0A s) (TCCR0B s)
          (TCNT0 s) v (TIMSK0 s) (PCMSK0 s) (PCICR s).
Definition set_TIMSK0 (v : Z) (s : state) : state :=
  mkState (_FreqCtrReady s) (fcResult s) (fcOVF s) (fcprescaler s)
          (fcprescalInit s) (fcGateTime s) (PrdCnt s) (TCCR0A s) (TCCR0B s)
          (TCNT0 s) (TIFR0 s) v (PCMSK0 s) (PCICR s).
Definition set_PCMSK0 (v : Z) (s : state) : state :=
  mkState (_FreqCtrReady s) (fcResult s) (fcOVF s) (fcprescaler s)
          (fcprescalInit s) (fcGateTime s) (PrdCnt s) (TCCR0A s) (TCCR0B s)
          (TCNT0 s) (TIFR0 s) (TIMSK0 s) v (PCICR s).
Definition set_PCICR (v : Z) (s : state) : state :=
  mkState (_FreqCtrReady s) (fcResult s) (fcOVF s) (fcprescaler s)
          (fcprescalInit s) (fcGateTime s) (PrdCnt s) (TCCR0A s) (TCCR0B s)
          (TCNT0 s) (TIFR0 s) (TIMSK0 s) (PCMSK0 s) v.

(** C truth value of an integer. *)
Definition nz (x : Z) : bool := negb (x =? 0).

(** ** PCInterrupt.cpp: [InitPCInterrupt]

    Only the pin-change mask and control registers are kept; the port
    direction and pull-up bits, [LastPINB] and the INT6 registers are
    outside the model (the masks used here never have bit 7 set). *)
Definition InitPCInterrupt (mask : Z) (s : state) : state :=
  if nz mask then
    let s := set_PCMSK0 (Z.lor (PCMSK0 s) (Z.land mask 127)) s in
    set_PCICR 1 s
  else
    let s := set_PCMSK0 0 s in
    set_PCICR 0 s.

(** ** [PCChangeIntFunc]: the external gate edge handler

    [Changes] is the two-byte array of the caller: [fst] holds the pins that
    just went low, [snd] the pins that just went high.  The updated array is
    returned with the state. *)
Definition PCChangeIntFunc (Changes : Z * Z) (s : state) : (Z * Z) * state :=
  if fcGateTime s =? FCEXTNO then
    let '(Changes, s) :=
      if nz (Z.land (fst Changes) FCEXTGATEMSK) then
        (* start the counting: falling edge, reset overflow counter *)
        let s := set_TCNT0 0 s in
        let s := set_TCCR0B 6 s in
        let s := set_fcOVF 0 s in
        ((Z.land (fst Changes) (u8 (Z.lnot FCEXTGATEMSK)), snd Changes), s)
      else (Changes, s) in
    if nz (Z.land (snd Changes) FCEXTGATEMSK) then
      (* finish the counting and move the result to fcResult *)
      let svTCCR := TCCR0B s in
      let s := set_TCCR0B 0 s in
      let s := set_fcResult (u32 (u32 (Z.shiftl (fcOVF s) 8) + TCNT0 s)) s in
      let s := set_fcOVF 0 s in
      let s := if nz svTCCR then set__FreqCtrReady 1 s else s in
      ((fst Changes, u8 (Z.lnot FCEXTGATEMSK)), s)
    else (Changes, s)
  else (Changes, s).

(** ** [ISR(TIMER0_OVF_vect)]: the counter / period interrupt handler

    [micros] is the value the call of [micros()] returns. *)
Definition TIMER0_OVF_vect (micros : Z) (s : state) : state :=
  if fcGateTime s >=? FCPRDNO then
    let SavMicros := u32 micros in
    let s := set_TCNT0 (u8 (- PrdCnt s)) s in
    let s := if nz (fcOVF s)
             then let s := set_fcResult (u32 (SavMicros - fcOVF s)) s in
                  set__FreqCtrReady 1 s
             else s in
    let s := set_fcprescaler (fcprescalInit s) s in
    set_fcOVF SavMicros s
  else
    set_fcOVF (u32 (fcOVF s + 1)) s.

(** ** [FreqCtrGateISR]: the gate timer coordinator, called every 10 ms

    [TIFR0 |= (1 << TOV0)] reads the flag register and writes the value back
    with bit TOV0 set; the hardware clears every flag written as one. *)
Definition clear_TIFR0_flags (s : state) : state :=
  let w := Z.lor (TIFR0 s) (Z.shiftl 1 TOV0) in
  set_TIFR0 (Z.land (TIFR0 s) (u8 (Z.lnot w))) s.

Definition FreqCtrGateISR (s : state) : state :=
  if nz (fcprescaler s) then
    let s := set_fcprescaler (u16 (fcprescaler s - 1)) s in
    if negb (nz (fcprescaler s)) then
      let s :=
        if fcGateTime s >=? FCPRDNO then
          (* period measurement: this is a timeout *)
          if negb (nz (_FreqCtrReady s)) then
            let s := set_TCNT0 (u8 (- PrdCnt s)) s in
            let s := clear_TIFR0_flags s in
            let s := set_fcOVF 0 s in
            let s := set_fcResult 1 s in
            set__FreqCtrReady 1 s
          else s
        else
          (* turn off counter and get value, reset TCNT0, counter back on *)
          let svTCCR := TCCR0B s in
          let s := set_TCCR0B 0 s in
          let svTCNT := TCNT0 s in
          let s := set_TCNT0 0 s in
          let s := set_TCCR0B 6 s in
          let s := set_fcResult (u32 (u32 (Z.shiftl (fcOVF s) 8) + svTCNT)) s in
          let s := set_fcOVF 0 s in
          if nz svTCCR then set__FreqCtrReady 1 s else s in
      set_fcprescaler (fcprescalInit s) s
    else s
  else s.

(** ** Decimal output of [sprintf_P]

    The two conversions the module uses are ["%lu"] and ["%09lu"]. *)

Definition digit (d : Z) : ascii := ascii_of_nat (48 + Z.to_nat d).

(** The [k] low-order decimal digits of [n], most significant first. *)
Fixpoint low_digits (k : nat) (n : Z) : string :=
  match k with
  | O => EmptyString
  | S k' => low_digits k' (n / 10) ++ String (digit (n mod 10)) EmptyString
  end.

(** Number of decimal digits of [n]; [fuel = 9] covers every 32-bit value. *)
Fixpoint ndigits (fuel : nat) (n : Z) : nat :=
  match fuel with
  | O => 1%nat
  | S f => if n <? 10 then 1%nat else S (ndigits f (n / 10))
  end.

Definition decimal (n : Z) : string := low_digits (ndigits 9 n) n.

(** [sprintf_P(st, PSTR("%lu"), v)] *)
Definition sprintf_lu (v : Z) : string := decimal (u32 v).

(** [sprintf_P(st, PSTR("%09lu"), v)]: zero-padded to at least 9 digits *)
Definition sprintf_09lu (v : Z) : string :=
  low_digits (Nat.max 9 (ndigits 9 (u32 v))) (u32 v).

(** [st + n] for a C string: the string without its first [n] characters. *)
Fixpoint strdrop (n : nat) (s : string) : string :=
  match n, s with
  | O, _ => s
  | S n', EmptyString => EmptyString
  | S n', String _ s' => strdrop n' s'
  end.

(** ** [Log10I] and [DPStr] *)

Fixpoint Log10I_loop (fuel : nat) (i Val : Z) : Z :=
  match fuel with
  | O => i
  | S f => if Val >? 1 then Log10I_loop f (u8 (i + 1)) (Val / 10) else i
  end.

(** [byte Log10I(unsigned long Val)]; a 32-bit value leaves the loop after at
    most ten divisions by ten. *)
Definition Log10I (Val : Z) : Z := Log10I_loop 10 0 (u32 Val).

(** [DPStr(st, Val, DP)] for [DP] nonzero: print [Val] with ["%09lu"], copy
    the last [DP] characters to [st+1] and put the point in front.

    The source copies inside the one buffer, with [strcpy], from
    [st + (strlen(st) - DP)] to [st + 1].  That moves the characters down
    (or leaves them in place) only while [DP] is less than the printed
    length, which is 9 or 10; [read] passes 1, 2 or 5.  For a larger [DP]
    the source is undefined and this function says nothing about it:
    [DPStr_defined] below is the domain. *)
Definition DPStr (Val DP : Z) : string :=
  if nz DP then
    let st := sprintf_09lu Val in
    String "." (strdrop (String.length st - Z.to_nat DP) st)
  else EmptyString.

(** Where the copy of [DPStr] is defined: [DP] is below the length of the
    ["%09lu"] print of [Val]. *)
Definition DPStr_defined (Val DP : Z) : bool :=
  (0 <=? DP) && (Z.to_nat DP <? String.length (sprintf_09lu Val))%nat.

(** The loop [while (dp<0) { Val*=10; dp++; }] of [read]; [dp] is a signed
    char, so 128 rounds are enough. *)
Fixpoint scale_up (fuel : nat) (dp Val : Z) : Z * Z :=
  match fuel with
  | O => (dp, Val)
  | S f => if dp <? 0 then scale_up f (dp + 1) (u32 (Val * 10)) else (dp, Val)
  end.

(** The loop [for (...; i<n; i++) x*=10;] at width [wrap]. *)
Fixpoint times10 (wrap : Z -> Z) (n : nat) (x : Z) : Z :=
  match n with
  | O => x
  | S n' => times10 wrap n' (wrap (x * 10))
  end.

(** ** The class [FrequencyCounter]

    The two overloads of [mode] and of [read] get distinct names:
    [mode] is [mode(sbyte)], [mode_void] is [mode(void)]; the body of
    [read(char*, bool)] after its wait loop is [read_format], the body of
    [read(bool)] after its wait loop is [read_ulong_body]. *)
Module FrequencyCounter.

Definition available (s : state) : Z := _FreqCtrReady s.

Definition mode_void (s : state) : Z := fcGateTime s.

Definition mode (GateTime : Z) (s : state) : Z * state :=
  let svGateTime := u8 (fcGateTime s) in
  if GateTime <? 0 then (fcGateTime s, s)               (* goto GetGate *)
  else if GateTime >? FCMODEMAX then (-1, s)
  else
    let s := set_fcGateTime GateTime s in
    let GateTime := if GateTime =? FCEXTNO then 1 else GateTime in
    (* gate time to sequential times 0=off, 1=10mS, 2=100mS, 3=1S, 4=10S, 5=100s *)
    let GateTime :=
      if nz GateTime && (GateTime <? 4)
      then (if negb (nz (GateTime - 1)) then 3 else GateTime - 1)
      else GateTime in
    (* prescale value: 0=off, 1=10mS, 10=100mS, 100=1S, 1000=10S, 10000=100s *)
    let t := if nz GateTime then times10 u16 (Z.to_nat (GateTime - 1)) 1 else 0 in
    let '(s, t) :=
      if fcGateTime s >=? FCPRDNO then
        let j := u8 (GateTime - FCPRDNO) in
        let s := set_PrdCnt (times10 u8 (Z.to_nat j) 1) s in
        (s, PERIODTIMOUT / 10)
      else (s, t) in
    let s := set_fcprescalInit t s in
    let s := set_fcprescaler t s in
    let s :=
      if nz (fcprescaler s) then                         (* freq counter is on *)
        let s := set_fcprescaler 1 s in
        let s :=
          if fcGateTime s >=? FCPRDNO then
            let s := set_TCCR0A 0 s in
            let s := set_TCNT0 (u8 (- PrdCnt s)) s in
            let s := set_fcOVF 0 s in
            let s := set_TCCR0B 6 s in
            let s := clear_TIFR0_flags s in
            set_TIMSK0 (Z.lor (TIMSK0 s) (Z.shiftl 1 TOIE0)) s
          else
            let s := set_TCCR0A 0 s in
            let s := set_TCCR0B 0 s in
            let s := set_TCNT0 0 s in
            let s := set_TIMSK0 (Z.lor (TIMSK0 s) (Z.shiftl 1 TOIE0)) s in
            if fcGateTime s =? FCEXTNO
            then let s := InitPCInterrupt FCEXTGATEMSK s in set_fcprescaler 0 s
            else s in
        s
      else                                               (* turn freq counter off *)
        let s := set_TCCR0A 0 s in
        let s := set_TCCR0B 0 s in
        let s := set_TIMSK0 (Z.land (TIMSK0 s) (u8 (Z.lnot (Z.shiftl 1 TOIE0)))) s in
        if svGateTime =? FCEXTNO then InitPCInterrupt 0 s else s in
    let s := set__FreqCtrReady 0 s in
    let s := set_fcResult 0 s in
    (fcGateTime s, s).

(** The condition of [while (fcGateTime && Wait && !_FreqCtrReady)]. *)
Definition must_wait (Wait : bool) (s : state) : bool :=
  nz (fcGateTime s) && Wait && negb (nz (_FreqCtrReady s)).

(** [read(char *St, bool Wait)] from [Val = fcResult] to [return St], for a
    buffer that is not NULL: the string written to [St] and the new state. *)
Definition read_format (s : state) : string * state :=
  let Val := fcResult s in
  let '(dp, scale, Val) :=
    if fcGateTime s >=? FCPRDNO then
      (* period is ready and large enough to not overrun an unsigned long *)
      if nz (_FreqCtrReady s) && (Val >? 24 * PrdCnt s) then
        (5, 100000, u32 (u64 (100000000000 * PrdCnt s) / Val))
      else if Val =? 1 then
        (5, 100000, Z.land Val 4294967040)           (* *((byte * )&Val)=0 *)
      else (0, 1, 999999)
    else
      (* regular count mode *)
      let scale := fcprescalInit s / 100 in
      let dp := s8 (Log10I (fcprescalInit s) - 2) in
      if dp <? 0
      then let '(dp, Val) := scale_up 128 dp Val in (dp, 1, Val)
      else (dp, scale, Val) in
  let St := sprintf_lu (Val / scale) in
  let St := if nz dp then St ++ DPStr Val dp else St in
  (St, set__FreqCtrReady 0 s).

(** [read(bool Wait)] after its wait loop. *)
Definition read_ulong_body (s : state) : Z * state :=
  let s := set__FreqCtrReady 0 s in
  (fcResult s, s).

End FrequencyCounter.

(** ** The environment: interrupts, the hardware counter, mainline calls

    [Pulse] is not code of the module: it is Timer0 itself, clocked by a
    falling edge on the T0 pin while TCCR0B selects that clock (value 6),
    raising the overflow interrupt when TCNT0 wraps and TOIE0 is enabled.
    The other events are calls of the functions above; the interrupt
    handlers may be run in any state. *)
Inductive event : Type :=
| Tick                         (* FreqCtrGateISR(), from the 10 ms tick *)
| Overflow (micros : Z)        (* ISR(TIMER0_OVF_vect) *)
| PinChange (lo hi : Z)        (* PCChangeIntFunc(Changes) *)
| Pulse (micros : Z)           (* one falling edge on the counter input *)
| SetMode (GateTime : Z)       (* FrequencyCounter::mode(GateTime) *)
| ReadString                   (* FrequencyCounter::read(St, false) *)
| ReadRaw.                     (* FrequencyCounter::read(false) *)

Definition timer0_count (micros : Z) (s : state) : state :=
  if TCCR0B s =? 6 then
    let s := set_TCNT0 (u8 (TCNT0 s + 1)) s in
    if TCNT0 s =? 0 then
      if Z.testbit (TIMSK0 s) 0
      then TIMER0_OVF_vect micros s
      else set_TIFR0 (Z.lor (TIFR0 s) 1) s
    else s
  else s.

Definition step (e : event) (s : state) : state :=
  match e with
  | Tick => FreqCtrGateISR s
  | Overflow micros => TIMER0_OVF_vect micros s
  | PinChange lo hi => snd (PCChangeIntFunc (lo, hi) s)
  | Pulse micros => timer0_count micros s
  | SetMode g => snd (FrequencyCounter.mode g s)
  | ReadString => snd (FrequencyCounter.read_format s)
  | ReadRaw => snd (FrequencyCounter.read_ulong_body s)
  end.

Fixpoint run (evs : list event) (s : state) : state :=
  match evs with
  | [] => s
  | e :: evs' => run evs' (step e s)
  end.

(** A state is reachable when some sequence of events leads to it from the
    power-on state. *)
Definition reachable (s : state) : Prop := exists evs, run evs init = s.

(** ** The wait loop and the two [read] overloads

    [while (fcGateTime && Wait && !_FreqCtrReady) { yield(); }]
    The schedule lists, for each pass through the loop body, the events that
    happen during it.  [None] means the schedule ended with the loop still
    waiting; otherwise the state at loop exit and the rest of the schedule
    are returned. *)
Definition schedule : Type := list (list event).

Fixpoint wait_loop (Wait : bool) (sched : schedule) (s : state)
  : option (state * schedule) :=
  if FrequencyCounter.must_wait Wait s then
    match sched with
    | [] => None
    | evs :: rest => wait_loop Wait rest (run evs s)
    end
  else Some (s, sched).

(** [char *FrequencyCounter::read(char *St, bool Wait)]: [St] is [None] for a
    NULL buffer.  The result holds the returned pointer ([None] for NULL,
    else the string in the buffer), the state and the unused schedule. *)
Definition read (St : option string) (Wait : bool) (sched : schedule) (s : state)
  : option (option string * state * schedule) :=
  match St with
  | None => Some (None, s, sched)
  | Some _ =>
      match wait_loop Wait sched s with
      | None => None
      | Some (s, rest) =>
          let '(str, s) := FrequencyCounter.read_format s in
          Some (Some str, s, rest)
      end
  end.

(** [unsigned long FrequencyCounter::read(bool Wait)] *)
Definition read_ulong (Wait : bool) (sched : schedule) (s : state)
  : option (Z * state * schedule) :=
  match wait_loop Wait sched s with
  | None => None
  | Some (s, rest) =>
      let '(Val, s) := FrequencyCounter.read_ulong_body s in
      Some (Val, s, rest)
  end.

(** * The code around the counter

    The functions that drive or are driven by the ones above: the system
    timer (SysTimer.cpp) with [SysTimerIntFunc], [millis], [micros] and
    [delay]; the pin-change interrupt (PCInterrupt.cpp) that calls
    [PCChangeIntFunc]; and the compact formatter that [read] is compiled
    with when FCPERIOD is 0. *)

(** ** [SysTimerIntFunc]: the hook of the 1 ms system timer

    [static byte fcprescale = FCTIME;] is the extra piece of state. *)
Definition FCTIME : Z := 10.

Definition SysTimerIntFunc (fcprescale : Z) (s : state) : Z * state :=
  let fcprescale := u8 (fcprescale - 1) in
  if negb (nz fcprescale)
  then (FCTIME, FreqCtrGateISR s)
  else (fcprescale, s).

(** ** SysTimer.cpp (SYSTIMERINCLUDESDELAY = 1, SYSTIMERCOMP = 1) *)

Definition TIMERCOUNTSPERSEC : Z := 1000.

(** The system timer's variables: [milliseconds] of SysTimer.cpp, the
    static countdown of [SysTimerIntFunc], and the counter module. *)
Record sys : Type := mkSys {
  milliseconds : Z;    (* volatile static unsigned long *)
  fcprescale   : Z;    (* static byte of SysTimerIntFunc *)
  core         : state
}.

Definition sys_init : sys := mkSys 0 FCTIME init.

(** [ISR(TIMERa_COMPA_vect)]: once per millisecond. *)
Definition TIMERa_COMPA_vect (y : sys) : sys :=
  let ms := u32 (milliseconds y + 1) in
  let '(p, s) := SysTimerIntFunc (fcprescale y) (core y) in
  mkSys ms p s.

(** [unsigned long millis()] *)
Definition millis (y : sys) : Z := milliseconds y.

(** [unsigned long micros()].  [TCNTa] is the timer count that is read,
    [OCFaA] tells whether the compare flag is set in TIFRa at that moment,
    and [usPerCount] stands for the constant
    [(unsigned int)(1.0/(F_CPU/TIM5PS(TIMERPSVALUE))*1000000)], which depends
    on the board's F_CPU (4 at 16 MHz). *)
Definition micros (usPerCount TCNTa : Z) (OCFaA : bool) (y : sys) : Z :=
  let m := milliseconds y in
  let ctr := u16 TCNTa in
  let m := if (ctr <? 8) && OCFaA then u32 (m + 1) else m in
  u32 (u32 (m * TIMERCOUNTSPERSEC) + u16 (ctr * usPerCount)).

(** [TIM5PS(P)] of systimer.h: the divisor of prescaler setting [P]. *)
Definition TIM5PS (P : Z) : Z :=
  if P =? 1 then 1 else if P =? 2 then 8 else if P =? 3 then 64
  else if P =? 4 then 256 else if P =? 5 then 1024 else 0.

(** [void delay(unsigned long ms)]:
    [start = millis(); while (ms>0 && (millis()-start) < ms) { yield(); }]
    The schedule gives, for each pass of the loop, how many timer interrupts
    are served during it. *)
Fixpoint delay_loop (ms start : Z) (sched : list nat) (y : sys)
  : option (sys * list nat) :=
  if (ms >? 0) && (u32 (millis y - start) <? ms) then
    match sched with
    | [] => None
    | n :: rest => delay_loop ms start rest (Nat.iter n TIMERa_COMPA_vect y)
    end
  else Some (y, sched).

Definition delay (ms : Z) (sched : list nat) (y : sys) : option (sys * list nat) :=
  delay_loop (u32 ms) (millis y) sched y.

(** ** PCInterrupt.cpp: the pin-change interrupt *)

(** [LastPINB] and [Changes[2]] of PCInterrupt.cpp. *)
Record pcint : Type := mkPcint {
  LastPINB : Z;        (* static volatile byte *)
  Changes0 : Z;        (* Changes[0]: pins that went low *)
  Changes1 : Z         (* Changes[1]: pins that went high *)
}.

(** The pins as the interrupt reads them: [(PINB&0x7f)|((PINE&0x40)<<1)]. *)
Definition read_pins (PINB PINE : Z) : Z :=
  u8 (Z.lor (Z.land PINB 127) (Z.shiftl (Z.land PINE 64) 1)).

(** [ISR(PCINT0_vect)], with [PINB] and [PINE] the port values it reads; the
    hook it calls is the [PCChangeIntFunc] of the counter module. *)
Definition PCINT0_vect (PINB PINE : Z) (p : pcint) (s : state) : pcint * state :=
  let NewPINB := read_pins PINB PINE in
  let i := u8 (Z.land (Z.lxor (LastPINB p) NewPINB) (PCMSK0 s)) in
  let c0 := u8 (Z.lor (Changes0 p) (Z.land i (Z.lnot NewPINB))) in
  let c1 := u8 (Z.lor (Changes1 p) (Z.land i NewPINB)) in
  let '((c0, c1), s) := PCChangeIntFunc (c0, c1) s in
  (mkPcint NewPINB c0 c1, s).

(** [InitPCInterrupt] with the variable [LastPINB] it initialises from the
    pins; on the registers of [state] it is the [InitPCInterrupt] above. *)
Definition InitPCInterrupt_pins (PINB PINE mask : Z) (p : pcint) (s : state)
  : pcint * state :=
  if nz mask then
    let p := if negb (nz (PCMSK0 s))
             then mkPcint (read_pins PINB PINE) (Changes0 p) (Changes1 p)
             else p in
    let s := set_PCMSK0 (Z.lor (PCMSK0 s) (Z.land mask 127)) s in
    (p, set_PCICR 1 s)
  else
    let s := set_PCMSK0 0 s in
    (p, set_PCICR 0 s).

(** ** PCInterrupt.cpp, the class variant: [PCH]

    The registers and variables the class works on.  The port direction and
    pull-up registers and EICRB are written but never read by this code and
    are left out. *)
Module PCInterrupt.

Record regs : Type := mkRegs {
  PCMSK0 : Z;
  PCICR : Z;
  EIMSK : Z;
  LastPINB : Z;        (* volatile byte *)
  Changes0 : Z;        (* Changes[0]: pins that went low *)
  Changes1 : Z         (* Changes[1]: pins that went high *)
}.

(** [ISR(PCINT0_vect)]; [hook] is the [PCChangeIntFunc] linked in (the weak
    default does nothing). *)
Definition PCINT0_vect (hook : Z * Z -> Z * Z) (PINB PINE : Z) (r : regs) : regs :=
  let NewPINB := read_pins PINB PINE in
  let i := u8 (Z.land (Z.lxor (LastPINB r) NewPINB)
                 (Z.lor (Z.land (PCMSK0 r) 127)
                        (Z.land (Z.shiftl (EIMSK r) 1) 128))) in
  let c0 := u8 (Z.lor (Changes0 r) (Z.land i (Z.lnot NewPINB))) in
  let c1 := u8 (Z.lor (Changes1 r) (Z.land i NewPINB)) in
  let '(c0, c1) := hook (c0, c1) in
  mkRegs (PCMSK0 r) (PCICR r) (EIMSK r) NewPINB c0 c1.

Definition falling (mask : Z) (r : regs) : bool :=
  nz (Z.land (Changes0 r) (u8 mask)).

Definition rising (mask : Z) (r : regs) : bool :=
  nz (Z.land (Changes1 r) (u8 mask)).

Definition change (mask : Z) (r : regs) : bool :=
  nz (Z.land (Z.lor (Changes0 r) (Changes1 r)) (u8 mask)).

Definition clear (mask : Z) (r : regs) : regs :=
  let mask := u8 (Z.lnot (u8 mask)) in
  mkRegs (PCMSK0 r) (PCICR r) (EIMSK r) (LastPINB r)
         (Z.land (Changes0 r) mask) (Z.land (Changes1 r) mask).

Definition enable (PINB PINE mask : Z) (r : regs) : regs :=
  let mask := u8 mask in
  if nz mask then
    let x := Z.land mask 127 in
    let eimsk := if nz (Z.land mask 128) then u8 (Z.lor (EIMSK r) 64) else EIMSK r in
    let last := read_pins PINB PINE in
    if nz x
    then mkRegs (u8 (Z.lor (PCMSK0 r) x)) 1 eimsk last (Changes0 r) (Changes1 r)
    else mkRegs (PCMSK0 r) (PCICR r) eimsk last (Changes0 r) (Changes1 r)
  else r.

Definition disable (mask : Z) (r : regs) : regs :=
  let mask := u8 mask in
  if nz mask then
    let '(pcmsk, pcicr) :=
      if nz (Z.land mask 127) then
        let pcmsk := Z.land (PCMSK0 r) (Z.land mask 127) in
        (pcmsk, if negb (nz pcmsk) then 0 else PCICR r)
      else (PCMSK0 r, PCICR r) in
    let eimsk :=
      if nz (Z.land mask 128)
      then Z.land (EIMSK r) (u8 (Z.lnot (Z.shiftr (Z.land mask 128) 1)))
      else EIMSK r in
    mkRegs pcmsk pcicr eimsk (LastPINB r)
           (Z.land (Changes0 r) (u8 (Z.lnot mask)))
           (Z.land (Changes1 r) (u8 (Z.lnot mask)))
  else r.

End PCInterrupt.

(** ** [read(char*, bool)] as compiled with FCPERIOD = 0

    The "shorter code" of the source, from [Val = fcResult] on.  ["%d"] of a
    byte prints its decimal digits, ["%02d"] at least two of them. *)
Definition sprintf_d (v : Z) : string := decimal v.

Definition sprintf_02d (v : Z) : string :=
  low_digits (Nat.max 2 (ndigits 9 v)) v.

Definition read_format_compact (s : state) : string * state :=
  let Val := fcResult s in
  let '(dp, fp, Val) :=
    if fcprescalInit s <=? 100 then
      (* integer value only (off, 10mS, 100mS, 1S) *)
      (0, 0, u32 (Val * (100 / fcprescalInit s)))
    else
      (* integer and fraction (10s, 100s) *)
      let dp := s8 (fcprescalInit s / 100) in
      (dp, u8 (Val mod dp), Val / dp) in
  let St := sprintf_lu Val in
  let St := if nz dp
            then St ++ String "." (if dp >? 10 then sprintf_02d fp else sprintf_d fp)
            else St in
  (St, set__FreqCtrReady 0 s).

(** * Vocabulary of the properties

    Definitions that the statements below use: what [mode] is expected to
    commit, the invariant of the reachable states, the strings the
    specification describes, and a few states reached by concrete runs. *)

(** ** Mode tables *)

(** Ticks per measurement window, as [mode] resolves it into [fcprescalInit]. *)
Definition divisor (m : Z) : Z :=
  match m with
  | 0 => 0
  | 1 => 100
  | 2 => 1
  | 3 => 10
  | 4 => 1000
  | 5 => 10000
  | 6 => 100
  | _ => PERIODTIMOUT / 10
  end.

(** The countdown value [mode] leaves behind. *)
Definition armed_prescaler (m : Z) : Z :=
  if (m =? 0) || (m =? FCEXTNO) then 0 else 1.

(** The averaging count of a period mode. *)
Definition averages (m : Z) : Z :=
  match m with
  | 7 => 1
  | 8 => 10
  | _ => 100
  end.

(** ** The invariant *)

(** An invariant of every reachable state.
    The mode is one of the ten codes, the reload value is the divisor of the
    mode, the countdown is zero in the modes that are not gated by the tick
    (off and external gate) and between 1 and the reload value in the
    others, and a period mode has its averaging count. *)
Record consistent (s : state) : Prop := Consistent {
  mode_in_range   : 0 <= fcGateTime s <= FCMODEMAX;
  init_is_divisor : fcprescalInit s = divisor (fcGateTime s);
  countdown_range : if (fcGateTime s =? 0) || (fcGateTime s =? FCEXTNO)
                    then fcprescaler s = 0
                    else 1 <= fcprescaler s <= fcprescalInit s;
  period_averages : FCPRDNO <= fcGateTime s -> PrdCnt s = averages (fcGateTime s)
}.

(** The result register stays within an unsigned long. *)
Definition result_in_range (s : state) : Prop := 0 <= fcResult s < 4294967296.

(** ** Events and states around the first gate interval *)

(** Events other than the tick and a mode change. *)
Definition quiet (e : event) : bool :=
  match e with
  | Tick | SetMode _ => false
  | _ => true
  end.

(** Events other than a mode change and a falling edge of the gate pin. *)
Definition no_gate_fall (e : event) : bool :=
  match e with
  | SetMode _ => false
  | PinChange lo _ => negb (nz (Z.land lo FCEXTGATEMSK))
  | _ => true
  end.

(** The state [mode] leaves in a tick-gated frequency mode [g]: countdown at
    one, counter stopped, nothing ready. *)
Definition armed (g : Z) (s : state) : Prop :=
  fcGateTime s = g /\ fcprescaler s = 1 /\ fcprescalInit s = divisor g /\
  TCCR0B s = 0 /\ _FreqCtrReady s = 0.

(** The external gate mode before the first falling edge of the gate. *)
Definition gate_idle (s : state) : Prop :=
  fcGateTime s = FCEXTNO /\ fcprescaler s = 0 /\ TCCR0B s = 0 /\
  _FreqCtrReady s = 0.

(** ** The strings of the specification *)

(** The first [k] decimals of the fraction [r / d] (for [0 <= r < d]), by
    long division. *)
Fixpoint frac_digits (k : nat) (r d : Z) : string :=
  match k with
  | O => EmptyString
  | S k' => String (digit (r * 10 / d)) (frac_digits k' (r * 10 mod d) d)
  end.

(** The specification's wording for the period modes: the frequency is
    (10^6 x N) / P Hz, written with its integer part in decimal, a point,
    and exactly five decimals (the further ones are dropped). *)
Definition spec_period_string (N P : Z) : string :=
  decimal (1000000 * N / P) ++ String "." (frac_digits 5 (1000000 * N mod P) P).

(** The specification's wording for the frequency modes, for a gate of [d]
    ticks of 10 ms: a gate of one second or less gives the count multiplied
    up to Hz, an integer without decimals; a longer gate gives the count
    divided by the gate time in seconds, the quotient followed by the
    point and the remainder as decimals (one for 10 s, two for 100 s). *)
Definition spec_frequency_string (d Val : Z) : string :=
  if d <=? 100
  then decimal (u32 (Val * (100 / d)))
  else decimal (Val / (d / 100))
       ++ String "." (low_digits (ndigits 9 (d / 100) - 1) (Val mod (d / 100))).

(** The value of a digit character. *)
Definition digit_value (c : ascii) : Z := Z.of_nat (nat_of_ascii c) - 48.

(** The number a string of digits denotes, continuing from [acc]. *)
Fixpoint str_value (s : string) (acc : Z) : Z :=
  match s with
  | EmptyString => acc
  | String c s' => str_value s' (acc * 10 + digit_value c)
  end.

(** ** Calls of the timer hook *)

(** [n] calls of the hook, from countdown [p] and counter state [s]. *)
Definition hook_calls (n : nat) (p : Z) (s : state) : Z * state :=
  Nat.iter n (fun a => SysTimerIntFunc (fst a) (snd a)) (p, s).

(** ** Counting input pulses *)

(** Events that are an input pulse or a tick. *)
Definition pulse_or_tick (e : event) : bool :=
  match e with
  | Pulse _ | Tick => true
  | _ => false
  end.

Definition count_ticks (evs : list event) : Z :=
  Z.of_nat (List.length (filter (fun e => match e with Tick => true | _ => false end) evs)).

Definition count_pulses (evs : list event) : Z :=
  Z.of_nat (List.length (filter (fun e => match e with Pulse _ => true | _ => false end) evs)).

(** The count held by the overflow accumulator and the hardware counter. *)
Definition raw_count (s : state) : Z := u32 (256 * fcOVF s + TCNT0 s).

(** The counter is counting input pulses in a frequency mode, with its
    overflow interrupt enabled. *)
Definition counting (s : state) : Prop :=
  fcGateTime s < FCPRDNO /\ TCCR0B s = 6 /\ Z.testbit (TIMSK0 s) 0 = true /\
  0 <= TCNT0 s < 256.

(** ** The result of [Log10I] *)

(** [k] is the least exponent for which [v] is below [2 * 10^k]: the number
    of times [v] can be divided by ten before it drops to 1 or 0. *)
Definition decade_count (v : Z) (k : nat) : Prop :=
  v < 2 * 10 ^ Z.of_nat k /\
  forall j : nat, (j < k)%nat -> 2 * 10 ^ Z.of_nat j <= v.

(** ** The timer and pin-change registers *)

(** What the module keeps true of Timer0: the clock select is "stopped" or
    "external, falling edge", the timer is in normal mode, the overflow
    interrupt is enabled exactly while a mode is selected, the counter runs
    throughout a period mode, and in mode Off it is stopped with nothing to
    read. *)
Definition timer_wired (s : state) : Prop :=
  (TCCR0B s = 0 \/ TCCR0B s = 6) /\
  0 <= TCNT0 s < 256 /\
  TCCR0A s = 0 /\
  (fcGateTime s <> 0 -> Z.testbit (TIMSK0 s) TOIE0 = true) /\
  (FCPRDNO <= fcGateTime s -> TCCR0B s = 6) /\
  (fcGateTime s = 0 ->
   TCCR0B s = 0 /\ Z.testbit (TIMSK0 s) TOIE0 = false /\
   fcResult s = 0 /\ _FreqCtrReady s = 0).

(** The pin-change interrupt is either disabled with an empty mask or
    enabled for the gate pin alone. *)
Definition gate_pin_enabled (s : state) : Prop :=
  PCMSK0 s = FCEXTGATEMSK /\ PCICR s = 1.

Definition gate_pin_disabled (s : state) : Prop :=
  PCMSK0 s = 0 /\ PCICR s = 0.

(** The bit of the gate pin (mask [FCEXTGATEMSK] = bit 5) in a port or
    change byte. *)
Definition gate_bit (x : Z) : bool := Z.testbit x 5.

(** What the pin-change interrupt hands to the hook for the gate pin, from
    the variables [p] it finds and the port value [PINB] it reads: "went
    low" is an unacknowledged earlier fall or a fall seen now (last level
    high, new level low), "went high" likewise. *)
Definition gate_fell (p : pcint) (PINB : Z) : bool :=
  gate_bit (Changes0 p) || (gate_bit (LastPINB p) && negb (gate_bit PINB)).

Definition gate_rose (p : pcint) (PINB : Z) : bool :=
  gate_bit (Changes1 p) || (negb (gate_bit (LastPINB p)) && gate_bit PINB).

Definition gate_changes (p : pcint) (PINB : Z) : Z * Z :=
  (if gate_fell p PINB then FCEXTGATEMSK else 0,
   if gate_rose p PINB then FCEXTGATEMSK else 0).

(** ** States reached by concrete runs *)

(** A state with three counter overflows accumulated in the 1 s gate mode. *)
Definition three_overflows : state :=
  run [SetMode 1; Tick; Overflow 0; Overflow 0; Overflow 0] init.

(** 500 input pulses counted during a 10 s gate, read by a waiting [read]. *)
Definition ten_second_gate_500 : state :=
  run ([SetMode 4; Tick] ++ repeat (Pulse 0) 500 ++ repeat Tick 1000) init.

(** * Properties *)

(** ** What [mode] commits for an accepted code *)

Ltac mode_cases g :=
  let H := fresh in
  assert (H : g = 0 \/ g = 1 \/ g = 2 \/ g = 3 \/ g = 4 \/ g = 5 \/ g = 6 \/
              g = 7 \/ g = 8 \/ g = 9) by (unfold FCMODEMAX in *; lia);
  repeat (destruct H as [H | H]); subst g.

Lemma mode_accepted (g : Z) (s : state) :
  0 <= g <= FCMODEMAX ->
  let r := FrequencyCounter.mode g s in
  fst r = g /\
  fcGateTime (snd r) = g /\
  fcprescalInit (snd r) = divisor g /\
  fcprescaler (snd r) = armed_prescaler g /\
  _FreqCtrReady (snd r) = 0 /\
  fcResult (snd r) = 0 /\
  (FCPRDNO <= g -> PrdCnt (snd r) = averages g /\ fcOVF (snd r) = 0 /\ TCCR0B (snd r) = 6) /\
  (g < FCPRDNO -> PrdCnt (snd r) = PrdCnt s /\ fcOVF (snd r) = fcOVF s /\ TCCR0B (snd r) = 0).
Proof.
  intros Hg r. subst r.
  mode_cases g; unfold FrequencyCounter.mode; destruct s; simpl.
  all: try (destruct (u8 _ =? FCEXTNO); simpl).
  all: unfold FCPRDNO; repeat split; intros; try reflexivity; try lia.
Qed.

Lemma mode_sets_gate_time (g : Z) (s : state) :
  0 <= g <= FCMODEMAX -> fcGateTime (snd (FrequencyCounter.mode g s)) = g.
Proof.
  intros Hg. exact (proj1 (proj2 (mode_accepted g s Hg))).
Qed.

Lemma mode_rejected (g : Z) (s : state) :
  FCMODEMAX < g -> FrequencyCounter.mode g s = (-1, s).
Proof.
  intros Hg. unfold FrequencyCounter.mode, FCMODEMAX in *.
  destruct (g <? 0) eqn:E1; [lia|].
  rewrite Z.gtb_ltb.
  destruct (9 <? g) eqn:E2; [reflexivity|lia].
Qed.

Lemma mode_query (g : Z) (s : state) :
  g < 0 -> FrequencyCounter.mode g s = (fcGateTime s, s).
Proof.
  intros Hg. unfold FrequencyCounter.mode.
  destruct (g <? 0) eqn:E1; [reflexivity|lia].
Qed.

(** ** The invariant is kept by every event *)

Lemma consistent_frame (s s' : state) :
  fcGateTime s' = fcGateTime s ->
  fcprescalInit s' = fcprescalInit s ->
  fcprescaler s' = fcprescaler s ->
  PrdCnt s' = PrdCnt s ->
  consistent s -> consistent s'.
Proof.
  intros E1 E2 E3 E4 [H1 H2 H3 H4].
  constructor; rewrite ?E1, ?E2, ?E3, ?E4; assumption.
Qed.

Ltac split_ifs :=
  repeat match goal with
         | |- context [if ?b then _ else _] => destruct b eqn:?; simpl
         end.

Lemma PCChangeIntFunc_frame (c : Z * Z) (s : state) :
  let s' := snd (PCChangeIntFunc c s) in
  fcGateTime s' = fcGateTime s /\ fcprescalInit s' = fcprescalInit s /\
  fcprescaler s' = fcprescaler s /\ PrdCnt s' = PrdCnt s.
Proof.
  unfold PCChangeIntFunc. destruct s, c; simpl.
  split_ifs; auto.
Qed.

Lemma TIMER0_OVF_vect_frame (m : Z) (s : state) :
  let s' := TIMER0_OVF_vect m s in
  fcGateTime s' = fcGateTime s /\ fcprescalInit s' = fcprescalInit s /\
  PrdCnt s' = PrdCnt s /\
  fcprescaler s' = (if fcGateTime s >=? FCPRDNO then fcprescalInit s else fcprescaler s).
Proof.
  unfold TIMER0_OVF_vect. destruct s; simpl.
  split_ifs; auto.
Qed.

Lemma FreqCtrGateISR_frame (s : state) :
  let s' := FreqCtrGateISR s in
  fcGateTime s' = fcGateTime s /\ fcprescalInit s' = fcprescalInit s /\
  PrdCnt s' = PrdCnt s /\
  fcprescaler s' =
    (if fcprescaler s =? 0 then 0
     else if u16 (fcprescaler s - 1) =? 0 then fcprescalInit s
          else u16 (fcprescaler s - 1)).
Proof.
  unfold FreqCtrGateISR, nz. destruct s; simpl.
  split_ifs; repeat split; auto; try discriminate; lia.
Qed.

Lemma divisor_range (m : Z) :
  0 <= m <= FCMODEMAX ->
  0 <= divisor m <= 10000 /\ (m <> 0 -> 1 <= divisor m).
Proof.
  intros Hm. mode_cases m; vm_compute; intuition discriminate.
Qed.

Lemma FreqCtrGateISR_consistent (s : state) :
  consistent s -> consistent (FreqCtrGateISR s).
Proof.
  intros [H1 H2 H3 H4].
  destruct (FreqCtrGateISR_frame s) as (E1 & E2 & E3 & E4).
  constructor; rewrite ?E1, ?E2, ?E3, ?E4; try assumption.
  unfold u16. destruct ((fcGateTime s =? 0) || (fcGateTime s =? FCEXTNO)).
  - rewrite H3. reflexivity.
  - pose proof (divisor_range _ H1) as [Hd _]. rewrite <- H2 in Hd.
    destruct (fcprescaler s =? 0) eqn:Ep; [lia|].
    rewrite Z.mod_small by lia.
    destruct (fcprescaler s - 1 =? 0) eqn:Eq; lia.
Qed.

Lemma TIMER0_OVF_vect_consistent (m : Z) (s : state) :
  consistent s -> consistent (TIMER0_OVF_vect m s).
Proof.
  intros [H1 H2 H3 H4].
  destruct (TIMER0_OVF_vect_frame m s) as (E1 & E2 & E3 & E4).
  constructor; rewrite ?E1, ?E2, ?E3, ?E4; try assumption.
  unfold FCPRDNO, FCEXTNO in *.
  destruct (fcGateTime s >=? 7) eqn:Ep; [|assumption].
  apply Z.geb_le in Ep.
  destruct (fcGateTime s =? 0) eqn:E0; [lia|].
  destruct (fcGateTime s =? 6) eqn:E6; [lia|]. simpl.
  pose proof (divisor_range _ H1) as [_ Hd]. rewrite <- H2 in Hd. lia.
Qed.

Lemma PCChangeIntFunc_consistent (c : Z * Z) (s : state) :
  consistent s -> consistent (snd (PCChangeIntFunc c s)).
Proof.
  destruct (PCChangeIntFunc_frame c s) as (E1 & E2 & E3 & E4).
  now apply consistent_frame.
Qed.

Lemma timer0_count_consistent (m : Z) (s : state) :
  consistent s -> consistent (timer0_count m s).
Proof.
  intros H. unfold timer0_count.
  destruct (TCCR0B s =? 6); [|assumption].
  assert (Hc : consistent (set_TCNT0 (u8 (TCNT0 s + 1)) s))
    by (revert H; apply consistent_frame; reflexivity).
  destruct (TCNT0 _ =? 0); [|assumption].
  destruct (Z.testbit _ 0).
  - now apply TIMER0_OVF_vect_consistent.
  - revert Hc. apply consistent_frame; reflexivity.
Qed.

Lemma mode_consistent (g : Z) (s : state) :
  consistent s -> consistent (snd (FrequencyCounter.mode g s)).
Proof.
  intros H.
  destruct (Z.lt_ge_cases g 0) as [Hn | Hn].
  { rewrite mode_query by assumption. exact H. }
  destruct (Z.lt_ge_cases FCMODEMAX g) as [Hx | Hx].
  { rewrite mode_rejected by assumption. exact H. }
  destruct (mode_accepted g s (conj Hn Hx)) as (_ & E1 & E2 & E3 & _ & _ & E4 & _).
  constructor; rewrite ?E1, ?E2, ?E3.
  - split; assumption.
  - reflexivity.
  - unfold armed_prescaler.
    destruct ((g =? 0) || (g =? FCEXTNO)) eqn:Eg; [reflexivity|].
    apply orb_false_iff in Eg. destruct Eg as [Eg _].
    pose proof (divisor_range g (conj Hn Hx)) as [_ Hd]. lia.
  - intros Hp. apply E4, Hp.
Qed.

Lemma read_format_consistent (s : state) :
  consistent s -> consistent (snd (FrequencyCounter.read_format s)).
Proof.
  apply consistent_frame; unfold FrequencyCounter.read_format;
    repeat match goal with
           | |- context [let '(_, _) := ?x in _] => destruct x
           end; reflexivity.
Qed.

Lemma step_consistent (e : event) (s : state) :
  consistent s -> consistent (step e s).
Proof.
  destruct e; simpl.
  - apply FreqCtrGateISR_consistent.
  - apply TIMER0_OVF_vect_consistent.
  - apply PCChangeIntFunc_consistent.
  - apply timer0_count_consistent.
  - apply mode_consistent.
  - apply read_format_consistent.
  - apply consistent_frame; reflexivity.
Qed.

Lemma run_consistent (evs : list event) (s : state) :
  consistent s -> consistent (run evs s).
Proof.
  revert s. induction evs as [|e evs IH]; intros s H; simpl.
  - exact H.
  - apply IH, step_consistent, H.
Qed.

Lemma init_consistent : consistent init.
Proof.
  constructor; vm_compute; intuition discriminate.
Qed.

Lemma reachable_consistent (s : state) : reachable s -> consistent s.
Proof.
  intros [evs <-]. apply run_consistent, init_consistent.
Qed.

Lemma read_format_state (s : state) :
  snd (FrequencyCounter.read_format s) = set__FreqCtrReady 0 s.
Proof.
  unfold FrequencyCounter.read_format.
  repeat match goal with
         | |- context [let '(_, _) := ?x in _] => destruct x
         end; reflexivity.
Qed.

Lemma u32_range (x : Z) : 0 <= u32 x < 4294967296.
Proof. unfold u32. apply Z.mod_pos_bound. lia. Qed.

Lemma step_result_in_range (e : event) (s : state) :
  result_in_range s -> result_in_range (step e s).
Proof.
  unfold result_in_range. intros H.
  assert (H01 : forall x, x = 0 \/ x = 1 -> 0 <= x < 4294967296) by lia.
  destruct e as [ | m | lo hi | m | g | | ]; simpl.
  - unfold FreqCtrGateISR. destruct s; simpl in *.
    split_ifs; try apply u32_range; try assumption; lia.
  - unfold TIMER0_OVF_vect. destruct s; simpl in *.
    split_ifs; try apply u32_range; assumption.
  - unfold PCChangeIntFunc. destruct s; simpl in *.
    split_ifs; try apply u32_range; assumption.
  - unfold timer0_count, TIMER0_OVF_vect. destruct s; simpl in *.
    split_ifs; try apply u32_range; assumption.
  - destruct (Z.lt_ge_cases g 0) as [Hn | Hn].
    { rewrite mode_query by assumption. exact H. }
    destruct (Z.lt_ge_cases FCMODEMAX g) as [Hx | Hx].
    { rewrite mode_rejected by assumption. exact H. }
    destruct (mode_accepted g s (conj Hn Hx)) as (_ & _ & _ & _ & _ & E & _).
    rewrite E. lia.
  - rewrite read_format_state. exact H.
  - exact H.
Qed.

Lemma reachable_result_in_range (s : state) :
  reachable s -> result_in_range s.
Proof.
  intros [evs <-].
  assert (H : result_in_range init) by (unfold result_in_range; simpl; lia).
  revert H. generalize init. induction evs as [|e evs IH]; intros s0 H; simpl.
  - exact H.
  - apply IH, step_result_in_range, H.
Qed.

(** In a reachable state of a frequency mode, the reload value is the
    divisor of the mode and the raw count fits an unsigned long: the
    conditions under which [read] is analysed below. *)
Lemma reachable_frequency_state (s : state) :
  reachable s ->
  fcprescalInit s = divisor (fcGateTime s) /\ 0 <= fcResult s < 4294967296.
Proof.
  intros Hr. split.
  - apply init_is_divisor, reachable_consistent, Hr.
  - apply reachable_result_in_range, Hr.
Qed.

(** In a reachable state of a period mode the averaging count is 1, 10 or
    100, as the mode says. *)
Lemma reachable_period_averages (s : state) :
  reachable s -> FCPRDNO <= fcGateTime s ->
  PrdCnt s = averages (fcGateTime s) /\
  (PrdCnt s = 1 \/ PrdCnt s = 10 \/ PrdCnt s = 100).
Proof.
  intros Hr Hm. destruct (reachable_consistent s Hr) as [H1 _ _ H4].
  specialize (H4 Hm). split; [exact H4|]. rewrite H4.
  unfold FCPRDNO, FCMODEMAX in *.
  assert (Hc : fcGateTime s = 7 \/ fcGateTime s = 8 \/ fcGateTime s = 9) by lia.
  destruct Hc as [-> | [-> | ->]]; simpl; auto.
Qed.

(** ** Properties of [mode] *)

(** C6: for every supported mode code [g] (0 up to FCMODEMAX), [mode(g)]
    returns [g], and a following [mode()] returns [g] as well. *)
Theorem mode_commits_requested_code (g : Z) (s : state) :
  0 <= g <= FCMODEMAX ->
  fst (FrequencyCounter.mode g s) = g /\
  FrequencyCounter.mode_void (snd (FrequencyCounter.mode g s)) = g.
Proof.
  intros Hg. destruct (mode_accepted g s Hg) as (E0 & E1 & _).
  split; assumption.
Qed.

Lemma mode_commits_requested_code_witness :
  fst (FrequencyCounter.mode 8 (run [SetMode 4; Tick; Tick] init)) = 8 /\
  FrequencyCounter.mode_void
    (snd (FrequencyCounter.mode 8 (run [SetMode 4; Tick; Tick] init))) = 8.
Proof.
  apply (mode_commits_requested_code 8 (run [SetMode 4; Tick; Tick] init)).
  unfold FCMODEMAX. lia.
Defined.

(** C7, as stated, fails: the code -2 is outside the supported set, yet
    [mode(-2)] on the power-on state returns the current mode 0, not -1. *)
Lemma mode_negative_code_counterexample :
  fst (FrequencyCounter.mode (-2) init) = 0.
Proof. reflexivity. Qed.

(** C7, amended: for every mode code (an sbyte) above the compiled-in
    maximum, [mode] returns -1 and leaves the whole state unchanged; for a
    negative code the state is unchanged as well, but the value returned is
    the current mode. *)
Theorem mode_out_of_range_keeps_state (g : Z) (s : state) :
  -128 <= g <= 127 ->
  g < 0 \/ FCMODEMAX < g ->
  snd (FrequencyCounter.mode g s) = s /\
  (FCMODEMAX < g -> fst (FrequencyCounter.mode g s) = -1) /\
  (g < 0 -> fst (FrequencyCounter.mode g s) = FrequencyCounter.mode_void s).
Proof.
  intros _ [Hg | Hg].
  - rewrite mode_query by assumption. unfold FCMODEMAX. simpl.
    split; [reflexivity|]. split; intros; [lia | reflexivity].
  - rewrite mode_rejected by assumption. unfold FCMODEMAX in *. simpl.
    split; [reflexivity|]. split; intros; [reflexivity | lia].
Qed.

Lemma mode_out_of_range_keeps_state_witness :
  snd (FrequencyCounter.mode 10 three_overflows) = three_overflows /\
  (FCMODEMAX < 10 -> fst (FrequencyCounter.mode 10 three_overflows) = -1) /\
  (10 < 0 -> fst (FrequencyCounter.mode 10 three_overflows)
             = FrequencyCounter.mode_void three_overflows).
Proof.
  apply (mode_out_of_range_keeps_state 10 three_overflows).
  - lia.
  - right. unfold FCMODEMAX. lia.
Defined.

(** C10: for every strictly negative argument (an sbyte), [mode] is a pure
    query in every reachable state: it returns the current mode, which is
    one of 0..FCMODEMAX and so never -1, and the state is unchanged. *)
Theorem mode_negative_is_query (g : Z) (s : state) :
  reachable s -> -128 <= g < 0 ->
  FrequencyCounter.mode g s = (FrequencyCounter.mode_void s, s) /\
  0 <= fst (FrequencyCounter.mode g s) <= FCMODEMAX /\
  fst (FrequencyCounter.mode g s) <> -1.
Proof.
  intros Hr [_ Hg]. rewrite mode_query by assumption.
  pose proof (mode_in_range s (reachable_consistent s Hr)) as Hm.
  unfold FrequencyCounter.mode_void. simpl.
  split; [reflexivity|]. split; lia.
Qed.

Lemma mode_negative_is_query_witness :
  FrequencyCounter.mode (-7) three_overflows
    = (FrequencyCounter.mode_void three_overflows, three_overflows) /\
  0 <= fst (FrequencyCounter.mode (-7) three_overflows) <= FCMODEMAX /\
  fst (FrequencyCounter.mode (-7) three_overflows) <> -1.
Proof.
  apply (mode_negative_is_query (-7) three_overflows).
  - exists [SetMode 1; Tick; Overflow 0; Overflow 0; Overflow 0].
    vm_compute. reflexivity.
  - lia.
Defined.

(** ** The countdown and the mode *)

(** C8, as stated, fails: after [mode(6)] the external gate mode is active
    and the countdown is zero. *)
Lemma prescaler_zero_in_external_gate_counterexample :
  fcGateTime (run [SetMode 6] init) = 6 /\
  fcprescaler (run [SetMode 6] init) = 0.
Proof. vm_compute. split; reflexivity. Qed.

(** C8, amended: in every reachable state the countdown [fcprescaler] is
    zero exactly when the mode is off or external gate; it is nonzero in the
    tick-gated frequency modes and in the period modes. *)
Theorem prescaler_zero_iff_not_tick_gated (s : state) :
  reachable s ->
  (fcprescaler s = 0 <-> fcGateTime s = 0 \/ fcGateTime s = FCEXTNO).
Proof.
  intros Hr. destruct (reachable_consistent s Hr) as [H1 H2 H3 H4].
  unfold FCEXTNO in *.
  destruct (fcGateTime s =? 0) eqn:E0; destruct (fcGateTime s =? 6) eqn:E6;
    simpl in H3; lia.
Qed.

Lemma prescaler_zero_iff_not_tick_gated_witness :
  fcprescaler (run [SetMode 4; Tick; Tick] init) = 0 <->
  fcGateTime (run [SetMode 4; Tick; Tick] init) = 0 \/
  fcGateTime (run [SetMode 4; Tick; Tick] init) = FCEXTNO.
Proof.
  apply (prescaler_zero_iff_not_tick_gated (run [SetMode 4; Tick; Tick] init)).
  exists [SetMode 4; Tick; Tick]. reflexivity.
Defined.

(** ** Decimal strings *)

Lemma str_app_assoc (a b c : string) : (a ++ b) ++ c = a ++ (b ++ c).
Proof.
  induction a as [|x a IH]; simpl; [reflexivity | now rewrite IH].
Qed.

Lemma str_app_empty_r (a : string) : a ++ "" = a.
Proof.
  induction a as [|x a IH]; simpl; [reflexivity | now rewrite IH].
Qed.

Lemma str_length_app (a b : string) :
  String.length (a ++ b) = (String.length a + String.length b)%nat.
Proof.
  induction a as [|x a IH]; simpl; [reflexivity | now rewrite IH].
Qed.

Lemma strdrop_app (a b : string) : strdrop (String.length a) (a ++ b) = b.
Proof.
  induction a as [|x a IH]; simpl; [destruct b; reflexivity | exact IH].
Qed.

Lemma low_digits_length (k : nat) (n : Z) : String.length (low_digits k n) = k.
Proof.
  revert n. induction k as [|k IH]; intros n; simpl; [reflexivity|].
  rewrite str_length_app, IH. simpl. lia.
Qed.

Lemma pow10_pos (k : nat) : 0 < 10 ^ Z.of_nat k.
Proof. apply Z.pow_pos_nonneg; lia. Qed.

Lemma pow10_succ (k : nat) : 10 ^ Z.of_nat (S k) = 10 * 10 ^ Z.of_nat k.
Proof. rewrite Nat2Z.inj_succ, Z.pow_succ_r by lia. reflexivity. Qed.

Lemma low_digits_S (k : nat) (n : Z) :
  low_digits (S k) n = low_digits k (n / 10) ++ String (digit (n mod 10)) "".
Proof. reflexivity. Qed.

(** The last [k] digits of a [j + k]-digit rendering are the [k]-digit
    rendering; the first [j] are those of the quotient by [10^k]. *)
Lemma low_digits_split (j k : nat) (n : Z) :
  low_digits (j + k) n = low_digits j (n / 10 ^ Z.of_nat k) ++ low_digits k n.
Proof.
  revert n. induction k as [|k IH]; intros n.
  - rewrite Nat.add_0_r, Z.div_1_r. simpl. now rewrite str_app_empty_r.
  - rewrite Nat.add_succ_r, !low_digits_S.
    rewrite IH, str_app_assoc, pow10_succ.
    rewrite Z.div_div by (pose proof (pow10_pos k); lia).
    reflexivity.
Qed.

Lemma low_digits_add_multiple (k : nat) (a b : Z) :
  low_digits k (a * 10 ^ Z.of_nat k + b) = low_digits k b.
Proof.
  revert a b. induction k as [|k IH]; intros a b; [reflexivity|].
  rewrite !low_digits_S, pow10_succ.
  replace (a * (10 * 10 ^ Z.of_nat k) + b) with (b + (a * 10 ^ Z.of_nat k) * 10) by ring.
  rewrite Z.div_add, Z.mod_add by lia.
  rewrite Z.add_comm, IH. reflexivity.
Qed.

(** [DPStr] yields the point followed by the last [DP] decimal digits. *)
Lemma DPStr_low_digits (Val DP : Z) :
  0 < DP <= 9 ->
  DPStr Val DP = String "." (low_digits (Z.to_nat DP) (u32 Val)).
Proof.
  intros H. unfold DPStr, nz, sprintf_09lu.
  destruct (DP =? 0) eqn:E; [lia|]. simpl negb. cbv iota.
  set (m := Nat.max 9 (ndigits 9 (u32 Val))).
  rewrite low_digits_length.
  assert (Hm : m = ((m - Z.to_nat DP) + Z.to_nat DP)%nat) by lia.
  rewrite Hm at 2. rewrite low_digits_split.
  rewrite <- (low_digits_length (m - Z.to_nat DP)
                (u32 Val / 10 ^ Z.of_nat (Z.to_nat DP))) at 1.
  rewrite strdrop_app. reflexivity.
Qed.

(** ** The bounded loops run to completion *)

Lemma Log10I_loop_fuel (n k : nat) (i v : Z) :
  0 <= v < 10 ^ Z.of_nat n ->
  Log10I_loop (n + k) i v = Log10I_loop n i v.
Proof.
  revert i v. induction n as [|n IH]; intros i v Hv.
  - change (10 ^ Z.of_nat 0) with 1 in Hv. assert (v = 0) by lia. subst v.
    destruct k; reflexivity.
  - simpl Nat.add. cbn [Log10I_loop].
    destruct (v >? 1) eqn:E; [|reflexivity].
    apply IH. rewrite pow10_succ in Hv.
    split; [apply Z.div_pos; lia | apply Z.div_lt_upper_bound; lia].
Qed.

(** Ten rounds are all that [Log10I] can make on an unsigned long. *)
Lemma Log10I_fuel_enough (k : nat) (Val : Z) :
  Log10I_loop (10 + k) 0 (u32 Val) = Log10I Val.
Proof.
  apply Log10I_loop_fuel. unfold u32.
  pose proof (Z.mod_pos_bound Val 4294967296 ltac:(lia)).
  change (10 ^ Z.of_nat 10) with 10000000000. lia.
Qed.

Lemma scale_up_fuel (n k : nat) (dp Val : Z) :
  - Z.of_nat n <= dp ->
  scale_up (n + k) dp Val = scale_up n dp Val.
Proof.
  revert dp Val. induction n as [|n IH]; intros dp Val Hd.
  - destruct k; [reflexivity|]. simpl.
    destruct (dp <? 0) eqn:E; [lia | reflexivity].
  - simpl Nat.add. cbn [scale_up].
    destruct (dp <? 0) eqn:E; [|reflexivity].
    apply IH. lia.
Qed.

Lemma s8_range (x : Z) : -128 <= s8 x < 128.
Proof.
  unfold s8. pose proof (Z.mod_pos_bound x 256 ltac:(lia)).
  destruct (x mod 256 <? 128) eqn:E; lia.
Qed.

(** 128 rounds are all that the scaling loop of [read] can make. *)
Lemma scale_up_fuel_enough (k : nat) (x Val : Z) :
  scale_up (128 + k) (s8 x) Val = scale_up 128 (s8 x) Val.
Proof.
  apply scale_up_fuel. pose proof (s8_range x). lia.
Qed.

Lemma ndigits_fuel (n k : nat) (v : Z) :
  0 <= v < 10 ^ Z.of_nat (S n) ->
  ndigits (n + k) v = ndigits n v.
Proof.
  revert v. induction n as [|n IH]; intros v Hv.
  - change (10 ^ Z.of_nat 1) with 10 in Hv.
    destruct k; [reflexivity|]. simpl.
    destruct (v <? 10) eqn:E; [reflexivity | lia].
  - simpl Nat.add. cbn [ndigits].
    destruct (v <? 10) eqn:E; [reflexivity|].
    f_equal. apply IH. rewrite pow10_succ in Hv.
    split; [apply Z.div_pos; lia | apply Z.div_lt_upper_bound; lia].
Qed.

(** ** The strings are decimal numerals *)

Lemma digit_value_digit (d : Z) : 0 <= d < 10 -> digit_value (digit d) = d.
Proof.
  intros H. unfold digit_value, digit.
  rewrite nat_ascii_embedding by lia. lia.
Qed.

Lemma str_value_app (a b : string) (acc : Z) :
  str_value (a ++ b) acc = str_value b (str_value a acc).
Proof.
  revert acc. induction a as [|c a IH]; intros acc; simpl; [reflexivity|apply IH].
Qed.

Lemma str_value_low_digits (k : nat) (n acc : Z) :
  str_value (low_digits k n) acc = acc * 10 ^ Z.of_nat k + n mod 10 ^ Z.of_nat k.
Proof.
  revert n acc. induction k as [|k IH]; intros n acc.
  - simpl. rewrite Z.mod_1_r. lia.
  - rewrite low_digits_S, str_value_app, IH. cbn [str_value].
    rewrite digit_value_digit by (apply Z.mod_pos_bound; lia).
    rewrite pow10_succ. pose proof (pow10_pos k) as Hk.
    rewrite (Z.rem_mul_r n 10 (10 ^ Z.of_nat k)) by lia. ring.
Qed.

Lemma ndigits_bound (f : nat) (n : Z) :
  0 <= n < 10 ^ Z.of_nat (S f) -> n < 10 ^ Z.of_nat (ndigits f n).
Proof.
  revert n. induction f as [|f IH]; intros n Hn.
  - exact (proj2 Hn).
  - cbn [ndigits]. destruct (n <? 10) eqn:E.
    + change (10 ^ Z.of_nat 1) with 10. lia.
    + rewrite (pow10_succ (S f)) in Hn.
      rewrite (pow10_succ (ndigits f (n / 10))).
      assert (H : n / 10 < 10 ^ Z.of_nat (ndigits f (n / 10))).
      { apply IH. split; [apply Z.div_pos; lia | apply Z.div_lt_upper_bound; lia]. }
      pose proof (Z.div_mod n 10 ltac:(lia)).
      pose proof (Z.mod_pos_bound n 10 ltac:(lia)). lia.
Qed.

(** [decimal] writes its argument: reading the digits back gives the number,
    for everything an unsigned long can hold. *)
Lemma str_value_decimal (n : Z) :
  0 <= n < 10000000000 -> str_value (decimal n) 0 = n.
Proof.
  intros Hn. unfold decimal. rewrite str_value_low_digits.
  rewrite Z.mod_small; [lia|].
  split; [lia | apply ndigits_bound; exact Hn].
Qed.

(** ** The period modes: frequency from period *)

Lemma frac_digits_low_digits (k : nat) (r d : Z) :
  0 <= r < d ->
  low_digits k (r * 10 ^ Z.of_nat k / d) = frac_digits k r d.
Proof.
  revert r. induction k as [|k IH]; intros r Hr; [reflexivity|].
  change (S k) with (1 + k)%nat at 1. rewrite low_digits_split.
  pose proof (pow10_pos k) as Hk.
  assert (Hq : r * 10 ^ Z.of_nat (S k) / d / 10 ^ Z.of_nat k = r * 10 / d).
  { rewrite Z.div_div by lia. rewrite pow10_succ.
    replace (r * (10 * 10 ^ Z.of_nat k)) with (r * 10 * 10 ^ Z.of_nat k) by ring.
    apply Z.div_mul_cancel_r; lia. }
  assert (Hd : 0 <= r * 10 / d < 10).
  { split; [apply Z.div_pos; lia | apply Z.div_lt_upper_bound; lia]. }
  assert (Hx : r * 10 ^ Z.of_nat (S k) / d
               = (r * 10 / d) * 10 ^ Z.of_nat k + (r * 10 mod d) * 10 ^ Z.of_nat k / d).
  { rewrite pow10_succ.
    replace (r * (10 * 10 ^ Z.of_nat k))
      with ((r * 10 mod d) * 10 ^ Z.of_nat k + (r * 10 / d * 10 ^ Z.of_nat k) * d).
    - rewrite Z.div_add by lia. ring.
    - pose proof (Z.div_mod (r * 10) d). nia. }
  rewrite Hq. rewrite Hx at 1. rewrite low_digits_add_multiple.
  rewrite IH by (apply Z.mod_pos_bound; lia).
  rewrite low_digits_S. cbn [low_digits append frac_digits].
  rewrite (Z.mod_small (r * 10 / d)) by lia. reflexivity.
Qed.

(** What the code computes, [(10^11 x N) / P] split at 100000, is the
    specification's string. *)
Lemma scaled_quotient_split (N P : Z) :
  0 < N -> 0 < P ->
  let Q := 100000000000 * N / P in
  Q / 100000 = 1000000 * N / P /\
  low_digits 5 Q = frac_digits 5 (1000000 * N mod P) P.
Proof.
  intros HN HP Q. subst Q.
  assert (Hx : 100000000000 * N / P
               = (1000000 * N / P) * 10 ^ Z.of_nat 5
                 + (1000000 * N mod P) * 10 ^ Z.of_nat 5 / P).
  { change (10 ^ Z.of_nat 5) with 100000.
    replace (100000000000 * N)
      with ((1000000 * N mod P) * 100000 + (1000000 * N / P * 100000) * P).
    - rewrite Z.div_add by lia. ring.
    - pose proof (Z.div_mod (1000000 * N) P). nia. }
  pose proof (Z.mod_pos_bound (1000000 * N) P HP) as Hr.
  split.
  - rewrite Hx. change (10 ^ Z.of_nat 5) with 100000.
    rewrite Z.add_comm, Z.div_add by lia.
    rewrite (Z.div_small (_ / P)); [reflexivity|].
    split; [apply Z.div_pos; lia | apply Z.div_lt_upper_bound; nia].
  - rewrite Hx, low_digits_add_multiple. apply frac_digits_low_digits, Hr.
Qed.

(** The five decimals of the period-mode string denote the scaled remainder:
    integer part and decimals together are (10^11 x N) / P. *)
Lemma spec_period_string_value (N P : Z) :
  0 < N <= 100 -> 24 * N < P ->
  exists ip fp : string,
    spec_period_string N P = ip ++ String "." fp /\
    String.length fp = 5%nat /\
    str_value ip 0 * 100000 + str_value fp 0 = 100000000000 * N / P.
Proof.
  intros HN HP.
  exists (decimal (1000000 * N / P)), (frac_digits 5 (1000000 * N mod P) P).
  destruct (scaled_quotient_split N P) as [Hq Hf]; [lia | lia |].
  split; [reflexivity|]. rewrite <- Hf, low_digits_length.
  split; [reflexivity|].
  rewrite str_value_low_digits, str_value_decimal.
  - rewrite <- Hq. change (10 ^ Z.of_nat 5) with 100000.
    pose proof (Z.div_mod (100000000000 * N / P) 100000 ltac:(lia)). lia.
  - split; [apply Z.div_pos; lia | apply Z.div_lt_upper_bound; lia].
Qed.

Lemma read_format_period_valid (N P : Z) (s : state) :
  FCPRDNO <= fcGateTime s ->
  PrdCnt s = N -> 0 < N <= 100 ->
  _FreqCtrReady s <> 0 ->
  fcResult s = P -> 24 * N < P < 4294967296 ->
  FrequencyCounter.read_format s = (spec_period_string N P, set__FreqCtrReady 0 s).
Proof.
  intros Hm HN HNr Hr HP HPr. unfold FrequencyCounter.read_format, nz.
  rewrite HN, HP. unfold FCPRDNO in *. rewrite Z.geb_leb.
  destruct (7 <=? fcGateTime s) eqn:E1; [|lia].
  destruct (_FreqCtrReady s =? 0) eqn:E2; [lia|].
  rewrite Z.gtb_ltb.
  destruct (24 * N <? P) eqn:E3; [|lia].
  simpl negb. cbv iota beta. simpl andb. cbv iota beta.
  assert (HQ : 0 <= 100000000000 * N / P < 4294967296).
  { split; [apply Z.div_pos; lia | apply Z.div_lt_upper_bound; lia]. }
  unfold u64. rewrite (Z.mod_small (100000000000 * N)) by lia.
  unfold u32 at 1 2. rewrite !(Z.mod_small (100000000000 * N / P)) by lia.
  destruct (scaled_quotient_split N P) as [Hq Hf]; [lia | lia |].
  destruct (5 =? 0) eqn:E5; [discriminate|]. simpl negb. cbv iota.
  rewrite DPStr_low_digits by lia.
  unfold sprintf_lu, u32 at 1 2.
  rewrite (Z.mod_small (100000000000 * N / P)) by lia.
  rewrite Hq.
  rewrite Z.mod_small.
  - change (Z.to_nat 5) with 5%nat. rewrite Hf. reflexivity.
  - split; [apply Z.div_pos; lia | apply Z.div_lt_upper_bound; lia].
Qed.

Lemma low_digits_mod (k : nat) (n : Z) :
  low_digits k (n mod 10 ^ Z.of_nat k) = low_digits k n.
Proof.
  pose proof (pow10_pos k) as Hk.
  rewrite (Z.div_mod n (10 ^ Z.of_nat k)) at 2 by lia.
  rewrite (Z.mul_comm (10 ^ Z.of_nat k)), low_digits_add_multiple. reflexivity.
Qed.

(** [read] once its wait loop is left: the buffer gets the formatted value. *)
Lemma read_after_wait (buf : string) (Wait : bool) (sched rest : schedule)
      (s s1 : state) :
  wait_loop Wait sched s = Some (s1, rest) ->
  read (Some buf) Wait sched s
  = Some (Some (fst (FrequencyCounter.read_format s1)),
          snd (FrequencyCounter.read_format s1), rest).
Proof.
  intros H. unfold read. rewrite H.
  destruct (FrequencyCounter.read_format s1). reflexivity.
Qed.

(** C1: in a period mode with averaging count N (1, 10 or 100), when the
    result is ready and the raw period P is above 24 x N, [read] returns the
    decimal rendering of (10^6 x N) / P with exactly five decimals; this is
    the quotient (10^11 x N) / P, computed without overflow, split at
    100000. *)
Theorem period_read_is_exact_frequency
        (N P : Z) (buf : string) (Wait : bool) (sched rest : schedule)
        (s s1 : state) :
  wait_loop Wait sched s = Some (s1, rest) ->
  FCPRDNO <= fcGateTime s1 ->
  PrdCnt s1 = N -> N = 1 \/ N = 10 \/ N = 100 ->
  _FreqCtrReady s1 <> 0 ->
  fcResult s1 = P -> 24 * N < P < 4294967296 ->
  read (Some buf) Wait sched s
  = Some (Some (spec_period_string N P), set__FreqCtrReady 0 s1, rest) /\
  spec_period_string N P
  = decimal (100000000000 * N / P / 100000)
    ++ String "." (low_digits 5 (100000000000 * N / P mod 100000)).
Proof.
  intros Hw Hm HN HN3 Hr HP HPr.
  assert (HNr : 0 < N <= 100) by lia.
  split.
  - rewrite (read_after_wait buf Wait sched rest s s1 Hw).
    rewrite (read_format_period_valid N P s1) by assumption. reflexivity.
  - destruct (scaled_quotient_split N P) as [Hq Hf]; [lia | lia |].
    unfold spec_period_string. rewrite Hq, <- Hf.
    change 100000 with (10 ^ Z.of_nat 5). rewrite low_digits_mod. reflexivity.
Qed.

(** One period of 1000 microseconds measured while [read] waits. *)
Lemma period_read_is_exact_frequency_witness :
  read (Some "") true [[Pulse 1000]; [Pulse 2000]; [Tick]] (run [SetMode 7] init)
  = Some (Some (spec_period_string 1 1000),
          set__FreqCtrReady 0 (run [SetMode 7; Pulse 1000; Pulse 2000] init),
          [[Tick]]) /\
  spec_period_string 1 1000
  = decimal (100000000000 * 1 / 1000 / 100000)
    ++ String "." (low_digits 5 (100000000000 * 1 / 1000 mod 100000)).
Proof.
  apply (period_read_is_exact_frequency 1 1000 "" true
           [[Pulse 1000]; [Pulse 2000]; [Tick]] [[Tick]]
           (run [SetMode 7] init)
           (run [SetMode 7; Pulse 1000; Pulse 2000] init)).
  - vm_compute. reflexivity.
  - vm_compute. discriminate.
  - vm_compute. reflexivity.
  - left. reflexivity.
  - vm_compute. discriminate.
  - vm_compute. reflexivity.
  - lia.
Defined.

Example period_1kHz_string : spec_period_string 1 1000 = "1000.00000".
Proof. vm_compute. reflexivity. Qed.

Example period_x100_string : spec_period_string 100 30000 = "3333.33333".
Proof. vm_compute. reflexivity. Qed.

(** ** The frequency modes: scaling by the gate time *)

Lemma u32_small (x : Z) : 0 <= x < 4294967296 -> u32 x = x.
Proof. intros H. unfold u32. apply Z.mod_small, H. Qed.

Lemma u32_times10_twice (x : Z) : u32 (u32 (x * 10) * 10) = u32 (x * 100).
Proof.
  unfold u32. rewrite Z.mul_mod_idemp_l by lia. f_equal. ring.
Qed.

Lemma u32_idem (x : Z) : u32 (u32 x) = u32 x.
Proof. unfold u32. apply Z.mod_mod. lia. Qed.

Lemma read_format_frequency (s : state) :
  1 <= fcGateTime s <= FCEXTNO ->
  fcprescalInit s = divisor (fcGateTime s) ->
  0 <= fcResult s < 4294967296 ->
  FrequencyCounter.read_format s
  = (spec_frequency_string (fcprescalInit s) (fcResult s), set__FreqCtrReady 0 s).
Proof.
  intros Hm Hd HV. unfold FrequencyCounter.read_format.
  rewrite Hd. unfold FCEXTNO, FCPRDNO in *.
  rewrite Z.geb_leb. destruct (7 <=? fcGateTime s) eqn:E; [lia|].
  set (Val := fcResult s) in *.
  assert (Hc : fcGateTime s = 1 \/ fcGateTime s = 2 \/ fcGateTime s = 3 \/
               fcGateTime s = 4 \/ fcGateTime s = 5 \/ fcGateTime s = 6) by lia.
  assert (H10 : 0 <= Val / 10 < 4294967296).
  { split; [apply Z.div_pos; lia | apply Z.div_lt_upper_bound; lia]. }
  assert (H100 : 0 <= Val / 100 < 4294967296).
  { split; [apply Z.div_pos; lia | apply Z.div_lt_upper_bound; lia]. }
  unfold spec_frequency_string.
  destruct Hc as [Hc | [Hc | [Hc | [Hc | [Hc | Hc]]]]]; rewrite Hc; cbn [divisor].
  - (* 1 s *)
    change (s8 (Log10I 100 - 2)) with 0. change (100 / 100) with 1.
    change (0 <? 0) with false. change (100 <=? 100) with true.
    cbv beta iota zeta. change (nz 0) with false. cbv iota.
    unfold sprintf_lu. rewrite Z.div_1_r, Z.mul_1_r. reflexivity.
  - (* 10 ms *)
    change (s8 (Log10I 1 - 2)) with (-2). change (-2 <? 0) with true.
    change (scale_up 128 (-2) Val) with (0, u32 (u32 (Val * 10) * 10)).
    change (1 <=? 100) with true. change (100 / 1) with 100.
    cbv beta iota zeta. change (nz 0) with false. cbv iota.
    unfold sprintf_lu. rewrite Z.div_1_r, u32_idem, u32_times10_twice. reflexivity.
  - (* 100 ms *)
    change (s8 (Log10I 10 - 2)) with (-1). change (-1 <? 0) with true.
    change (scale_up 128 (-1) Val) with (0, u32 (Val * 10)).
    change (10 <=? 100) with true. change (100 / 10) with 10.
    cbv beta iota zeta. change (nz 0) with false. cbv iota.
    unfold sprintf_lu. rewrite Z.div_1_r, u32_idem. reflexivity.
  - (* 10 s *)
    change (s8 (Log10I 1000 - 2)) with 1. change (1000 / 100) with 10.
    change (1 <? 0) with false. change (1000 <=? 100) with false.
    cbv beta iota zeta. change (nz 1) with true. cbv iota.
    rewrite DPStr_low_digits by lia. unfold sprintf_lu.
    rewrite !u32_small by lia.
    change (ndigits 9 10 - 1)%nat with 1%nat. change (Z.to_nat 1) with 1%nat.
    change 10 with (10 ^ Z.of_nat 1) at 3. rewrite low_digits_mod. reflexivity.
  - (* 100 s *)
    change (s8 (Log10I 10000 - 2)) with 2. change (10000 / 100) with 100.
    change (2 <? 0) with false. change (10000 <=? 100) with false.
    cbv beta iota zeta. change (nz 2) with true. cbv iota.
    rewrite DPStr_low_digits by lia. unfold sprintf_lu.
    rewrite !u32_small by lia.
    change (ndigits 9 100 - 1)%nat with 2%nat. change (Z.to_nat 2) with 2%nat.
    change 100 with (10 ^ Z.of_nat 2) at 3. rewrite low_digits_mod. reflexivity.
  - (* external gate *)
    change (s8 (Log10I 100 - 2)) with 0. change (100 / 100) with 1.
    change (0 <? 0) with false. change (100 <=? 100) with true.
    cbv beta iota zeta. change (nz 0) with false. cbv iota.
    unfold sprintf_lu. rewrite Z.div_1_r, Z.mul_1_r. reflexivity.
Qed.

(** C2: in the frequency modes [read] scales the raw count by the gate
    time with integer arithmetic: gates of one second or less give an
    integer string, longer gates give the truncated quotient, the point and
    the remainder as decimals.  With the 10 ms gate a raw count of 500 reads
    "50000"; with the 10 s gate it reads "50.0". *)
Theorem frequency_read_scales_by_gate
        (buf : string) (Wait : bool) (sched rest : schedule) (s s1 : state) :
  wait_loop Wait sched s = Some (s1, rest) ->
  1 <= fcGateTime s1 <= FCEXTNO ->
  fcprescalInit s1 = divisor (fcGateTime s1) ->
  0 <= fcResult s1 < 4294967296 ->
  exists str : string,
    read (Some buf) Wait sched s = Some (Some str, set__FreqCtrReady 0 s1, rest) /\
    str = spec_frequency_string (divisor (fcGateTime s1)) (fcResult s1) /\
    (fcGateTime s1 = 2 -> fcResult s1 = 500 -> str = "50000") /\
    (fcGateTime s1 = 4 -> fcResult s1 = 500 -> str = "50.0").
Proof.
  intros Hw Hm Hd HV.
  exists (spec_frequency_string (divisor (fcGateTime s1)) (fcResult s1)).
  split; [|split; [reflexivity|split]].
  - rewrite (read_after_wait buf Wait sched rest s s1 Hw).
    rewrite (read_format_frequency s1 Hm Hd HV), Hd. reflexivity.
  - intros -> ->. vm_compute. reflexivity.
  - intros -> ->. vm_compute. reflexivity.
Qed.

Lemma frequency_read_scales_by_gate_witness :
  exists str : string,
    read (Some "") true [repeat (Pulse 0) 500; repeat Tick 1000]
         (run [SetMode 4; Tick] init)
    = Some (Some str, set__FreqCtrReady 0 ten_second_gate_500, []) /\
    str = spec_frequency_string (divisor (fcGateTime ten_second_gate_500))
                                (fcResult ten_second_gate_500) /\
    (fcGateTime ten_second_gate_500 = 2 ->
     fcResult ten_second_gate_500 = 500 -> str = "50000") /\
    (fcGateTime ten_second_gate_500 = 4 ->
     fcResult ten_second_gate_500 = 500 -> str = "50.0").
Proof.
  apply (frequency_read_scales_by_gate "" true
           [repeat (Pulse 0) 500; repeat Tick 1000] []
           (run [SetMode 4; Tick] init) ten_second_gate_500).
  - vm_compute. reflexivity.
  - vm_compute. split; discriminate.
  - vm_compute. reflexivity.
  - vm_compute. split; [discriminate | reflexivity].
Defined.

Example ten_ms_gate_500_reads_50000 :
  read (Some "") false []
       (run ([SetMode 2; Tick] ++ repeat (Pulse 0) 500 ++ [Tick]) init)
  = Some (Some "50000",
          set__FreqCtrReady 0
            (run ([SetMode 2; Tick] ++ repeat (Pulse 0) 500 ++ [Tick]) init),
          []).
Proof. vm_compute. reflexivity. Qed.

Example hundred_second_gate_truncates :
  spec_frequency_string (divisor 5) 599 = "5.99" /\
  spec_frequency_string (divisor 4) 509 = "50.9".
Proof. vm_compute. split; reflexivity. Qed.

(** ** The period modes: timeout and over-range *)

Lemma tick_counts_down (s : state) :
  1 < fcprescaler s < 65536 ->
  FreqCtrGateISR s = set_fcprescaler (fcprescaler s - 1) s.
Proof.
  intros H. unfold FreqCtrGateISR, nz, u16.
  destruct (fcprescaler s =? 0) eqn:E; [lia|]. simpl negb. cbv iota.
  rewrite Z.mod_small by lia. simpl fcprescaler.
  destruct (fcprescaler s - 1 =? 0) eqn:E1; [lia|]. reflexivity.
Qed.

Lemma tick_period_timeout (s : state) :
  FCPRDNO <= fcGateTime s -> fcprescaler s = 1 -> _FreqCtrReady s = 0 ->
  let s' := FreqCtrGateISR s in
  fcResult s' = 1 /\ _FreqCtrReady s' = 1 /\ fcOVF s' = 0 /\
  fcGateTime s' = fcGateTime s /\ PrdCnt s' = PrdCnt s /\
  fcprescaler s' = fcprescalInit s.
Proof.
  unfold FCPRDNO. destruct s; simpl. intros Hm -> ->.
  unfold FreqCtrGateISR, FCPRDNO; simpl.
  rewrite Z.geb_leb. destruct (7 <=? fcGateTime0) eqn:E; [|lia].
  simpl. repeat split; reflexivity.
Qed.

(** With no input edge, the timeout is reached after as many ticks as the
    countdown holds. *)
Lemma ticks_until_timeout (k : nat) (s : state) :
  FCPRDNO <= fcGateTime s -> _FreqCtrReady s = 0 ->
  fcprescaler s = Z.of_nat (S k) -> fcprescaler s < 65536 ->
  let s' := run (repeat Tick (S k)) s in
  fcResult s' = 1 /\ _FreqCtrReady s' = 1 /\ fcOVF s' = 0 /\
  fcGateTime s' = fcGateTime s /\ PrdCnt s' = PrdCnt s /\
  fcprescaler s' = fcprescalInit s.
Proof.
  revert s. induction k as [|k IH]; intros s Hm Hr Hp Hlt.
  - apply tick_period_timeout; assumption.
  - change (run (repeat Tick (S (S k))) s)
      with (run (repeat Tick (S k)) (FreqCtrGateISR s)).
    rewrite tick_counts_down by lia.
    specialize (IH (set_fcprescaler (fcprescaler s - 1) s)).
    simpl fcGateTime in IH. simpl _FreqCtrReady in IH. simpl fcprescaler in IH.
    simpl PrdCnt in IH. simpl fcprescalInit in IH.
    apply IH; try assumption; lia.
Qed.

Lemma read_format_period_sentinel (s : state) :
  FCPRDNO <= fcGateTime s -> fcResult s = 1 -> 1 <= PrdCnt s ->
  FrequencyCounter.read_format s = ("0.00000", set__FreqCtrReady 0 s).
Proof.
  intros Hm HV HN. unfold FrequencyCounter.read_format, FCPRDNO in *.
  rewrite HV, Z.geb_leb, Z.gtb_ltb.
  destruct (7 <=? fcGateTime s) eqn:E; [|lia].
  destruct (24 * PrdCnt s <? 1) eqn:E1; [lia|].
  rewrite andb_false_r. reflexivity.
Qed.

Lemma read_format_period_overrange (s : state) :
  FCPRDNO <= fcGateTime s -> fcResult s <> 1 -> fcResult s <= 24 * PrdCnt s ->
  FrequencyCounter.read_format s = ("999999", set__FreqCtrReady 0 s).
Proof.
  intros Hm HV HN. unfold FrequencyCounter.read_format, FCPRDNO in *.
  rewrite Z.geb_leb, Z.gtb_ltb.
  destruct (7 <=? fcGateTime s) eqn:E; [|lia].
  destruct (24 * PrdCnt s <? fcResult s) eqn:E1; [lia|].
  rewrite andb_false_r.
  destruct (fcResult s =? 1) eqn:E2; [lia|]. reflexivity.
Qed.

(** C3: in a period mode, when the timeout countdown runs out with no result
    ready, the gate function stores the raw value 1 and sets the ready flag,
    and [read] then yields exactly "0.00000"; a raw period that is not 1 and
    not above 24 x PrdCnt reads exactly "999999", without decimals. *)
Theorem period_timeout_and_overrange :
  (forall (s : state) (k : nat) (buf : string),
      FCPRDNO <= fcGateTime s -> 1 <= PrdCnt s -> _FreqCtrReady s = 0 ->
      fcprescaler s = Z.of_nat (S k) -> fcprescaler s < 65536 ->
      let s' := run (repeat Tick (S k)) s in
      fcResult s' = 1 /\ _FreqCtrReady s' = 1 /\
      read (Some buf) true [] s' = Some (Some "0.00000", set__FreqCtrReady 0 s', [])) /\
  (forall (s s1 : state) (buf : string) (Wait : bool) (sched rest : schedule),
      wait_loop Wait sched s = Some (s1, rest) ->
      FCPRDNO <= fcGateTime s1 ->
      fcResult s1 <> 1 -> fcResult s1 <= 24 * PrdCnt s1 ->
      read (Some buf) Wait sched s = Some (Some "999999", set__FreqCtrReady 0 s1, rest)).
Proof.
  split.
  - intros s k buf Hm HN Hr Hp Hlt s'.
    destruct (ticks_until_timeout k s Hm Hr Hp Hlt) as (E1 & E2 & _ & E4 & E5 & _).
    fold s' in E1, E2, E4, E5.
    split; [exact E1|]. split; [exact E2|].
    assert (Hw : wait_loop true [] s' = Some (s', [])).
    { unfold wait_loop, FrequencyCounter.must_wait, nz. rewrite E2.
      rewrite andb_false_r. reflexivity. }
    rewrite (read_after_wait buf true [] [] s' s' Hw).
    rewrite read_format_period_sentinel; [reflexivity | lia | exact E1 | lia].
  - intros s s1 buf Wait sched rest Hw Hm HV HN.
    rewrite (read_after_wait buf Wait sched rest s s1 Hw).
    rewrite read_format_period_overrange by assumption. reflexivity.
Qed.

(** The timeout right after [mode(8)], and a period of 3 microseconds. *)
Lemma period_timeout_and_overrange_witness :
  (fcResult (run (repeat Tick 1) (run [SetMode 8] init)) = 1 /\
   _FreqCtrReady (run (repeat Tick 1) (run [SetMode 8] init)) = 1 /\
   read (Some "") true [] (run (repeat Tick 1) (run [SetMode 8] init))
   = Some (Some "0.00000",
           set__FreqCtrReady 0 (run (repeat Tick 1) (run [SetMode 8] init)),
           [])) /\
  read (Some "") true [[Pulse 1000]; [Pulse 1003]] (run [SetMode 7] init)
  = Some (Some "999999",
          set__FreqCtrReady 0 (run [SetMode 7; Pulse 1000; Pulse 1003] init),
          []).
Proof.
  split.
  - apply (proj1 period_timeout_and_overrange (run [SetMode 8] init) 0%nat "").
    + vm_compute. discriminate.
    + vm_compute. discriminate.
    + vm_compute. reflexivity.
    + vm_compute. reflexivity.
    + vm_compute. reflexivity.
  - apply (proj2 period_timeout_and_overrange (run [SetMode 7] init)
             (run [SetMode 7; Pulse 1000; Pulse 1003] init) "" true
             [[Pulse 1000]; [Pulse 1003]] []).
    + vm_compute. reflexivity.
    + vm_compute. discriminate.
    + vm_compute. discriminate.
    + vm_compute. discriminate.
Defined.

(** ** The first gate interval after [mode] *)

Lemma rising_edge_needs_running_counter (lo hi : Z) (s : state) :
  TCCR0B s = 0 -> Z.land lo FCEXTGATEMSK = 0 ->
  _FreqCtrReady (snd (PCChangeIntFunc (lo, hi) s)) = _FreqCtrReady s /\
  TCCR0B (snd (PCChangeIntFunc (lo, hi) s)) = 0.
Proof.
  destruct s; simpl. intros -> Hlo.
  unfold PCChangeIntFunc, nz; simpl. rewrite Hlo. simpl.
  split_ifs; split; reflexivity.
Qed.

(** A tick-driven gate close sets the ready flag exactly when the counter
    was running (TCCR0B nonzero) before it. *)
Lemma gate_close_ready (s : state) :
  fcGateTime s < FCPRDNO -> fcprescaler s = 1 ->
  _FreqCtrReady (FreqCtrGateISR s)
  = (if TCCR0B s =? 0 then _FreqCtrReady s else 1).
Proof.
  unfold FCPRDNO. destruct s; simpl. intros Hm ->.
  unfold FreqCtrGateISR, FCPRDNO, nz; simpl.
  rewrite Z.geb_leb. destruct (7 <=? fcGateTime0) eqn:E; [lia|].
  simpl. destruct (TCCR0B0 =? 0); reflexivity.
Qed.

(** A rising edge of the external gate does the same. *)
Lemma rising_edge_ready (lo hi : Z) (s : state) :
  fcGateTime s = FCEXTNO ->
  Z.land lo FCEXTGATEMSK = 0 -> Z.land hi FCEXTGATEMSK <> 0 ->
  _FreqCtrReady (snd (PCChangeIntFunc (lo, hi) s))
  = (if TCCR0B s =? 0 then _FreqCtrReady s else 1).
Proof.
  destruct s; simpl. intros -> Hlo Hhi.
  unfold PCChangeIntFunc, nz; simpl. rewrite Hlo. simpl.
  destruct (Z.land hi FCEXTGATEMSK =? 0) eqn:E; [lia|]. simpl.
  destruct (TCCR0B0 =? 0); reflexivity.
Qed.

(** A falling edge of the external gate starts the counter. *)
Lemma falling_edge_starts_counter (lo hi : Z) (s : state) :
  fcGateTime s = FCEXTNO ->
  Z.land lo FCEXTGATEMSK <> 0 -> Z.land hi FCEXTGATEMSK = 0 ->
  TCCR0B (snd (PCChangeIntFunc (lo, hi) s)) = 6 /\
  _FreqCtrReady (snd (PCChangeIntFunc (lo, hi) s)) = _FreqCtrReady s.
Proof.
  destruct s; simpl. intros -> Hlo Hhi.
  unfold PCChangeIntFunc, nz; simpl.
  destruct (Z.land lo FCEXTGATEMSK =? 0) eqn:E; [lia|]. simpl.
  rewrite Hhi. simpl. split; reflexivity.
Qed.

Lemma quiet_step_armed (g : Z) (e : event) (s : state) :
  1 <= g < FCEXTNO -> quiet e = true -> armed g s -> armed g (step e s).
Proof.
  unfold FCEXTNO. intros Hg Hq (H1 & H2 & H3 & H4 & H5).
  destruct e as [ | m | lo hi | m | g' | | ]; try discriminate Hq; simpl.
  - unfold TIMER0_OVF_vect, FCPRDNO. rewrite H1, Z.geb_leb.
    destruct (7 <=? g) eqn:E; [lia|]. repeat split; assumption.
  - unfold PCChangeIntFunc, FCEXTNO. rewrite H1.
    destruct (g =? 6) eqn:E; [lia|]. repeat split; assumption.
  - unfold timer0_count. rewrite H4. simpl. repeat split; assumption.
  - rewrite read_format_state. repeat split; assumption.
  - repeat split; assumption.
Qed.

Lemma quiet_run_armed (g : Z) (evs : list event) (s : state) :
  1 <= g < FCEXTNO -> forallb quiet evs = true -> armed g s ->
  armed g (run evs s).
Proof.
  intros Hg. revert s. induction evs as [|e evs IH]; intros s Hq Ha; simpl.
  - exact Ha.
  - simpl in Hq. apply andb_true_iff in Hq. destruct Hq as [He Hq].
    apply IH; [exact Hq|]. apply quiet_step_armed; assumption.
Qed.

Lemma first_tick_armed (g : Z) (s : state) :
  1 <= g < FCEXTNO -> armed g s ->
  _FreqCtrReady (FreqCtrGateISR s) = 0 /\ TCCR0B (FreqCtrGateISR s) = 6 /\
  fcprescaler (FreqCtrGateISR s) = divisor g.
Proof.
  unfold FCEXTNO, armed. destruct s; simpl.
  intros Hg (-> & -> & -> & -> & ->).
  unfold FreqCtrGateISR, FCPRDNO; simpl.
  rewrite Z.geb_leb. destruct (7 <=? g) eqn:E; [lia|].
  simpl. repeat split; reflexivity.
Qed.

Lemma no_fall_step_idle (e : event) (s : state) :
  no_gate_fall e = true -> gate_idle s -> gate_idle (step e s).
Proof.
  unfold gate_idle, FCEXTNO. intros Hq (H1 & H2 & H3 & H4).
  destruct e as [ | m | lo hi | m | g' | | ]; try discriminate Hq; simpl.
  - unfold FreqCtrGateISR, nz. rewrite H2. simpl. repeat split; assumption.
  - unfold TIMER0_OVF_vect, FCPRDNO. rewrite H1. simpl. repeat split; assumption.
  - simpl in Hq. unfold nz in Hq. apply negb_true_iff in Hq.
    apply negb_false_iff, Z.eqb_eq in Hq.
    destruct (rising_edge_needs_running_counter lo hi s H3 Hq) as [E1 E2].
    destruct (PCChangeIntFunc_frame (lo, hi) s) as (F1 & _ & F3 & _).
    rewrite E1, E2, F1, F3. repeat split; assumption.
  - unfold timer0_count. rewrite H3. simpl. repeat split; assumption.
  - rewrite read_format_state. repeat split; assumption.
  - repeat split; assumption.
Qed.

Lemma no_fall_run_idle (evs : list event) (s : state) :
  forallb no_gate_fall evs = true -> gate_idle s -> gate_idle (run evs s).
Proof.
  revert s. induction evs as [|e evs IH]; intros s Hq Ha; simpl.
  - exact Ha.
  - simpl in Hq. apply andb_true_iff in Hq. destruct Hq as [He Hq].
    apply IH; [exact Hq|]. apply no_fall_step_idle; assumption.
Qed.

Lemma run_app (evs evs' : list event) (s : state) :
  run (evs ++ evs') s = run evs' (run evs s).
Proof.
  revert s. induction evs as [|e evs IH]; intros s; simpl; [reflexivity|apply IH].
Qed.

Lemma mode_arms (g : Z) (s : state) :
  1 <= g < FCEXTNO -> armed g (snd (FrequencyCounter.mode g s)).
Proof.
  unfold FCEXTNO. intros Hg.
  destruct (mode_accepted g s) as (_ & E1 & E2 & E3 & E4 & _ & _ & E7);
    [unfold FCMODEMAX; lia|].
  destruct E7 as (_ & _ & E8); [unfold FCPRDNO; lia|].
  unfold armed. rewrite E1, E2, E3, E4, E8. unfold armed_prescaler, FCEXTNO.
  destruct (g =? 0) eqn:G0; [lia|]. destruct (g =? 6) eqn:G6; [lia|].
  repeat split; reflexivity.
Qed.

Lemma mode_external_idle (s : state) :
  gate_idle (snd (FrequencyCounter.mode FCEXTNO s)).
Proof.
  destruct (mode_accepted FCEXTNO s) as (_ & E1 & E2 & E3 & E4 & _ & _ & E7);
    [vm_compute; split; discriminate|].
  destruct E7 as (_ & _ & E8); [reflexivity|].
  unfold gate_idle. rewrite E1, E3, E4, E8. repeat split; reflexivity.
Qed.

(** C4, as stated, fails for the external gate: right after [mode(6)] a
    falling edge of the gate followed by its rising edge closes the very
    first gate interval since activation, and the ready flag is set. *)
Lemma first_external_gate_sets_ready_counterexample :
  _FreqCtrReady (run [SetMode 6] init) = 0 /\
  _FreqCtrReady (run [SetMode 6; PinChange 32 0] init) = 0 /\
  _FreqCtrReady (run [SetMode 6; PinChange 32 0; PinChange 0 32] init) = 1.
Proof. vm_compute. repeat split. Qed.

(** C4, amended: at a frequency-mode gate close (tick or rising edge of the
    external gate) the ready flag is set exactly when the saved TCCR0B was
    nonzero, and [mode] leaves TCCR0B zero.  In the tick-gated modes 1..5
    the first gate close after [mode] therefore never sets ready (it starts
    the counter and reloads the countdown).  In the external gate mode a
    rising edge that comes before any falling edge since [mode] never sets
    ready; a falling edge starts the counter, so the first complete
    falling-to-rising gate does set ready. *)
Theorem first_gate_close_sets_no_ready (s : state) (evs : list event) :
  (forall g : Z,
      1 <= g < FCEXTNO -> forallb quiet evs = true ->
      let s' := run (evs ++ [Tick]) (snd (FrequencyCounter.mode g s)) in
      TCCR0B (snd (FrequencyCounter.mode g s)) = 0 /\
      _FreqCtrReady s' = 0 /\ TCCR0B s' = 6 /\ fcprescaler s' = divisor g) /\
  (forallb no_gate_fall evs = true ->
   TCCR0B (snd (FrequencyCounter.mode FCEXTNO s)) = 0 /\
   _FreqCtrReady (run evs (snd (FrequencyCounter.mode FCEXTNO s))) = 0) /\
  (fcGateTime s < FCPRDNO -> fcprescaler s = 1 ->
   _FreqCtrReady (FreqCtrGateISR s)
   = (if TCCR0B s =? 0 then _FreqCtrReady s else 1)) /\
  (forall lo hi : Z,
      fcGateTime s = FCEXTNO ->
      Z.land lo FCEXTGATEMSK = 0 -> Z.land hi FCEXTGATEMSK <> 0 ->
      _FreqCtrReady (snd (PCChangeIntFunc (lo, hi) s))
      = (if TCCR0B s =? 0 then _FreqCtrReady s else 1)) /\
  (forall lo hi : Z,
      fcGateTime s = FCEXTNO ->
      Z.land lo FCEXTGATEMSK <> 0 -> Z.land hi FCEXTGATEMSK = 0 ->
      TCCR0B (snd (PCChangeIntFunc (lo, hi) s)) = 6 /\
      _FreqCtrReady (snd (PCChangeIntFunc (lo, hi) s)) = _FreqCtrReady s).
Proof.
  split; [|split; [|split; [|split]]].
  - intros g Hg Hq s'. subst s'. rewrite run_app. simpl.
    pose proof (mode_arms g s Hg) as Ha.
    split; [apply Ha|].
    apply (first_tick_armed g); [exact Hg|].
    apply quiet_run_armed; assumption.
  - intros Hq. pose proof (mode_external_idle s) as Hi.
    split; [apply Hi|].
    apply (no_fall_run_idle evs _ Hq Hi).
  - apply gate_close_ready.
  - intros lo hi Hm Hlo Hhi. apply rising_edge_ready; assumption.
  - intros lo hi Hm Hlo Hhi. apply falling_edge_starts_counter; assumption.
Qed.

Lemma first_gate_close_sets_no_ready_witness :
  (let s' := run ([Overflow 0; ReadRaw] ++ [Tick])
                 (snd (FrequencyCounter.mode 2 three_overflows)) in
   TCCR0B (snd (FrequencyCounter.mode 2 three_overflows)) = 0 /\
   _FreqCtrReady s' = 0 /\ TCCR0B s' = 6 /\ fcprescaler s' = divisor 2) /\
  (TCCR0B (snd (FrequencyCounter.mode FCEXTNO init)) = 0 /\
   _FreqCtrReady (run [Tick; PinChange 0 32; Overflow 0]
                      (snd (FrequencyCounter.mode FCEXTNO init))) = 0) /\
  _FreqCtrReady (FreqCtrGateISR (run [SetMode 2; Tick] init))
  = (if TCCR0B (run [SetMode 2; Tick] init) =? 0
     then _FreqCtrReady (run [SetMode 2; Tick] init) else 1) /\
  _FreqCtrReady (snd (PCChangeIntFunc (0, 32) (run [SetMode 6; PinChange 32 0] init)))
  = (if TCCR0B (run [SetMode 6; PinChange 32 0] init) =? 0
     then _FreqCtrReady (run [SetMode 6; PinChange 32 0] init) else 1) /\
  (TCCR0B (snd (PCChangeIntFunc (32, 0) (run [SetMode 6] init))) = 6 /\
   _FreqCtrReady (snd (PCChangeIntFunc (32, 0) (run [SetMode 6] init)))
   = _FreqCtrReady (run [SetMode 6] init)).
Proof.
  split; [|split; [|split; [|split]]].
  - apply (proj1 (first_gate_close_sets_no_ready three_overflows
                    [Overflow 0; ReadRaw]) 2).
    + vm_compute. split; [discriminate | reflexivity].
    + vm_compute. reflexivity.
  - apply (proj1 (proj2 (first_gate_close_sets_no_ready init
                           [Tick; PinChange 0 32; Overflow 0]))).
    vm_compute. reflexivity.
  - apply (proj1 (proj2 (proj2 (first_gate_close_sets_no_ready
                                  (run [SetMode 2; Tick] init) [])))).
    + vm_compute. reflexivity.
    + vm_compute. reflexivity.
  - apply (proj1 (proj2 (proj2 (proj2 (first_gate_close_sets_no_ready
                                         (run [SetMode 6; PinChange 32 0] init) []))))
             0 32).
    + vm_compute. reflexivity.
    + vm_compute. reflexivity.
    + vm_compute. discriminate.
  - apply (proj2 (proj2 (proj2 (proj2 (first_gate_close_sets_no_ready
                                         (run [SetMode 6] init) []))))
             32 0).
    + vm_compute. reflexivity.
    + vm_compute. discriminate.
    + vm_compute. reflexivity.
Defined.

Example second_gate_close_sets_ready :
  _FreqCtrReady (run [SetMode 2; Tick] init) = 0 /\
  _FreqCtrReady (run [SetMode 2; Tick; Tick] init) = 1.
Proof. vm_compute. split; reflexivity. Qed.

(** ** The wait loop and the mode *)

Local Open Scope list_scope.

Lemma wait_loop_unfold (Wait : bool) (sched : schedule) (s : state) :
  wait_loop Wait sched s
  = if FrequencyCounter.must_wait Wait s then
      match sched with
      | [] => None
      | evs :: rest => wait_loop Wait rest (run evs s)
      end
    else Some (s, sched).
Proof. destruct sched; reflexivity. Qed.

Lemma must_wait_off (Wait : bool) (s : state) :
  fcGateTime s = 0 -> FrequencyCounter.must_wait Wait s = false.
Proof.
  intros H. unfold FrequencyCounter.must_wait, nz. rewrite H. reflexivity.
Qed.

Lemma wait_loop_off (Wait : bool) (sched : schedule) (s : state) :
  fcGateTime s = 0 -> wait_loop Wait sched s = Some (s, sched).
Proof.
  intros H. rewrite wait_loop_unfold, must_wait_off by assumption. reflexivity.
Qed.

Lemma mode_off_after (evs : list event) (s : state) :
  fcGateTime (run (evs ++ [SetMode 0]) s) = 0.
Proof.
  rewrite run_app. cbn [run step].
  apply (mode_sets_gate_time 0). unfold FCMODEMAX. lia.
Qed.

(** The loop is left no later than in the pass during which the mode is
    switched off: at most [length pre + 1] passes are used. *)
Lemma wait_loop_released (Wait : bool) (pre : schedule) (evs : list event)
      (rest : schedule) (s : state) :
  exists (s' : state) (used left : schedule),
    wait_loop Wait (pre ++ (evs ++ [SetMode 0]) :: rest)%list s = Some (s', left) /\
    (pre ++ (evs ++ [SetMode 0]) :: rest = used ++ left)%list /\
    (List.length used <= S (List.length pre))%nat.
Proof.
  revert s. induction pre as [|p pre IH]; intros s.
  - simpl app. rewrite wait_loop_unfold.
    destruct (FrequencyCounter.must_wait Wait s).
    + exists (run (evs ++ [SetMode 0]) s), [evs ++ [SetMode 0]], rest.
      rewrite wait_loop_off by apply mode_off_after.
      repeat split. simpl. lia.
    + exists s, [], ((evs ++ [SetMode 0]) :: rest).
      repeat split. simpl. lia.
  - simpl app. rewrite wait_loop_unfold.
    destruct (FrequencyCounter.must_wait Wait s).
    + destruct (IH (run p s)) as (s' & used & left & E1 & E2 & E3).
      exists s', (p :: used), left. rewrite E1.
      split; [reflexivity|]. split; [simpl; now rewrite E2 | simpl; lia].
    + exists s, [], (p :: pre ++ (evs ++ [SetMode 0]) :: rest)%list.
      repeat split. simpl. lia.
Qed.

(** C9: with the mode off, a waiting read (either overload) returns at once:
    no pass of the wait loop is made, the schedule is returned untouched.
    And since the loop tests the current mode in every pass, a waiting read
    whose schedule switches the mode off during some pass returns, no later
    than after that pass. *)
Theorem waiting_read_released_when_off :
  (forall (buf : string) (sched : schedule) (s : state),
      fcGateTime s = 0 ->
      wait_loop true sched s = Some (s, sched) /\
      read (Some buf) true sched s
      = Some (Some (fst (FrequencyCounter.read_format s)),
              set__FreqCtrReady 0 s, sched) /\
      read_ulong true sched s = Some (fcResult s, set__FreqCtrReady 0 s, sched)) /\
  (forall (buf : string) (pre : schedule) (evs : list event) (rest : schedule)
          (s : state),
      let sched := (pre ++ (evs ++ [SetMode 0]) :: rest)%list in
      exists (s' : state) (used left : schedule),
        sched = (used ++ left)%list /\ (List.length used <= S (List.length pre))%nat /\
        read (Some buf) true sched s
        = Some (Some (fst (FrequencyCounter.read_format s')),
                set__FreqCtrReady 0 s', left) /\
        read_ulong true sched s = Some (fcResult s', set__FreqCtrReady 0 s', left)).
Proof.
  split.
  - intros buf sched s H.
    pose proof (wait_loop_off true sched s H) as Hw.
    split; [exact Hw|]. split.
    + rewrite (read_after_wait buf true sched sched s s Hw), read_format_state.
      reflexivity.
    + unfold read_ulong. rewrite Hw. reflexivity.
  - intros buf pre evs rest s sched.
    destruct (wait_loop_released true pre evs rest s)
      as (s' & used & left & E1 & E2 & E3).
    fold sched in E1, E2.
    exists s', used, left. split; [exact E2|]. split; [exact E3|]. split.
    + rewrite (read_after_wait buf true sched left s s' E1), read_format_state.
      reflexivity.
    + unfold read_ulong. rewrite E1. reflexivity.
Qed.

(** A waiting read in the 100 s gate mode, released by [mode(0)] in the
    third pass of its loop. *)
Lemma waiting_read_released_when_off_witness :
  (wait_loop true [[Tick]] (run [SetMode 5; SetMode 0] init)
   = Some (run [SetMode 5; SetMode 0] init, [[Tick]]) /\
   read (Some "") true [[Tick]] (run [SetMode 5; SetMode 0] init)
   = Some (Some (fst (FrequencyCounter.read_format (run [SetMode 5; SetMode 0] init))),
           set__FreqCtrReady 0 (run [SetMode 5; SetMode 0] init), [[Tick]]) /\
   read_ulong true [[Tick]] (run [SetMode 5; SetMode 0] init)
   = Some (fcResult (run [SetMode 5; SetMode 0] init),
           set__FreqCtrReady 0 (run [SetMode 5; SetMode 0] init), [[Tick]])) /\
  (exists (s' : state) (used left : schedule),
      ([[Tick]; [Tick]] ++ ([Tick] ++ [SetMode 0]) :: [[Tick]] = used ++ left)%list /\
      (List.length used <= 3)%nat /\
      read (Some "") true ([[Tick]; [Tick]] ++ ([Tick] ++ [SetMode 0]) :: [[Tick]])%list
           (run [SetMode 5] init)
      = Some (Some (fst (FrequencyCounter.read_format s')),
              set__FreqCtrReady 0 s', left) /\
      read_ulong true ([[Tick]; [Tick]] ++ ([Tick] ++ [SetMode 0]) :: [[Tick]])%list
                 (run [SetMode 5] init)
      = Some (fcResult s', set__FreqCtrReady 0 s', left)).
Proof.
  split.
  - apply (proj1 waiting_read_released_when_off "" [[Tick]]
             (run [SetMode 5; SetMode 0] init)).
    vm_compute. reflexivity.
  - apply (proj2 waiting_read_released_when_off "" [[Tick]; [Tick]] [Tick]
             [[Tick]] (run [SetMode 5] init)).
Defined.

Example waiting_read_blocks_until_released :
  read_ulong true [[Tick]; [Tick]] (run [SetMode 5] init) = None /\
  read_ulong true [[Tick]; [Tick]; [Tick; SetMode 0]; [Tick]] (run [SetMode 5] init)
  = Some (0, run [SetMode 5; Tick; Tick; Tick; SetMode 0] init, [[Tick]]).
Proof. vm_compute. split; reflexivity. Qed.

(** * The system timer *)

Lemma SysTimerIntFunc_step (p : Z) (s : state) :
  1 <= p <= 10 ->
  SysTimerIntFunc p s = if p =? 1 then (FCTIME, FreqCtrGateISR s) else (p - 1, s).
Proof.
  intros Hp. unfold SysTimerIntFunc, nz, u8.
  rewrite Z.mod_small by lia.
  destruct (p =? 1) eqn:E1; destruct (p - 1 =? 0) eqn:E2; try lia; reflexivity.
Qed.

Lemma hook_calls_spec (n : nat) (p : Z) (s : state) :
  1 <= p <= 10 ->
  hook_calls n p s
  = (10 - (10 - p + Z.of_nat n) mod 10,
     Nat.iter (Z.to_nat ((10 - p + Z.of_nat n) / 10)) FreqCtrGateISR s).
Proof.
  intros Hp. unfold hook_calls. induction n as [|n IH].
  - change (Z.of_nat 0) with 0. rewrite Z.add_0_r.
    rewrite (Z.mod_small (10 - p)), (Z.div_small (10 - p)) by lia.
    unfold Nat.iter. cbn [nat_rect Z.to_nat]. f_equal. lia.
  - rewrite Nat.iter_succ, IH. cbn [fst snd].
    set (t := 10 - p + Z.of_nat n) in *.
    replace (10 - p + Z.of_nat (S n)) with (t + 1) by lia.
    assert (Ht : 0 <= t) by lia.
    rewrite SysTimerIntFunc_step by (pose proof (Z.mod_pos_bound t 10); lia).
    destruct (10 - t mod 10 =? 1) eqn:E.
    + assert (Hm : (t + 1) mod 10 = 0 /\ (t + 1) / 10 = t / 10 + 1)
        by (Z.div_mod_to_equations; lia).
      destruct Hm as [-> ->]. unfold FCTIME. f_equal.
      rewrite Z2Nat.inj_add by (try apply Z.div_pos; lia).
      rewrite Nat.add_comm. reflexivity.
    + assert (Hm : (t + 1) mod 10 = t mod 10 + 1 /\ (t + 1) / 10 = t / 10)
        by (Z.div_mod_to_equations; lia).
      destruct Hm as [-> ->]. f_equal. lia.
Qed.

(** X1: every tenth call of the hook runs the gate function. *)
Theorem SysTimerIntFunc_every_tenth_call (n : nat) (p : Z) (s : state) :
  1 <= p <= FCTIME ->
  fst (hook_calls n p s) = FCTIME - (FCTIME - p + Z.of_nat n) mod FCTIME /\
  snd (hook_calls n p s)
  = Nat.iter (Z.to_nat ((FCTIME - p + Z.of_nat n) / FCTIME)) FreqCtrGateISR s /\
  1 <= fst (hook_calls n p s) <= FCTIME.
Proof.
  unfold FCTIME. intros Hp. rewrite hook_calls_spec by assumption. cbn [fst snd].
  split; [reflexivity|]. split; [reflexivity|].
  pose proof (Z.mod_pos_bound (10 - p + Z.of_nat n) 10). lia.
Qed.

Lemma SysTimerIntFunc_every_tenth_call_witness :
  fst (hook_calls 25 FCTIME (run [SetMode 2] init))
  = FCTIME - (FCTIME - FCTIME + Z.of_nat 25) mod FCTIME /\
  snd (hook_calls 25 FCTIME (run [SetMode 2] init))
  = Nat.iter (Z.to_nat ((FCTIME - FCTIME + Z.of_nat 25) / FCTIME)) FreqCtrGateISR
             (run [SetMode 2] init) /\
  1 <= fst (hook_calls 25 FCTIME (run [SetMode 2] init)) <= FCTIME.
Proof.
  apply (SysTimerIntFunc_every_tenth_call 25 FCTIME (run [SetMode 2] init)).
  unfold FCTIME. lia.
Defined.

Lemma timer_interrupts_spec (n : nat) (y : sys) :
  1 <= fcprescale y <= 10 ->
  Nat.iter n TIMERa_COMPA_vect y
  = mkSys (if (n =? 0)%nat then milliseconds y
           else u32 (milliseconds y + Z.of_nat n))
          (fst (hook_calls n (fcprescale y) (core y)))
          (snd (hook_calls n (fcprescale y) (core y))).
Proof.
  intros Hp. induction n as [|n IH].
  - destruct y; reflexivity.
  - rewrite Nat.iter_succ, IH. unfold TIMERa_COMPA_vect. cbn [milliseconds fcprescale core].
    unfold hook_calls at 3 4. rewrite Nat.iter_succ. fold (hook_calls n (fcprescale y) (core y)).
    destruct (SysTimerIntFunc _ _) as [p' s'] eqn:E. cbn [fst snd].
    f_equal. change (S n =? 0)%nat with false. cbv iota.
    destruct n as [|n]; [reflexivity|].
    change (S n =? 0)%nat with false. cbv iota.
    unfold u32. rewrite Z.add_mod_idemp_l by lia. f_equal. lia.
Qed.

(** X2: the millisecond interrupt counts milliseconds and runs the gate
    function on every tenth interrupt. *)
Theorem timer_interrupts_count_and_gate (n : nat) (y : sys) :
  0 <= milliseconds y < 4294967296 ->
  fcprescale y = FCTIME ->
  millis (Nat.iter n TIMERa_COMPA_vect y) = u32 (milliseconds y + Z.of_nat n) /\
  core (Nat.iter n TIMERa_COMPA_vect y)
  = Nat.iter (Z.to_nat (Z.of_nat n / 10)) FreqCtrGateISR (core y) /\
  fcprescale (Nat.iter n TIMERa_COMPA_vect y) = FCTIME - Z.of_nat n mod 10.
Proof.
  unfold FCTIME. intros Hm Hp.
  rewrite timer_interrupts_spec by lia. unfold millis. cbn [milliseconds core fcprescale].
  rewrite hook_calls_spec by lia. cbn [fst snd]. rewrite Hp.
  replace (10 - 10 + Z.of_nat n) with (Z.of_nat n) by lia.
  split; [|split; reflexivity].
  destruct n as [|n]; [|reflexivity].
  simpl. rewrite Z.add_0_r. unfold u32. rewrite Z.mod_small by lia. reflexivity.
Qed.

Lemma timer_interrupts_count_and_gate_witness :
  millis (Nat.iter 1000 TIMERa_COMPA_vect sys_init)
  = u32 (milliseconds sys_init + Z.of_nat 1000) /\
  core (Nat.iter 1000 TIMERa_COMPA_vect sys_init)
  = Nat.iter (Z.to_nat (Z.of_nat 1000 / 10)) FreqCtrGateISR (core sys_init) /\
  fcprescale (Nat.iter 1000 TIMERa_COMPA_vect sys_init) = FCTIME - Z.of_nat 1000 mod 10.
Proof.
  apply (timer_interrupts_count_and_gate 1000 sys_init).
  - vm_compute. split; [discriminate | reflexivity].
  - reflexivity.
Defined.

(** X3: [micros] is 1000 microseconds per counted millisecond plus the
    timer count scaled, as long as the scaled count fits an unsigned int;
    and a compare match that has not been served yet is accounted for: with
    the count below 8 the reading is the one the served interrupt gives. *)
Theorem micros_reads_time (K ctr : Z) (y : sys) :
  0 <= ctr < 65536 -> 0 <= ctr * K < 65536 ->
  micros K ctr false y = u32 (1000 * milliseconds y + K * ctr) /\
  (ctr < 8 -> micros K ctr true y = micros K ctr false (TIMERa_COMPA_vect y)).
Proof.
  intros Hc HK. unfold micros, TIMERCOUNTSPERSEC, u16.
  rewrite (Z.mod_small ctr), (Z.mod_small (ctr * K)) by lia.
  split.
  - rewrite andb_false_r. unfold u32. rewrite Z.add_mod_idemp_l by lia.
    f_equal. ring.
  - intros H8. destruct (ctr <? 8) eqn:E; [|lia]. simpl andb. cbv iota.
    unfold TIMERa_COMPA_vect. destruct (SysTimerIntFunc _ _). reflexivity.
Qed.

Lemma micros_reads_time_witness :
  micros 4 3 false (Nat.iter 7 TIMERa_COMPA_vect sys_init)
  = u32 (1000 * milliseconds (Nat.iter 7 TIMERa_COMPA_vect sys_init) + 4 * 3) /\
  (3 < 8 ->
   micros 4 3 true (Nat.iter 7 TIMERa_COMPA_vect sys_init)
   = micros 4 3 false (TIMERa_COMPA_vect (Nat.iter 7 TIMERa_COMPA_vect sys_init))).
Proof.
  apply (micros_reads_time 4 3 (Nat.iter 7 TIMERa_COMPA_vect sys_init)); lia.
Defined.

Lemma iter_comm_step {A : Type} (f : A -> A) (k : nat) (x : A) :
  Nat.iter k f (f x) = f (Nat.iter k f x).
Proof.
  induction k as [|k IH]; [reflexivity|].
  rewrite !Nat.iter_succ, IH. reflexivity.
Qed.

Lemma milliseconds_after_interrupt (y : sys) :
  milliseconds (TIMERa_COMPA_vect y) = u32 (milliseconds y + 1).
Proof.
  unfold TIMERa_COMPA_vect. destruct (SysTimerIntFunc _ _). reflexivity.
Qed.

Lemma delay_loop_one_per_pass (k : nat) (ms start e : Z) (rest : list nat) (y : sys) :
  0 <= e -> e + Z.of_nat k = ms -> ms < 4294967296 ->
  milliseconds y = u32 (start + e) ->
  delay_loop ms start (repeat 1%nat k ++ rest) y
  = Some (Nat.iter k TIMERa_COMPA_vect y, rest).
Proof.
  revert e y. induction k as [|k IH]; intros e y He Hk Hms Hy.
  - assert (Hx : (ms >? 0) && (u32 (millis y - start) <? ms) = false).
    { unfold millis. rewrite Hy. unfold u32.
      rewrite Zminus_mod_idemp_l.
      replace (start + e - start) with e by ring.
      rewrite Z.mod_small by lia.
      apply andb_false_iff. right. apply Z.ltb_ge. lia. }
    simpl. destruct rest; simpl; rewrite Hx; reflexivity.
  - assert (Hx : (ms >? 0) && (u32 (millis y - start) <? ms) = true).
    { unfold millis. rewrite Hy. unfold u32.
      rewrite Zminus_mod_idemp_l.
      replace (start + e - start) with e by ring.
      rewrite Z.mod_small by lia.
      apply andb_true_iff. split; [rewrite Z.gtb_ltb; apply Z.ltb_lt|apply Z.ltb_lt]; lia. }
    cbn [repeat app delay_loop]. rewrite Hx.
    rewrite (IH (e + 1)); try lia.
    + f_equal. f_equal. change (Nat.iter 1 TIMERa_COMPA_vect y) with (TIMERa_COMPA_vect y).
      rewrite iter_comm_step. reflexivity.
    + change (Nat.iter 1 TIMERa_COMPA_vect y) with (TIMERa_COMPA_vect y).
      rewrite milliseconds_after_interrupt, Hy. unfold u32.
      rewrite Z.add_mod_idemp_l by lia. f_equal. ring.
Qed.

(** X4: [delay(ms)] returns after exactly [ms] timer interrupts when each
    pass of its loop sees one, whatever the millisecond counter holds at the
    start (a roll-over of the counter during the delay does no harm), and
    [delay(0)] returns without a pass. *)
Theorem delay_waits_ms_interrupts (ms : Z) (rest : list nat) (y : sys) :
  0 <= ms < 4294967296 -> 0 <= milliseconds y < 4294967296 ->
  delay ms (repeat 1%nat (Z.to_nat ms) ++ rest) y
  = Some (Nat.iter (Z.to_nat ms) TIMERa_COMPA_vect y, rest) /\
  delay 0 rest y = Some (y, rest).
Proof.
  intros Hms Hy. unfold delay. split.
  - unfold u32 at 1. rewrite Z.mod_small by lia.
    apply (delay_loop_one_per_pass (Z.to_nat ms) ms (millis y) 0); try lia.
    unfold millis, u32. rewrite Z.add_0_r, Z.mod_small by lia. reflexivity.
  - change (u32 0) with 0. destruct rest; reflexivity.
Qed.

(** A delay of 10 ms that starts 5 ms before the counter rolls over. *)
Lemma delay_waits_ms_interrupts_witness :
  delay 10 (repeat 1%nat (Z.to_nat 10) ++ [3%nat]) (mkSys 4294967291 FCTIME init)
  = Some (Nat.iter (Z.to_nat 10) TIMERa_COMPA_vect (mkSys 4294967291 FCTIME init),
          [3%nat]) /\
  delay 0 [3%nat] (mkSys 4294967291 FCTIME init)
  = Some (mkSys 4294967291 FCTIME init, [3%nat]).
Proof.
  apply (delay_waits_ms_interrupts 10 [3%nat] (mkSys 4294967291 FCTIME init)).
  - lia.
  - simpl. lia.
Defined.

Example delay_across_rollover :
  option_map (fun r => millis (fst r))
    (delay 10 (repeat 1%nat 10) (mkSys 4294967291 FCTIME init)) = Some 5.
Proof. vm_compute. reflexivity. Qed.

(** * Counting in the frequency modes *)

Lemma shiftl8_u32 (x y : Z) :
  u32 (u32 (Z.shiftl x 8) + y) = u32 (256 * x + y).
Proof.
  rewrite Z.shiftl_mul_pow2 by lia. change (2 ^ 8) with 256.
  unfold u32. rewrite Z.add_mod_idemp_l by lia. f_equal. ring.
Qed.

Ltac fields :=
  cbn [_FreqCtrReady fcResult fcOVF fcprescaler fcprescalInit fcGateTime PrdCnt
       TCCR0A TCCR0B TCNT0 TIFR0 TIMSK0 PCMSK0 PCICR
       set__FreqCtrReady set_fcResult set_fcOVF set_fcprescaler
       set_fcprescalInit set_fcGateTime set_PrdCnt set_TCCR0A set_TCCR0B
       set_TCNT0 set_TIFR0 set_TIMSK0 set_PCMSK0 set_PCICR].

Lemma pulse_counting (m : Z) (s : state) :
  counting s ->
  let s' := timer0_count m s in
  counting s' /\ raw_count s' = u32 (raw_count s + 1) /\
  fcGateTime s' = fcGateTime s /\ fcprescaler s' = fcprescaler s /\
  fcprescalInit s' = fcprescalInit s /\ _FreqCtrReady s' = _FreqCtrReady s /\
  fcResult s' = fcResult s.
Proof.
  unfold counting, FCPRDNO. intros (Hm & Hb & Ht & Hc).
  unfold timer0_count. rewrite Hb, Z.eqb_refl. fields.
  destruct (u8 (TCNT0 s + 1) =? 0) eqn:E.
  - rewrite Ht. unfold TIMER0_OVF_vect, FCPRDNO. fields.
    rewrite Z.geb_leb. destruct (7 <=? fcGateTime s) eqn:E7; [lia|].
    unfold raw_count. fields.
    apply Z.eqb_eq in E. rewrite E. unfold u8 in E.
    assert (H255 : TCNT0 s = 255) by (Z.div_mod_to_equations; lia).
    rewrite H255.
    repeat split; try assumption; try lia.
    change ((255 + 1) mod 256) with 0.
    unfold u32. rewrite Z.add_0_r, Zmult_mod_idemp_r, Zplus_mod_idemp_l.
    f_equal. ring.
  - unfold raw_count. fields. apply Z.eqb_neq in E. unfold u8 in *.
    assert (TCNT0 s < 255) by (Z.div_mod_to_equations; lia).
    rewrite Z.mod_small by lia.
    repeat split; try assumption; try lia.
    unfold u32. rewrite Zplus_mod_idemp_l. f_equal. ring.
Qed.

Lemma count_ticks_nonneg (evs : list event) : 0 <= count_ticks evs.
Proof. unfold count_ticks. lia. Qed.

Lemma count_ticks_cons (e : event) (evs : list event) :
  count_ticks (e :: evs)
  = (match e with Tick => 1 | _ => 0 end) + count_ticks evs.
Proof. unfold count_ticks. destruct e; simpl filter; simpl List.length; lia. Qed.

Lemma count_pulses_cons (e : event) (evs : list event) :
  count_pulses (e :: evs)
  = (match e with Pulse _ => 1 | _ => 0 end) + count_pulses evs.
Proof. unfold count_pulses. destruct e; simpl filter; simpl List.length; lia. Qed.

(** Pulses and ticks that do not yet close the gate: the countdown goes
    down by the ticks, the count goes up by the pulses. *)
Lemma gate_interval_open (evs : list event) (s : state) :
  counting s -> forallb pulse_or_tick evs = true ->
  count_ticks evs < fcprescaler s < 65536 ->
  let s' := run evs s in
  counting s' /\ raw_count s' = u32 (raw_count s + count_pulses evs) /\
  fcprescaler s' = fcprescaler s - count_ticks evs /\
  fcGateTime s' = fcGateTime s /\ fcprescalInit s' = fcprescalInit s /\
  _FreqCtrReady s' = _FreqCtrReady s /\ fcResult s' = fcResult s.
Proof.
  revert s. induction evs as [|e evs IH]; intros s Hc Hq Hp.
  - simpl. unfold count_pulses, count_ticks. simpl.
    repeat split; try apply Hc; try lia.
    unfold raw_count. rewrite Z.add_0_r. unfold u32. now rewrite Z.mod_mod by lia.
  - simpl in Hq. apply andb_true_iff in Hq. destruct Hq as [He Hq].
    rewrite count_ticks_cons in Hp. rewrite count_ticks_cons, count_pulses_cons.
    pose proof (count_ticks_nonneg evs) as Hn.
    change (run (e :: evs) s) with (run evs (step e s)).
    destruct e as [ | m | lo hi | m | g' | | ]; try discriminate He.
    + (* Tick *)
      change (step Tick s) with (FreqCtrGateISR s).
      rewrite tick_counts_down by lia.
      specialize (IH (set_fcprescaler (fcprescaler s - 1) s)).
      cbv zeta in IH. simpl fcprescaler in IH. simpl fcGateTime in IH.
      simpl fcprescalInit in IH. simpl _FreqCtrReady in IH. simpl fcResult in IH.
      change (raw_count (set_fcprescaler (fcprescaler s - 1) s)) with (raw_count s) in IH.
      destruct IH as (I1 & I2 & I3 & I4 & I5 & I6 & I7); [exact Hc | exact Hq | lia |].
      cbv zeta. repeat split; try apply I1; try assumption; try lia.
    + (* Pulse *)
      change (step (Pulse m) s) with (timer0_count m s).
      destruct (pulse_counting m s Hc) as (P1 & P2 & P3 & P4 & P5 & P6 & P7).
      specialize (IH (timer0_count m s)). cbv zeta in IH.
      destruct IH as (I1 & I2 & I3 & I4 & I5 & I6 & I7); [exact P1 | exact Hq | lia |].
      cbv zeta. repeat split; try apply I1; try lia; try congruence.
      rewrite I2, P2. unfold u32. rewrite Zplus_mod_idemp_l. f_equal. ring.
Qed.

Lemma gate_close_counting (s : state) :
  fcGateTime s < FCPRDNO -> fcprescaler s = 1 ->
  let s' := FreqCtrGateISR s in
  fcResult s' = raw_count s /\
  _FreqCtrReady s' = (if TCCR0B s =? 0 then _FreqCtrReady s else 1) /\
  TCNT0 s' = 0 /\ fcOVF s' = 0 /\ TCCR0B s' = 6 /\
  fcprescaler s' = fcprescalInit s /\ fcprescalInit s' = fcprescalInit s /\
  fcGateTime s' = fcGateTime s /\ TIMSK0 s' = TIMSK0 s.
Proof.
  unfold FCPRDNO, raw_count. intros Hm Hp.
  unfold FreqCtrGateISR, FCPRDNO, nz. rewrite Hp. fields.
  change (negb (1 =? 0)) with true. change (u16 (1 - 1)) with 0.
  change (negb (negb (0 =? 0))) with true. cbv iota.
  rewrite Z.geb_leb. destruct (7 <=? fcGateTime s) eqn:E; [lia|].
  rewrite shiftl8_u32.
  destruct (TCCR0B s =? 0); fields; repeat split; reflexivity.
Qed.

(** X5: one gate interval of a tick-gated frequency mode.  From a gate
    close on, the pulses and ticks that follow, up to the tick that makes
    the countdown expire, leave the ready flag alone; that tick publishes
    the number of pulses as the raw count, sets ready and starts the next
    interval the same way. *)
Theorem gate_interval_counts_pulses (evs : list event) (s : state) :
  counting s -> TCNT0 s = 0 -> fcOVF s = 0 ->
  fcprescaler s = fcprescalInit s -> 1 <= fcprescalInit s < 65536 ->
  forallb pulse_or_tick evs = true ->
  count_ticks evs = fcprescalInit s - 1 ->
  let s' := run (evs ++ [Tick]) s in
  _FreqCtrReady (run evs s) = _FreqCtrReady s /\
  fcResult (run evs s) = fcResult s /\
  fcResult s' = u32 (count_pulses evs) /\ _FreqCtrReady s' = 1 /\
  counting s' /\ TCNT0 s' = 0 /\ fcOVF s' = 0 /\
  fcprescaler s' = fcprescalInit s' /\ fcprescalInit s' = fcprescalInit s.
Proof.
  intros Hc H0 HO Hp Hi Hq Ht s'. subst s'.
  destruct (gate_interval_open evs s Hc Hq) as (I1 & I2 & I3 & I4 & I5 & I6 & I7);
    [lia|].
  split; [exact I6|]. split; [exact I7|].
  rewrite run_app. change (run [Tick] (run evs s)) with (FreqCtrGateISR (run evs s)).
  destruct I1 as (J1 & J2 & J3 & J4).
  destruct (gate_close_counting (run evs s)) as (G1 & G2 & G3 & G4 & G5 & G6 & G7 & G8 & G9);
    [exact J1 | lia |].
  rewrite G1, G2, G3, G4, G6, G7, J2, I2, I5.
  unfold raw_count at 1. rewrite H0, HO.
  repeat split; try reflexivity.
  - rewrite G8. exact J1.
  - exact G5.
  - rewrite G9. exact J3.
  - rewrite G3. lia.
  - rewrite G3. lia.
Qed.

(** A 100 ms gate: 10 ticks, 300 pulses between them. *)
Lemma gate_interval_counts_pulses_witness :
  let evs := repeat (Pulse 0) 100 ++ repeat Tick 4 ++ repeat (Pulse 0) 200
             ++ repeat Tick 5 in
  let s := run [SetMode 3; Tick] init in
  let s' := run (evs ++ [Tick]) s in
  _FreqCtrReady (run evs s) = _FreqCtrReady s /\
  fcResult (run evs s) = fcResult s /\
  fcResult s' = u32 (count_pulses evs) /\ _FreqCtrReady s' = 1 /\
  counting s' /\ TCNT0 s' = 0 /\ fcOVF s' = 0 /\
  fcprescaler s' = fcprescalInit s' /\ fcprescalInit s' = fcprescalInit s.
Proof.
  apply (gate_interval_counts_pulses
           (repeat (Pulse 0) 100 ++ repeat Tick 4 ++ repeat (Pulse 0) 200
            ++ repeat Tick 5)
           (run [SetMode 3; Tick] init)).
  - vm_compute. repeat split; discriminate.
  - vm_compute. reflexivity.
  - vm_compute. reflexivity.
  - vm_compute. reflexivity.
  - vm_compute. split; [discriminate | reflexivity].
  - vm_compute. reflexivity.
  - vm_compute. reflexivity.
Defined.

Lemma tick_idle (s : state) : fcprescaler s = 0 -> FreqCtrGateISR s = s.
Proof.
  intros H. unfold FreqCtrGateISR, nz. rewrite H. reflexivity.
Qed.

Lemma pulses_and_idle_ticks (evs : list event) (s : state) :
  counting s -> fcprescaler s = 0 -> forallb pulse_or_tick evs = true ->
  let s' := run evs s in
  counting s' /\ raw_count s' = u32 (raw_count s + count_pulses evs) /\
  fcGateTime s' = fcGateTime s /\ _FreqCtrReady s' = _FreqCtrReady s /\
  fcResult s' = fcResult s.
Proof.
  revert s. induction evs as [|e evs IH]; intros s Hc Hp Hq.
  - simpl. unfold count_pulses. simpl.
    repeat split; try apply Hc.
    unfold raw_count. rewrite Z.add_0_r. unfold u32. now rewrite Z.mod_mod by lia.
  - simpl in Hq. apply andb_true_iff in Hq. destruct Hq as [He Hq].
    rewrite count_pulses_cons.
    change (run (e :: evs) s) with (run evs (step e s)).
    destruct e as [ | m | lo hi | m | g' | | ]; try discriminate He.
    + change (step Tick s) with (FreqCtrGateISR s). rewrite tick_idle by assumption.
      apply (IH s Hc Hp Hq).
    + change (step (Pulse m) s) with (timer0_count m s).
      destruct (pulse_counting m s Hc) as (P1 & P2 & P3 & P4 & P5 & P6 & P7).
      specialize (IH (timer0_count m s)). cbv zeta in IH.
      destruct IH as (I1 & I2 & I3 & I4 & I5); [exact P1 | congruence | exact Hq |].
      cbv zeta. repeat split; try apply I1; try congruence.
      rewrite I2, P2. unfold u32. rewrite Zplus_mod_idemp_l. f_equal. ring.
Qed.

(** X6: one gate of the external gate mode.  The falling edge of the gate
    clears and starts the counter; the rising edge stops it and publishes
    the number of pulses seen in between as the raw count, with ready set.
    Ticks in between change nothing. *)
Theorem external_gate_counts_pulses
        (lo hi lo' hi' : Z) (evs : list event) (s : state) :
  fcGateTime s = FCEXTNO -> fcprescaler s = 0 ->
  Z.testbit (TIMSK0 s) 0 = true ->
  Z.land lo FCEXTGATEMSK <> 0 -> Z.land hi FCEXTGATEMSK = 0 ->
  Z.land lo' FCEXTGATEMSK = 0 -> Z.land hi' FCEXTGATEMSK <> 0 ->
  forallb pulse_or_tick evs = true ->
  let s1 := run (PinChange lo hi :: evs) s in
  let s2 := step (PinChange lo' hi') s1 in
  _FreqCtrReady s1 = _FreqCtrReady s /\ fcResult s1 = fcResult s /\
  fcResult s2 = u32 (count_pulses evs) /\ _FreqCtrReady s2 = 1 /\
  TCCR0B s2 = 0 /\ fcOVF s2 = 0.
Proof.
  intros Hm Hp Ht Hlo Hhi Hlo' Hhi' Hq s1 s2. subst s1 s2.
  change (run (PinChange lo hi :: evs) s)
    with (run evs (snd (PCChangeIntFunc (lo, hi) s))).
  set (sa := snd (PCChangeIntFunc (lo, hi) s)).
  assert (Ha : counting sa /\ raw_count sa = 0 /\ fcprescaler sa = 0 /\
               fcGateTime sa = FCEXTNO /\ _FreqCtrReady sa = _FreqCtrReady s /\
               fcResult sa = fcResult s).
  { subst sa. unfold PCChangeIntFunc, nz, counting, raw_count.
    rewrite Hm, Z.eqb_refl. cbn [fst snd].
    destruct (Z.land lo FCEXTGATEMSK =? 0) eqn:E; [lia|]. cbn [negb fst snd].
    rewrite Hhi. change (negb (0 =? 0)) with false. cbv iota. cbn [snd]. fields.
    rewrite Hm. unfold FCEXTNO, FCPRDNO.
    repeat split; try assumption; try reflexivity; lia. }
  destruct Ha as (A1 & A2 & A3 & A4 & A5 & A6).
  destruct (pulses_and_idle_ticks evs sa A1 A3 Hq) as (I1 & I2 & I3 & I4 & I5).
  split; [congruence|]. split; [congruence|].
  set (sb := run evs sa) in *.
  change (step (PinChange lo' hi') sb) with (snd (PCChangeIntFunc (lo', hi') sb)).
  destruct I1 as (_ & J2 & _ & _).
  unfold PCChangeIntFunc, nz. rewrite I3, A4, Z.eqb_refl. cbn [fst snd].
  rewrite Hlo'. change (negb (0 =? 0)) with false. cbv iota. cbn [fst snd].
  destruct (Z.land hi' FCEXTGATEMSK =? 0) eqn:E; [lia|]. cbn [negb snd]. fields.
  rewrite J2. change (negb (6 =? 0)) with true. cbv iota. fields.
  rewrite shiftl8_u32. fold (raw_count sb). rewrite I2, A2, Z.add_0_l.
  repeat split; reflexivity.
Qed.

(** 700 pulses while the gate on pin 9 is low. *)
Lemma external_gate_counts_pulses_witness :
  let evs := repeat (Pulse 0) 300 ++ [Tick] ++ repeat (Pulse 0) 400 in
  let s := run [SetMode 6] init in
  let s1 := run (PinChange 32 0 :: evs) s in
  let s2 := step (PinChange 0 32) s1 in
  _FreqCtrReady s1 = _FreqCtrReady s /\ fcResult s1 = fcResult s /\
  fcResult s2 = u32 (count_pulses evs) /\ _FreqCtrReady s2 = 1 /\
  TCCR0B s2 = 0 /\ fcOVF s2 = 0.
Proof.
  apply (external_gate_counts_pulses 32 0 0 32
           (repeat (Pulse 0) 300 ++ [Tick] ++ repeat (Pulse 0) 400)
           (run [SetMode 6] init)).
  - vm_compute. reflexivity.
  - vm_compute. reflexivity.
  - vm_compute. reflexivity.
  - vm_compute. discriminate.
  - vm_compute. reflexivity.
  - vm_compute. reflexivity.
  - vm_compute. discriminate.
  - vm_compute. reflexivity.
Defined.

(** * Capturing periods *)

Lemma period_capture (m : Z) (s : state) :
  FCPRDNO <= fcGateTime s ->
  TIMER0_OVF_vect m s
  = set_fcOVF (u32 m)
      (set_fcprescaler (fcprescalInit s)
         (if fcOVF s =? 0
          then set_TCNT0 (u8 (- PrdCnt s)) s
          else set__FreqCtrReady 1
                 (set_fcResult (u32 (u32 m - fcOVF s))
                    (set_TCNT0 (u8 (- PrdCnt s)) s)))).
Proof.
  unfold FCPRDNO. intros Hm. unfold TIMER0_OVF_vect, FCPRDNO, nz.
  rewrite Z.geb_leb. destruct (7 <=? fcGateTime s) eqn:E; [|lia].
  fields. destruct (fcOVF s =? 0); reflexivity.
Qed.

(** X7: two successive transitions in a period mode publish the time
    between them, also when [micros()] rolls over in between; the first
    transition after a start publishes nothing. *)
Theorem period_capture_publishes_elapsed (t d : Z) (s : state) :
  FCPRDNO <= fcGateTime s -> u32 t <> 0 -> 0 <= d < 4294967296 ->
  let s1 := TIMER0_OVF_vect t s in
  let s2 := TIMER0_OVF_vect (t + d) s1 in
  (fcOVF s = 0 -> fcResult s1 = fcResult s /\ _FreqCtrReady s1 = _FreqCtrReady s) /\
  fcResult s2 = d /\ _FreqCtrReady s2 = 1 /\
  fcprescaler s2 = fcprescalInit s /\ TCNT0 s2 = u8 (- PrdCnt s).
Proof.
  intros Hm Ht Hd s1 s2. subst s1 s2.
  rewrite (period_capture t s Hm).
  set (s1 := set_fcOVF _ _).
  assert (H1 : FCPRDNO <= fcGateTime s1 /\ fcOVF s1 = u32 t /\
               fcprescalInit s1 = fcprescalInit s /\ PrdCnt s1 = PrdCnt s).
  { subst s1. fields. destruct (fcOVF s =? 0); fields; repeat split; try reflexivity; assumption. }
  destruct H1 as (M1 & O1 & I1 & P1).
  split.
  - intros H0. subst s1. rewrite H0. change (0 =? 0) with true. cbv iota. fields.
    split; reflexivity.
  - rewrite (period_capture (t + d) s1 M1). rewrite O1, I1, P1.
    destruct (u32 t =? 0) eqn:E; [lia|]. fields.
    repeat split; try reflexivity.
    unfold u32. rewrite Zminus_mod_idemp_l, Zminus_mod_idemp_r.
    replace (t + d - t) with d by ring. apply Z.mod_small. exact Hd.
Qed.

(** Two transitions 2000 microseconds apart, with [micros()] rolling over
    between them. *)
Lemma period_capture_publishes_elapsed_witness :
  let s := run [SetMode 7] init in
  let s1 := TIMER0_OVF_vect 4294966296 s in
  let s2 := TIMER0_OVF_vect (4294966296 + 2000) s1 in
  (fcOVF s = 0 -> fcResult s1 = fcResult s /\ _FreqCtrReady s1 = _FreqCtrReady s) /\
  fcResult s2 = 2000 /\ _FreqCtrReady s2 = 1 /\
  fcprescaler s2 = fcprescalInit s /\ TCNT0 s2 = u8 (- PrdCnt s).
Proof.
  apply (period_capture_publishes_elapsed 4294966296 2000 (run [SetMode 7] init)).
  - vm_compute. discriminate.
  - vm_compute. discriminate.
  - lia.
Defined.

(** X8: a timestamp of zero is the "no start" marker: a transition at which
    [micros()] reads 0 is not kept as a start, so the transition that
    follows publishes nothing, whatever its time. *)
Theorem period_capture_zero_timestamp_lost (t t' : Z) (s : state) :
  FCPRDNO <= fcGateTime s -> u32 t = 0 ->
  let s1 := TIMER0_OVF_vect t s in
  let s2 := TIMER0_OVF_vect t' s1 in
  fcOVF s1 = 0 /\
  fcResult s2 = fcResult s1 /\ _FreqCtrReady s2 = _FreqCtrReady s1.
Proof.
  intros Hm Ht s1 s2. subst s1 s2.
  rewrite (period_capture t s Hm). rewrite Ht.
  set (s1 := set_fcOVF _ _).
  assert (H1 : FCPRDNO <= fcGateTime s1 /\ fcOVF s1 = 0).
  { subst s1. fields. destruct (fcOVF s =? 0); fields; split; try reflexivity; assumption. }
  destruct H1 as (M1 & O1).
  split; [exact O1|].
  rewrite (period_capture t' s1 M1), O1. change (0 =? 0) with true. cbv iota. fields.
  split; reflexivity.
Qed.

Lemma period_capture_zero_timestamp_lost_witness :
  let s := run [SetMode 7; Overflow 500] init in
  let s1 := TIMER0_OVF_vect 4294967296 s in
  let s2 := TIMER0_OVF_vect 4294968296 s1 in
  fcOVF s1 = 0 /\
  fcResult s2 = fcResult s1 /\ _FreqCtrReady s2 = _FreqCtrReady s1.
Proof.
  apply (period_capture_zero_timestamp_lost 4294967296 4294968296
           (run [SetMode 7; Overflow 500] init)).
  - vm_compute. discriminate.
  - vm_compute. reflexivity.
Defined.

Lemma testbit0_lor_1 (x : Z) : Z.testbit (Z.lor x 1) 0 = true.
Proof. rewrite Z.lor_spec. change (Z.testbit 1 0) with true. apply orb_true_r. Qed.

(** What [mode] leaves in the counter registers for a period mode. *)
Lemma mode_period_arms (g : Z) (s : state) :
  FCPRDNO <= g <= FCMODEMAX ->
  let s' := snd (FrequencyCounter.mode g s) in
  fcGateTime s' = g /\ PrdCnt s' = averages g /\ TCNT0 s' = 256 - averages g /\
  TCCR0B s' = 6 /\ fcOVF s' = 0 /\ Z.testbit (TIMSK0 s') 0 = true /\
  _FreqCtrReady s' = 0 /\ fcResult s' = 0.
Proof.
  unfold FCPRDNO, FCMODEMAX. intros Hg.
  assert (Hc : g = 7 \/ g = 8 \/ g = 9) by lia.
  destruct Hc as [-> | [-> | ->]]; unfold FrequencyCounter.mode;
    change (7 <? 0) with false; change (8 <? 0) with false; change (9 <? 0) with false;
    cbv iota; fields.
  all: change (Z.shiftl 1 TOIE0) with 1.
  all: repeat split; try reflexivity; apply testbit0_lor_1.
Qed.

Lemma pulses_advance_counter (ts : list Z) (s : state) :
  TCCR0B s = 6 -> 0 <= TCNT0 s -> TCNT0 s + Z.of_nat (List.length ts) <= 255 ->
  run (map Pulse ts) s = set_TCNT0 (TCNT0 s + Z.of_nat (List.length ts)) s.
Proof.
  revert s. induction ts as [|t ts IH]; intros s Hb H0 Hn.
  - simpl. rewrite Z.add_0_r. destruct s; reflexivity.
  - cbn [map run step List.length] in *.
    assert (E : timer0_count t s = set_TCNT0 (TCNT0 s + 1) s).
    { unfold timer0_count, u8. rewrite Hb, Z.eqb_refl. fields.
      rewrite Z.mod_small by lia.
      destruct (TCNT0 s + 1 =? 0) eqn:E; [lia | reflexivity]. }
    rewrite E. rewrite IH by (fields; try assumption; lia).
    unfold set_TCNT0. fields. f_equal. lia.
Qed.





(** * The period timeout *)

Lemma ticks_count_down (k : nat) (s : state) :
  Z.of_nat k < fcprescaler s < 65536 ->
  run (repeat Tick k) s = set_fcprescaler (fcprescaler s - Z.of_nat k) s.
Proof.
  revert s. induction k as [|k IH]; intros s H.
  - simpl. rewrite Z.sub_0_r. destruct s; reflexivity.
  - change (run (repeat Tick (S k)) s) with (run (repeat Tick k) (FreqCtrGateISR s)).
    rewrite tick_counts_down by lia.
    rewrite IH by (fields; lia).
    unfold set_fcprescaler. fields. f_equal. lia.
Qed.

(** X10: the timeout never replaces a result that is still unread: when the
    countdown of a period mode expires with the ready flag set, only the
    countdown is reloaded. *)
Theorem period_timeout_keeps_unread_result (s : state) :
  FCPRDNO <= fcGateTime s -> fcprescaler s = 1 -> _FreqCtrReady s <> 0 ->
  FreqCtrGateISR s = set_fcprescaler (fcprescalInit s) s.
Proof.
  unfold FCPRDNO. intros Hm Hp Hr. unfold FreqCtrGateISR, FCPRDNO, nz.
  rewrite Hp. fields.
  change (negb (1 =? 0)) with true. change (u16 (1 - 1)) with 0.
  change (negb (negb (0 =? 0))) with true. cbv iota.
  rewrite Z.geb_leb. destruct (7 <=? fcGateTime s) eqn:E; [|lia].
  destruct (_FreqCtrReady s =? 0) eqn:E0; [lia|].
  cbn [negb]. destruct s; reflexivity.
Qed.

Lemma period_timeout_keeps_unread_result_witness :
  FreqCtrGateISR (run ([SetMode 7; Overflow 1000; Overflow 3000] ++ repeat Tick 499) init)
  = set_fcprescaler
      (fcprescalInit (run ([SetMode 7; Overflow 1000; Overflow 3000] ++ repeat Tick 499) init))
      (run ([SetMode 7; Overflow 1000; Overflow 3000] ++ repeat Tick 499) init).
Proof.
  apply (period_timeout_keeps_unread_result
           (run ([SetMode 7; Overflow 1000; Overflow 3000] ++ repeat Tick 499) init)).
  - vm_compute. discriminate.
  - vm_compute. reflexivity.
  - vm_compute. discriminate.
Defined.

(** X11: every transition restarts the timeout: after the overflow handler
    has run in a period mode, the ticks that follow only count down until
    the full timeout (PERIODTIMOUT / 10 ticks) has passed; no sentinel is
    published before. *)
Theorem period_transition_restarts_timeout (m : Z) (k : nat) (s : state) :
  FCPRDNO <= fcGateTime s -> consistent s ->
  Z.of_nat k < PERIODTIMOUT / 10 ->
  run (repeat Tick k) (TIMER0_OVF_vect m s)
  = set_fcprescaler (PERIODTIMOUT / 10 - Z.of_nat k) (TIMER0_OVF_vect m s).
Proof.
  intros Hm Hc Hk.
  assert (Hi : fcprescalInit s = PERIODTIMOUT / 10).
  { rewrite (init_is_divisor s Hc). pose proof (mode_in_range s Hc) as Hr.
    unfold FCPRDNO, FCMODEMAX in *.
    assert (Hg : fcGateTime s = 7 \/ fcGateTime s = 8 \/ fcGateTime s = 9) by lia.
    destruct Hg as [-> | [-> | ->]]; reflexivity. }
  assert (Hp : fcprescaler (TIMER0_OVF_vect m s) = PERIODTIMOUT / 10).
  { rewrite period_capture by assumption. fields. exact Hi. }
  rewrite ticks_count_down; rewrite Hp; [reflexivity|].
  change (PERIODTIMOUT / 10) with 500 in *. lia.
Qed.

Lemma period_transition_restarts_timeout_witness :
  run (repeat Tick 499) (TIMER0_OVF_vect 1000 (run [SetMode 9; Tick] init))
  = set_fcprescaler (PERIODTIMOUT / 10 - Z.of_nat 499)
      (TIMER0_OVF_vect 1000 (run [SetMode 9; Tick] init)).
Proof.
  apply (period_transition_restarts_timeout 1000 499 (run [SetMode 9; Tick] init)).
  - vm_compute. discriminate.
  - apply reachable_consistent. exists [SetMode 9; Tick]. vm_compute. reflexivity.
  - vm_compute. reflexivity.
Defined.

(** * Reading *)

Lemma read_format_ignores_ready_in_frequency_modes (r : Z) (s : state) :
  fcGateTime s < FCPRDNO ->
  fst (FrequencyCounter.read_format (set__FreqCtrReady r s))
  = fst (FrequencyCounter.read_format s).
Proof.
  unfold FCPRDNO. intros Hm. unfold FrequencyCounter.read_format, FCPRDNO. fields.
  rewrite Z.geb_leb. destruct (7 <=? fcGateTime s) eqn:E; [lia|].
  repeat match goal with
         | |- context [let '(_, _) := ?x in _] => destruct x
         end; reflexivity.
Qed.

(** X12: in the frequency modes reading does not use up the value: the
    string of a second read equals that of the first, the raw read returns
    the same count, and only the ready flag is cleared. *)
Theorem frequency_read_is_repeatable (s : state) :
  fcGateTime s < FCPRDNO ->
  let s1 := snd (FrequencyCounter.read_format s) in
  fst (FrequencyCounter.read_format s1) = fst (FrequencyCounter.read_format s) /\
  fst (FrequencyCounter.read_ulong_body s1) = fcResult s /\
  FrequencyCounter.available s1 = 0 /\
  FrequencyCounter.available (snd (FrequencyCounter.read_ulong_body s)) = 0.
Proof.
  intros Hm s1. subst s1. rewrite read_format_state.
  split; [apply read_format_ignores_ready_in_frequency_modes, Hm|].
  repeat split.
Qed.

Lemma frequency_read_is_repeatable_witness :
  let s1 := snd (FrequencyCounter.read_format ten_second_gate_500) in
  fst (FrequencyCounter.read_format s1)
  = fst (FrequencyCounter.read_format ten_second_gate_500) /\
  fst (FrequencyCounter.read_ulong_body s1) = fcResult ten_second_gate_500 /\
  FrequencyCounter.available s1 = 0 /\
  FrequencyCounter.available
    (snd (FrequencyCounter.read_ulong_body ten_second_gate_500)) = 0.
Proof.
  apply (frequency_read_is_repeatable ten_second_gate_500).
  vm_compute. reflexivity.
Defined.

Lemma read_format_period_marker (s : state) :
  FCPRDNO <= fcGateTime s ->
  nz (_FreqCtrReady s) && (fcResult s >? 24 * PrdCnt s) = false ->
  FrequencyCounter.read_format s
  = (if fcResult s =? 1 then "0.00000" else "999999", set__FreqCtrReady 0 s).
Proof.
  unfold FCPRDNO. intros Hm Hc. unfold FrequencyCounter.read_format, FCPRDNO.
  rewrite Z.geb_leb. destruct (7 <=? fcGateTime s) eqn:E; [|lia].
  rewrite Hc. destruct (fcResult s =? 1) eqn:E1.
  - apply Z.eqb_eq in E1. rewrite E1. reflexivity.
  - reflexivity.
Qed.

(** X13: in a period mode a formatted read without a fresh result never
    shows the last frequency: with the ready flag clear it yields "0.00000"
    when the raw value is 1 and "999999" otherwise.  In particular a second
    read right after a first one yields one of these two strings. *)
Theorem period_read_without_fresh_result (s : state) :
  FCPRDNO <= fcGateTime s ->
  (_FreqCtrReady s = 0 ->
   fst (FrequencyCounter.read_format s)
   = if fcResult s =? 1 then "0.00000" else "999999") /\
  fst (FrequencyCounter.read_format (snd (FrequencyCounter.read_format s)))
  = (if fcResult s =? 1 then "0.00000" else "999999").
Proof.
  intros Hm. split.
  - intros Hr. rewrite read_format_period_marker; [reflexivity | exact Hm |].
    unfold nz. rewrite Hr. reflexivity.
  - rewrite read_format_state.
    rewrite read_format_period_marker; [reflexivity | exact Hm | reflexivity].
Qed.

(** A period of 1000 microseconds, read twice. *)
Lemma period_read_without_fresh_result_witness :
  (_FreqCtrReady (run [SetMode 7; Pulse 1000; Pulse 2000] init) = 0 ->
   fst (FrequencyCounter.read_format (run [SetMode 7; Pulse 1000; Pulse 2000] init))
   = if fcResult (run [SetMode 7; Pulse 1000; Pulse 2000] init) =? 1
     then "0.00000" else "999999") /\
  fst (FrequencyCounter.read_format
         (snd (FrequencyCounter.read_format
                 (run [SetMode 7; Pulse 1000; Pulse 2000] init))))
  = (if fcResult (run [SetMode 7; Pulse 1000; Pulse 2000] init) =? 1
     then "0.00000" else "999999").
Proof.
  apply (period_read_without_fresh_result
           (run [SetMode 7; Pulse 1000; Pulse 2000] init)).
  vm_compute. discriminate.
Defined.

Example period_second_read_shows_too_fast :
  fst (FrequencyCounter.read_format (run [SetMode 7; Pulse 1000; Pulse 2000] init))
  = "1000.00000" /\
  fst (FrequencyCounter.read_format
         (run [SetMode 7; Pulse 1000; Pulse 2000; ReadString] init))
  = "999999".
Proof. vm_compute. split; reflexivity. Qed.

Lemma wait_loop_ticks (k : nat) (rest : schedule) (s : state) :
  fcGateTime s <> 0 -> fcGateTime s < FCPRDNO -> TCCR0B s <> 0 ->
  _FreqCtrReady s = 0 ->
  fcprescaler s = Z.of_nat (S k) -> fcprescaler s < 65536 ->
  wait_loop true (repeat [Tick] (S k) ++ rest) s
  = Some (run (repeat Tick (S k)) s, rest) /\
  fcResult (run (repeat Tick (S k)) s) = raw_count s /\
  _FreqCtrReady (run (repeat Tick (S k)) s) = 1.
Proof.
  revert s. induction k as [|k IH]; intros s H0 Hm Hb Hr Hp Hlt.
  - destruct (gate_close_counting s Hm) as (G1 & G2 & _); [lia|].
    change (run (repeat Tick 1) s) with (FreqCtrGateISR s).
    destruct (TCCR0B s =? 0) eqn:E; [lia|].
    split; [|split; assumption].
    cbn [repeat app]. rewrite wait_loop_unfold.
    assert (Hw : FrequencyCounter.must_wait true s = true).
    { unfold FrequencyCounter.must_wait, nz. rewrite Hr.
      destruct (fcGateTime s =? 0) eqn:E0; [lia | reflexivity]. }
    rewrite Hw. change (run [Tick] s) with (FreqCtrGateISR s).
    rewrite wait_loop_unfold.
    assert (Hw' : FrequencyCounter.must_wait true (FreqCtrGateISR s) = false).
    { unfold FrequencyCounter.must_wait, nz. rewrite G2. apply andb_false_r. }
    rewrite Hw'. reflexivity.
  - change (run (repeat Tick (S (S k))) s)
      with (run (repeat Tick (S k)) (FreqCtrGateISR s)).
    change (repeat [Tick] (S (S k)) ++ rest)
      with ([Tick] :: (repeat [Tick] (S k) ++ rest)).
    rewrite wait_loop_unfold.
    assert (Hw : FrequencyCounter.must_wait true s = true).
    { unfold FrequencyCounter.must_wait, nz. rewrite Hr.
      destruct (fcGateTime s =? 0) eqn:E0; [lia | reflexivity]. }
    rewrite Hw. change (run [Tick] s) with (FreqCtrGateISR s).
    rewrite tick_counts_down by lia.
    specialize (IH (set_fcprescaler (fcprescaler s - 1) s)).
    change (raw_count (set_fcprescaler (fcprescaler s - 1) s)) with (raw_count s) in IH.
    apply IH; fields; try assumption; lia.
Qed.

(** X14: a waiting raw read in a tick-gated frequency mode returns when the
    gate closes: with the counter running, nothing ready and the countdown
    at [k+1], it passes its loop [k+1] times (one tick in each) and returns
    the count accumulated so far, leaving the ready flag clear. *)
Theorem waiting_read_returns_at_gate_close (k : nat) (rest : schedule) (s : state) :
  fcGateTime s <> 0 -> fcGateTime s < FCPRDNO -> TCCR0B s <> 0 ->
  _FreqCtrReady s = 0 ->
  fcprescaler s = Z.of_nat (S k) -> fcprescaler s < 65536 ->
  read_ulong true (repeat [Tick] (S k) ++ rest) s
  = Some (raw_count s, set__FreqCtrReady 0 (run (repeat Tick (S k)) s), rest) /\
  read_ulong true (repeat [Tick] k) s = None.
Proof.
  intros H0 Hm Hb Hr Hp Hlt.
  destruct (wait_loop_ticks k rest s H0 Hm Hb Hr Hp Hlt) as (W1 & W2 & W3).
  split.
  - unfold read_ulong. rewrite W1. unfold FrequencyCounter.read_ulong_body. fields.
    rewrite W2. reflexivity.
  - unfold read_ulong.
    assert (Hn : forall (j : nat) (s0 : state),
               fcGateTime s0 <> 0 -> _FreqCtrReady s0 = 0 ->
               Z.of_nat j < fcprescaler s0 < 65536 ->
               wait_loop true (repeat [Tick] j) s0 = None).
    { induction j as [|j IHj]; intros s0 G0 R0 P0.
      - simpl. unfold FrequencyCounter.must_wait, nz. rewrite R0.
        destruct (fcGateTime s0 =? 0) eqn:E0; [lia | reflexivity].
      - cbn [repeat]. rewrite wait_loop_unfold.
        unfold FrequencyCounter.must_wait, nz. rewrite R0.
        destruct (fcGateTime s0 =? 0) eqn:E0; [lia|]. cbn [negb andb].
        change (0 =? 0) with true. cbn [negb andb].
        change (run [Tick] s0) with (FreqCtrGateISR s0).
        rewrite tick_counts_down by lia.
        apply IHj; fields; try assumption; lia. }
    rewrite Hn; [reflexivity | assumption | assumption | lia].
Qed.

(** A 100 ms gate with 300 pulses counted and seven ticks to go. *)
Lemma waiting_read_returns_at_gate_close_witness :
  let s := run ([SetMode 3; Tick] ++ repeat (Pulse 0) 300 ++ repeat Tick 3) init in
  read_ulong true (repeat [Tick] 7 ++ [[Tick]]) s
  = Some (raw_count s, set__FreqCtrReady 0 (run (repeat Tick 7) s), [[Tick]]) /\
  read_ulong true (repeat [Tick] 6) s = None.
Proof.
  apply (waiting_read_returns_at_gate_close 6 [[Tick]]
           (run ([SetMode 3; Tick] ++ repeat (Pulse 0) 300 ++ repeat Tick 3) init)).
  - vm_compute. discriminate.
  - vm_compute. reflexivity.
  - vm_compute. discriminate.
  - vm_compute. reflexivity.
  - vm_compute. reflexivity.
  - vm_compute. reflexivity.
Defined.

(** * The formatter *)

Lemma Log10I_loop_spec (fuel : nat) (i v : Z) :
  0 <= v < 2 * 10 ^ Z.of_nat fuel -> 0 <= i -> i + Z.of_nat fuel < 256 ->
  exists k : nat, Log10I_loop fuel i v = i + Z.of_nat k /\ decade_count v k.
Proof.
  revert i v. induction fuel as [|f IH]; intros i v Hv Hi Hf.
  - change (10 ^ Z.of_nat 0) with 1 in Hv. exists 0%nat. split.
    + simpl. lia.
    + split; [change (10 ^ Z.of_nat 0) with 1; lia | intros j Hj; lia].
  - cbn [Log10I_loop]. rewrite Z.gtb_ltb. destruct (1 <? v) eqn:E.
    + apply Z.ltb_lt in E. rewrite pow10_succ in Hv.
      assert (Hu : u8 (i + 1) = i + 1) by (unfold u8; apply Z.mod_small; lia).
      rewrite Hu.
      destruct (IH (i + 1) (v / 10)) as (k & Hk & Hlt & Hge).
      * split; [apply Z.div_pos; lia | apply Z.div_lt_upper_bound; lia].
      * lia.
      * lia.
      * exists (S k). split; [rewrite Hk; lia|]. split.
        -- rewrite pow10_succ. pose proof (Z.div_mod v 10 ltac:(lia)).
           pose proof (Z.mod_pos_bound v 10 ltac:(lia)). lia.
        -- intros [|j] Hj.
           ++ change (10 ^ Z.of_nat 0) with 1. lia.
           ++ rewrite pow10_succ. specialize (Hge j ltac:(lia)).
              pose proof (Z.div_mod v 10 ltac:(lia)).
              pose proof (Z.mod_pos_bound v 10 ltac:(lia)). lia.
    + apply Z.ltb_ge in E. exists 0%nat. split; [lia|]. split.
      * change (10 ^ Z.of_nat 0) with 1. lia.
      * intros j Hj. lia.
Qed.

Lemma decade_count_unique (v : Z) (k k' : nat) :
  decade_count v k -> decade_count v k' -> k = k'.
Proof.
  intros [H1 H2] [H1' H2'].
  destruct (Nat.lt_trichotomy k k') as [L | [L | L]].
  - specialize (H2' k L). lia.
  - exact L.
  - specialize (H2 k' L). lia.
Qed.

Lemma Log10I_decade_count (v : Z) :
  0 <= v < 4294967296 ->
  exists k : nat, Log10I v = Z.of_nat k /\ decade_count v k.
Proof.
  intros Hv. unfold Log10I. rewrite (u32_small v Hv).
  destruct (Log10I_loop_spec 10 0 v) as (k0 & Hk0 & Hd0).
  - change (10 ^ Z.of_nat 10) with 10000000000. lia.
  - lia.
  - simpl. lia.
  - exists k0. rewrite Hk0, Z.add_0_l. split; [reflexivity | exact Hd0].
Qed.

(** X15: [Log10I] counts the divisions by ten that bring its argument down
    to 1 or 0: for every unsigned long [v] its result is the least [k] with
    [v < 2 * 10^k].  On a power of ten this is the exponent; on other values
    it can be one more than the integer part of the logarithm. *)
Theorem Log10I_is_decade_count (v : Z) (k : nat) :
  0 <= v < 4294967296 ->
  (Log10I v = Z.of_nat k <-> decade_count v k).
Proof.
  intros Hv. destruct (Log10I_decade_count v Hv) as (k0 & Hk0 & Hd0).
  rewrite Hk0. split.
  - intros Hk. apply Nat2Z.inj in Hk. subst k0. exact Hd0.
  - intros Hd. f_equal. exact (decade_count_unique v k0 k Hd0 Hd).
Qed.

Lemma Log10I_is_decade_count_witness :
  Log10I 1000 = Z.of_nat 3 <-> decade_count 1000 3.
Proof.
  apply (Log10I_is_decade_count 1000 3). lia.
Defined.

Example Log10I_of_200_is_3 : Log10I 100 = 2 /\ Log10I 199 = 2 /\ Log10I 200 = 3.
Proof. vm_compute. repeat split. Qed.

Lemma Log10I_power_of_ten (k : nat) :
  (k <= 9)%nat -> Log10I (10 ^ Z.of_nat k) = Z.of_nat k.
Proof.
  intros Hk. pose proof (pow10_pos k) as Hp.
  assert (Hle : 10 ^ Z.of_nat k <= 10 ^ 9)
    by (apply Z.pow_le_mono_r; lia).
  destruct (Log10I_decade_count (10 ^ Z.of_nat k)) as (k0 & Hk0 & Hd0).
  { change (10 ^ 9) with 1000000000 in Hle. lia. }
  rewrite Hk0. f_equal. apply (decade_count_unique (10 ^ Z.of_nat k)); [exact Hd0|].
  split; [lia|]. intros j Hj.
  assert (Hs : 10 ^ Z.of_nat (S j) <= 10 ^ Z.of_nat k)
    by (apply Z.pow_le_mono_r; lia).
  rewrite pow10_succ in Hs. pose proof (pow10_pos j). lia.
Qed.

Lemma ndigits_pos (f : nat) (n : Z) : (1 <= ndigits f n)%nat.
Proof. destruct f; simpl; [lia|]. destruct (n <? 10); lia. Qed.

Lemma ndigits_le (f : nat) (n : Z) (k : nat) :
  0 <= n < 10 ^ Z.of_nat k -> (1 <= k)%nat -> (ndigits f n <= k)%nat.
Proof.
  revert n k. induction f as [|f IH]; intros n k Hn Hk.
  - exact Hk.
  - cbn [ndigits]. destruct (n <? 10) eqn:E; [exact Hk|].
    apply Z.ltb_ge in E. destruct k as [|k]; [lia|].
    rewrite pow10_succ in Hn.
    assert (Hk1 : (1 <= k)%nat).
    { destruct k; [|lia]. change (10 ^ Z.of_nat 0) with 1 in Hn. lia. }
    apply le_n_S. apply IH; [|exact Hk1].
    split; [apply Z.div_pos; lia | apply Z.div_lt_upper_bound; lia].
Qed.

Lemma sprintf_09lu_length (v : Z) :
  (9 <= String.length (sprintf_09lu v) <= 10)%nat.
Proof.
  unfold sprintf_09lu. rewrite low_digits_length.
  pose proof (ndigits_le 9 (u32 v) 10) as L.
  change (10 ^ Z.of_nat 10) with 10000000000 in L.
  pose proof (u32_range v). specialize (L ltac:(lia) ltac:(lia)). lia.
Qed.

(** Every [DP] up to 8 is in the domain, whatever the value: the print has
    at least nine characters. *)
Lemma DPStr_defined_up_to_8 (Val DP : Z) :
  0 <= DP <= 8 -> DPStr_defined Val DP = true.
Proof.
  intros H. unfold DPStr_defined.
  pose proof (sprintf_09lu_length Val) as L.
  apply andb_true_intro. split; [apply Z.leb_le; lia | apply Nat.ltb_lt; lia].
Qed.

(** X16: where its copy is defined, that is for [DP] below the length of
    the ["%09lu"] print of the value (every [DP] up to 8, and 9 for values
    of ten digits), [DPStr] writes nothing for [DP = 0] and otherwise a
    point followed by exactly [DP] digits, which are the low [DP] decimal
    digits of the (unsigned long) value, leading zeros included.  Nothing
    is said of a [DP] outside that domain, where the source copies from at
    or before its destination. *)
Theorem DPStr_is_point_and_low_digits (Val DP : Z) :
  DPStr_defined Val DP = true ->
  (DP = 0 -> DPStr Val DP = "") /\
  (0 < DP ->
   exists ds : string,
     DPStr Val DP = String "." ds /\
     String.length ds = Z.to_nat DP /\
     str_value ds 0 = u32 Val mod 10 ^ DP).
Proof.
  intros HD. unfold DPStr_defined in HD.
  apply andb_prop in HD. destruct HD as [H0 HL].
  apply Z.leb_le in H0. apply Nat.ltb_lt in HL.
  pose proof (sprintf_09lu_length Val) as L.
  assert (HDP : 0 <= DP <= 9) by lia.
  split.
  - intros ->. reflexivity.
  - intros Hpos. exists (low_digits (Z.to_nat DP) (u32 Val)).
    split; [apply DPStr_low_digits; lia|].
    split; [apply low_digits_length|].
    rewrite str_value_low_digits, Z2Nat.id by lia. lia.
Qed.

Lemma DPStr_is_point_and_low_digits_witness :
  (2 = 0 -> DPStr 12345 2 = "") /\
  (0 < 2 ->
   exists ds : string,
     DPStr 12345 2 = String "." ds /\
     String.length ds = Z.to_nat 2 /\
     str_value ds 0 = u32 12345 mod 10 ^ 2).
Proof.
  apply (DPStr_is_point_and_low_digits 12345 2). vm_compute. reflexivity.
Defined.

(** The example of the source comment, and one with leading zeros. *)
Example DPStr_examples : DPStr 12345 2 = ".45" /\ DPStr 4100007 5 = ".00007".
Proof. vm_compute. split; reflexivity. Qed.

(** Nine decimals are in the domain for a value of ten digits only. *)
Example DPStr_domain_at_nine :
  DPStr_defined 5 9 = false /\ DPStr_defined 999999999 9 = false /\
  DPStr_defined 1000000000 9 = true /\ DPStr_defined 5 8 = true.
Proof. vm_compute. repeat split. Qed.

Lemma decimal_length (n : Z) (k : nat) :
  0 <= n < 10 ^ Z.of_nat k -> (1 <= k)%nat ->
  (1 <= String.length (decimal n) <= k)%nat.
Proof.
  intros Hn Hk. unfold decimal. rewrite low_digits_length.
  split; [apply ndigits_pos | apply ndigits_le; assumption].
Qed.

Lemma sprintf_lu_length (v : Z) :
  (1 <= String.length (sprintf_lu v) <= 10)%nat.
Proof.
  unfold sprintf_lu. apply decimal_length; [|lia].
  pose proof (u32_range v). change (10 ^ Z.of_nat 10) with 10000000000. lia.
Qed.

Lemma frac_digits_length (k : nat) (r d : Z) :
  String.length (frac_digits k r d) = k.
Proof.
  revert r. induction k as [|k IH]; intros r; simpl; [reflexivity|].
  f_equal. apply IH.
Qed.

Lemma spec_frequency_string_length (m Val : Z) :
  1 <= m <= FCEXTNO -> 0 <= Val < 4294967296 ->
  (1 <= String.length (spec_frequency_string (divisor m) Val) <= 11)%nat.
Proof.
  unfold FCEXTNO. intros Hm HV.
  assert (Hc : m = 1 \/ m = 2 \/ m = 3 \/ m = 4 \/ m = 5 \/ m = 6) by lia.
  assert (Hint : forall x, (1 <= String.length (decimal (u32 x)) <= 11)%nat).
  { intros x. pose proof (sprintf_lu_length x) as H. unfold sprintf_lu in H. lia. }
  destruct Hc as [-> | [-> | [-> | [-> | [-> | ->]]]]];
    unfold spec_frequency_string, divisor;
    try (change (100 <=? 100) with true); try (change (1 <=? 100) with true);
    try (change (10 <=? 100) with true); cbv iota; try apply Hint.
  - change (1000 <=? 100) with false. cbv iota.
    change (1000 / 100) with 10. change (ndigits 9 10 - 1)%nat with 1%nat.
    rewrite str_length_app. cbn [String.length]. rewrite low_digits_length.
    destruct (decimal_length (Val / 10) 9) as [L1 L2]; [|lia|lia].
    change (10 ^ Z.of_nat 9) with 1000000000.
    split; [apply Z.div_pos; lia | apply Z.div_lt_upper_bound; lia].
  - change (10000 <=? 100) with false. cbv iota.
    change (10000 / 100) with 100. change (ndigits 9 100 - 1)%nat with 2%nat.
    rewrite str_length_app. cbn [String.length]. rewrite low_digits_length.
    destruct (decimal_length (Val / 100) 8) as [L1 L2]; [|lia|lia].
    change (10 ^ Z.of_nat 8) with 100000000.
    split; [apply Z.div_pos; lia | apply Z.div_lt_upper_bound; lia].
Qed.

Lemma spec_period_string_length (N P : Z) :
  0 < N -> 24 * N < P ->
  (1 <= String.length (spec_period_string N P) <= 11)%nat.
Proof.
  intros HN HP. unfold spec_period_string.
  rewrite str_length_app. cbn [String.length]. rewrite frac_digits_length.
  destruct (decimal_length (1000000 * N / P) 5) as [L1 L2]; [|lia|lia].
  change (10 ^ Z.of_nat 5) with 100000.
  split; [apply Z.div_pos; lia | apply Z.div_lt_upper_bound; lia].
Qed.

Lemma read_format_off (s : state) :
  fcGateTime s = 0 -> fcprescalInit s = 0 ->
  fst (FrequencyCounter.read_format s) = sprintf_lu (u32 (u32 (fcResult s * 10) * 10) / 1).
Proof.
  intros Hm Hd. unfold FrequencyCounter.read_format. rewrite Hm, Hd. reflexivity.
Qed.

(** X17: in every reachable state the string of a formatted read has at
    least one and at most eleven characters, whatever the mode and the raw
    value. *)
Theorem read_string_length (s : state) :
  reachable s ->
  (1 <= String.length (fst (FrequencyCounter.read_format s)) <= 11)%nat.
Proof.
  intros Hr. pose proof (reachable_consistent s Hr) as Hc.
  destruct (reachable_frequency_state s Hr) as [Hd HV].
  pose proof (mode_in_range s Hc) as Hm. unfold FCMODEMAX in Hm.
  assert (Hcase : fcGateTime s = 0 \/ 1 <= fcGateTime s <= FCEXTNO \/
                  FCPRDNO <= fcGateTime s) by (unfold FCEXTNO, FCPRDNO; lia).
  destruct Hcase as [H0 | [Hf | Hp]].
  - rewrite read_format_off; [| exact H0 | rewrite Hd, H0; reflexivity].
    pose proof (sprintf_lu_length (u32 (u32 (fcResult s * 10) * 10) / 1)). lia.
  - rewrite read_format_frequency by assumption. cbn [fst]. rewrite Hd.
    apply spec_frequency_string_length; assumption.
  - destruct (nz (_FreqCtrReady s) && (fcResult s >? 24 * PrdCnt s)) eqn:E.
    + apply andb_prop in E. destruct E as [E1 E2].
      apply Z.gtb_lt in E2.
      destruct (reachable_period_averages s Hr Hp) as [_ HN].
      rewrite (read_format_period_valid (PrdCnt s) (fcResult s)); try reflexivity;
        try assumption; try lia.
      * cbn [fst]. apply spec_period_string_length; lia.
      * unfold nz in E1. destruct (_FreqCtrReady s =? 0) eqn:E0; [discriminate|].
        apply Z.eqb_neq in E0. exact E0.
    + rewrite read_format_period_marker by assumption. cbn [fst].
      destruct (fcResult s =? 1); simpl; lia.
Qed.

Lemma read_string_length_witness :
  (1 <= String.length (fst (FrequencyCounter.read_format
                              (run [SetMode 7; Pulse 1000; Pulse 1025] init))) <= 11)%nat.
Proof.
  apply (read_string_length (run [SetMode 7; Pulse 1000; Pulse 1025] init)).
  exists [SetMode 7; Pulse 1000; Pulse 1025]. reflexivity.
Defined.

(** The longest strings: a period of 25 microseconds, and 4294967295 counts
    in a 100 s gate. *)
Example read_string_eleven_characters :
  fst (FrequencyCounter.read_format (run [SetMode 7; Pulse 1000; Pulse 1025] init))
  = "40000.00000" /\
  spec_frequency_string 10000 4294967295 = "42949672.95".
Proof. vm_compute. split; reflexivity. Qed.

Lemma decimal_one_digit (x : Z) : x < 10 -> decimal x = low_digits 1 x.
Proof.
  intros H. unfold decimal. cbn [ndigits].
  destruct (x <? 10) eqn:E; [reflexivity | lia].
Qed.

Lemma ndigits_two (x : Z) : 0 <= x < 100 -> Nat.max 2 (ndigits 9 x) = 2%nat.
Proof.
  intros H. pose proof (ndigits_le 9 x 2) as L.
  change (10 ^ Z.of_nat 2) with 100 in L. specialize (L H ltac:(lia)). lia.
Qed.

(** X18: the shorter formatter that is compiled when the period modes are
    left out gives the same string as the full one in every frequency mode:
    the two builds agree on what a frequency read returns. *)
Theorem read_format_compact_agrees (s : state) :
  reachable s -> 1 <= fcGateTime s <= FCEXTNO ->
  read_format_compact s = FrequencyCounter.read_format s.
Proof.
  intros Hr Hm. destruct (reachable_frequency_state s Hr) as [Hd HV].
  rewrite read_format_frequency by assumption.
  unfold read_format_compact, spec_frequency_string. rewrite Hd.
  set (Val := fcResult s) in *. unfold FCEXTNO in Hm.
  assert (Hc : fcGateTime s = 1 \/ fcGateTime s = 2 \/ fcGateTime s = 3 \/
               fcGateTime s = 4 \/ fcGateTime s = 5 \/ fcGateTime s = 6) by lia.
  assert (Hint : forall x, sprintf_lu (u32 x) = decimal (u32 x))
    by (intros x; unfold sprintf_lu; rewrite u32_idem; reflexivity).
  destruct Hc as [-> | [-> | [-> | [-> | [-> | ->]]]]]; unfold divisor;
    try (change (100 <=? 100) with true); try (change (1 <=? 100) with true);
    try (change (10 <=? 100) with true); cbv iota;
    try (change (nz 0) with false; cbv iota; rewrite Hint; reflexivity).
  - change (1000 <=? 100) with false. cbv iota.
    change (1000 / 100) with 10. change (s8 10) with 10.
    change (nz 10) with true. change (10 >? 10) with false. cbv iota.
    change (ndigits 9 10 - 1)%nat with 1%nat.
    pose proof (Z.mod_pos_bound Val 10 ltac:(lia)) as Hb.
    assert (Hu : u8 (Val mod 10) = Val mod 10) by (unfold u8; apply Z.mod_small; lia).
    rewrite Hu. unfold sprintf_lu, sprintf_d.
    rewrite (u32_small (Val / 10)), (decimal_one_digit (Val mod 10)); [reflexivity|lia|].
    split; [apply Z.div_pos; lia | apply Z.div_lt_upper_bound; lia].
  - change (10000 <=? 100) with false. cbv iota.
    change (10000 / 100) with 100. change (s8 100) with 100.
    change (nz 100) with true. change (100 >? 10) with true. cbv iota.
    change (ndigits 9 100 - 1)%nat with 2%nat.
    pose proof (Z.mod_pos_bound Val 100 ltac:(lia)) as Hb.
    assert (Hu : u8 (Val mod 100) = Val mod 100) by (unfold u8; apply Z.mod_small; lia).
    rewrite Hu. unfold sprintf_lu, sprintf_02d.
    rewrite (u32_small (Val / 100)), (ndigits_two (Val mod 100)); [reflexivity|lia|].
    split; [apply Z.div_pos; lia | apply Z.div_lt_upper_bound; lia].
Qed.

Lemma read_format_compact_agrees_witness :
  read_format_compact ten_second_gate_500
  = FrequencyCounter.read_format ten_second_gate_500.
Proof.
  apply (read_format_compact_agrees ten_second_gate_500).
  - exists ([SetMode 4; Tick] ++ repeat (Pulse 0) 500 ++ repeat Tick 1000).
    unfold ten_second_gate_500. reflexivity.
  - vm_compute. split; discriminate.
Defined.

(** * The registers *)

Lemma mode_registers (g : Z) (s : state) :
  0 <= g <= FCMODEMAX ->
  let s' := snd (FrequencyCounter.mode g s) in
  TCCR0A s' = 0 /\
  TIMSK0 s' = (if g =? 0
               then Z.land (TIMSK0 s) (u8 (Z.lnot (Z.shiftl 1 TOIE0)))
               else Z.lor (TIMSK0 s) (Z.shiftl 1 TOIE0)) /\
  TCNT0 s' = (if g =? 0 then TCNT0 s
              else if g >=? FCPRDNO then u8 (- averages g) else 0) /\
  PCMSK0 s' = (if g =? FCEXTNO then Z.lor (PCMSK0 s) (Z.land FCEXTGATEMSK 127)
               else if (g =? 0) && (u8 (fcGateTime s) =? FCEXTNO) then 0
                    else PCMSK0 s) /\
  PCICR s' = (if g =? FCEXTNO then 1
              else if (g =? 0) && (u8 (fcGateTime s) =? FCEXTNO) then 0
                   else PCICR s).
Proof.
  intros Hg s'. subst s'.
  mode_cases g; unfold FrequencyCounter.mode; destruct s; simpl.
  all: try (destruct (u8 _ =? FCEXTNO); simpl).
  all: repeat split; reflexivity.
Qed.

(** X19: [mode] enables the pin-change interrupt of the gate pin when it
    enters ExternalGate and disables it only when Off is selected directly
    from ExternalGate; every other accepted change of mode leaves the
    pin-change registers as they are, so after leaving ExternalGate for
    another measuring mode the interrupt stays enabled. *)
Theorem mode_pin_change_registers (g : Z) (s : state) :
  0 <= g <= FCMODEMAX -> 0 <= fcGateTime s <= FCMODEMAX ->
  let s' := snd (FrequencyCounter.mode g s) in
  (g = FCEXTNO ->
   PCICR s' = 1 /\ PCMSK0 s' = Z.lor (PCMSK0 s) FCEXTGATEMSK) /\
  (g = 0 -> fcGateTime s = FCEXTNO -> PCICR s' = 0 /\ PCMSK0 s' = 0) /\
  (g <> FCEXTNO -> (g = 0 -> fcGateTime s <> FCEXTNO) ->
   PCICR s' = PCICR s /\ PCMSK0 s' = PCMSK0 s).
Proof.
  intros Hg Hm s'. subst s'.
  destruct (mode_registers g s Hg) as (_ & _ & _ & E1 & E2).
  rewrite E1, E2. unfold FCMODEMAX, FCEXTNO in *.
  assert (Hu : u8 (fcGateTime s) = fcGateTime s)
    by (unfold u8; apply Z.mod_small; lia).
  rewrite Hu. split; [|split].
  - intros ->. split; reflexivity.
  - intros -> ->. split; reflexivity.
  - intros H6 H0. destruct (g =? 6) eqn:E6; [lia|].
    destruct (g =? 0) eqn:E0; [|split; reflexivity].
    destruct (fcGateTime s =? 6) eqn:E; [lia | split; reflexivity].
Qed.

Lemma mode_pin_change_registers_witness :
  let s := run [SetMode 6] init in
  let s' := snd (FrequencyCounter.mode 3 s) in
  (3 = FCEXTNO ->
   PCICR s' = 1 /\ PCMSK0 s' = Z.lor (PCMSK0 s) FCEXTGATEMSK) /\
  (3 = 0 -> fcGateTime s = FCEXTNO -> PCICR s' = 0 /\ PCMSK0 s' = 0) /\
  (3 <> FCEXTNO -> (3 = 0 -> fcGateTime s <> FCEXTNO) ->
   PCICR s' = PCICR s /\ PCMSK0 s' = PCMSK0 s).
Proof.
  apply (mode_pin_change_registers 3 (run [SetMode 6] init)).
  - vm_compute. split; discriminate.
  - vm_compute. split; discriminate.
Defined.

(** Off selected after a detour through another mode leaves the pin-change
    interrupt enabled; Off selected directly disables it. *)
Example pin_change_left_enabled :
  PCICR (run [SetMode 6; SetMode 3; SetMode 0] init) = 1 /\
  PCMSK0 (run [SetMode 6; SetMode 3; SetMode 0] init) = 32 /\
  PCICR (run [SetMode 6; SetMode 0] init) = 0.
Proof. vm_compute. repeat split. Qed.

Lemma gate_pin_step (e : event) (s : state) :
  0 <= fcGateTime s <= FCMODEMAX ->
  (gate_pin_disabled s \/ gate_pin_enabled s) /\
  (fcGateTime s = FCEXTNO -> gate_pin_enabled s) ->
  (gate_pin_disabled (step e s) \/ gate_pin_enabled (step e s)) /\
  (fcGateTime (step e s) = FCEXTNO -> gate_pin_enabled (step e s)).
Proof.
  intros Hm H.
  assert (Hframe : forall s',
             fcGateTime s' = fcGateTime s -> PCMSK0 s' = PCMSK0 s ->
             PCICR s' = PCICR s ->
             (gate_pin_disabled s' \/ gate_pin_enabled s') /\
             (fcGateTime s' = FCEXTNO -> gate_pin_enabled s')).
  { intros s' E1 E2 E3. unfold gate_pin_disabled, gate_pin_enabled in *.
    rewrite E1, E2, E3. exact H. }
  destruct e; cbn [step].
  - apply Hframe; unfold FreqCtrGateISR, clear_TIFR0_flags; destruct s; simpl;
      split_ifs; reflexivity.
  - apply Hframe; unfold TIMER0_OVF_vect; destruct s; simpl; split_ifs; reflexivity.
  - apply Hframe; unfold PCChangeIntFunc; destruct s; simpl; split_ifs; reflexivity.
  - apply Hframe; unfold timer0_count, TIMER0_OVF_vect; destruct s; simpl;
      split_ifs; reflexivity.
  - destruct (Z.lt_ge_cases GateTime 0) as [Hn | Hn].
    { rewrite mode_query by assumption. exact H. }
    destruct (Z.lt_ge_cases FCMODEMAX GateTime) as [Hx | Hx].
    { rewrite mode_rejected by assumption. exact H. }
    pose proof (mode_sets_gate_time GateTime s (conj Hn Hx)) as Eg.
    destruct (mode_registers GateTime s (conj Hn Hx)) as (_ & _ & _ & Q1 & Q2).
    unfold gate_pin_disabled, gate_pin_enabled in *. rewrite Eg, Q1, Q2.
    unfold FCEXTNO, FCEXTGATEMSK in *. change (Z.land 32 127) with 32.
    destruct (GateTime =? 6) eqn:E6.
    + assert (Hl : Z.lor (PCMSK0 s) 32 = 32).
      { destruct H as [[[-> _] | [-> _]] _]; reflexivity. }
      rewrite Hl. split; [right|intros _]; split; reflexivity.
    + apply Z.eqb_neq in E6.
      destruct ((GateTime =? 0) && (u8 (fcGateTime s) =? 6)).
      * split; [left; split; reflexivity | intros; lia].
      * split; [exact (proj1 H) | intros; lia].
  - apply Hframe; rewrite read_format_state; reflexivity.
  - apply Hframe; reflexivity.
Qed.

(** X20: in every reachable state the pin-change interrupt is either
    disabled with an empty mask or enabled for the gate pin alone, and it is
    enabled whenever the mode is ExternalGate. *)
Theorem external_gate_has_pin_change_interrupt (s : state) :
  reachable s ->
  (gate_pin_disabled s \/ gate_pin_enabled s) /\
  (fcGateTime s = FCEXTNO -> gate_pin_enabled s).
Proof.
  intros [evs <-].
  assert (G : forall evs s0,
             consistent s0 ->
             (gate_pin_disabled s0 \/ gate_pin_enabled s0) /\
             (fcGateTime s0 = FCEXTNO -> gate_pin_enabled s0) ->
             (gate_pin_disabled (run evs s0) \/ gate_pin_enabled (run evs s0)) /\
             (fcGateTime (run evs s0) = FCEXTNO -> gate_pin_enabled (run evs s0))).
  { clear evs. induction evs as [|e evs IH]; intros s0 Hc H0; cbn [run].
    - exact H0.
    - apply IH; [apply step_consistent, Hc|].
      apply gate_pin_step; [apply (mode_in_range s0 Hc) | exact H0]. }
  apply G; [apply init_consistent|].
  split; [left; split; reflexivity | intros H; discriminate H].
Qed.

Lemma external_gate_has_pin_change_interrupt_witness :
  (gate_pin_disabled (run [SetMode 6; PinChange 32 0] init) \/
   gate_pin_enabled (run [SetMode 6; PinChange 32 0] init)) /\
  (fcGateTime (run [SetMode 6; PinChange 32 0] init) = FCEXTNO ->
   gate_pin_enabled (run [SetMode 6; PinChange 32 0] init)).
Proof.
  apply (external_gate_has_pin_change_interrupt (run [SetMode 6; PinChange 32 0] init)).
  exists [SetMode 6; PinChange 32 0]. reflexivity.
Defined.

Lemma testbit0_land_254 (x : Z) : Z.testbit (Z.land x 254) 0 = false.
Proof. rewrite Z.land_spec. apply andb_false_r. Qed.

Lemma u8_range (x : Z) : 0 <= u8 x < 256.
Proof. unfold u8. apply Z.mod_pos_bound. lia. Qed.


Ltac open_wired H :=
  let W1 := fresh "W" in let W2 := fresh "W" in let W3 := fresh "W" in
  let W4 := fresh "W" in let W5 := fresh "W" in let W6 := fresh "W" in
  destruct H as (W1 & W2 & W3 & W4 & W5 & W6);
  pose proof (fun h => proj1 (W6 h));
  pose proof (fun h => proj1 (proj2 (W6 h)));
  pose proof (fun h => proj1 (proj2 (proj2 (W6 h))));
  pose proof (fun h => proj2 (proj2 (proj2 (W6 h))));
  clear W6.

Ltac close_wired :=
  repeat split; intros; auto; try lia; try apply u8_range.

Lemma mode_timer_wired (g : Z) (s : state) :
  timer_wired s -> timer_wired (snd (FrequencyCounter.mode g s)).
Proof.
  intros H.
  destruct (Z.lt_ge_cases g 0) as [Hn | Hn].
  { rewrite mode_query by assumption. exact H. }
  destruct (Z.lt_ge_cases FCMODEMAX g) as [Hx | Hx].
  { rewrite mode_rejected by assumption. exact H. }
  destruct (mode_accepted g s (conj Hn Hx)) as (_ & E1 & _ & _ & E2 & E3 & E4 & E5).
  destruct (mode_registers g s (conj Hn Hx)) as (R1 & R2 & R3 & _).
  destruct H as (_ & W2 & _).
  unfold timer_wired. rewrite E1, E2, E3, R1, R2, R3.
  unfold FCPRDNO, FCMODEMAX, TOIE0 in *.
  change (u8 (Z.lnot (Z.shiftl 1 0))) with 254. change (Z.shiftl 1 0) with 1.
  assert (Hb : TCCR0B (snd (FrequencyCounter.mode g s)) = (if 7 <=? g then 6 else 0)).
  { destruct (7 <=? g) eqn:E; [apply E4 | apply E5]; lia. }
  rewrite Hb. rewrite Z.geb_leb.
  destruct (g =? 0) eqn:G0; destruct (7 <=? g) eqn:G7; try lia.
  - repeat split; intros; auto; try lia. apply testbit0_land_254.
  - repeat split; intros; auto; try lia; try apply u8_range; apply testbit0_lor_1.
  - repeat split; intros; auto; try lia; apply testbit0_lor_1.
Qed.

Lemma FreqCtrGateISR_timer_wired (s : state) :
  consistent s -> timer_wired s -> timer_wired (FreqCtrGateISR s).
Proof.
  intros Hc H. open_wired H.
  pose proof (countdown_range s Hc) as Hp.
  unfold FreqCtrGateISR, clear_TIFR0_flags, timer_wired, nz. fields.
  destruct (fcprescaler s =? 0) eqn:EP; cbn [negb]; fields.
  { close_wired. }
  assert (Hon : fcGateTime s <> 0).
  { intros Hoff. rewrite Hoff in Hp. cbn in Hp. lia. }
  destruct (u16 (fcprescaler s - 1) =? 0) eqn:EQ; cbn [negb]; fields.
  2: { close_wired. }
  unfold FCPRDNO in *. rewrite Z.geb_leb.
  destruct (7 <=? fcGateTime s) eqn:E7; fields.
  - destruct (_FreqCtrReady s =? 0) eqn:ER; cbn [negb]; fields.
    + close_wired.
    + close_wired.
  - apply Z.leb_gt in E7.
    destruct (TCCR0B s =? 0) eqn:EB; cbn [negb]; fields; close_wired.
Qed.

Lemma TIMER0_OVF_vect_timer_wired (m : Z) (s : state) :
  timer_wired s -> timer_wired (TIMER0_OVF_vect m s).
Proof.
  intros H. open_wired H.
  unfold TIMER0_OVF_vect, timer_wired, nz, FCPRDNO in *. rewrite Z.geb_leb.
  destruct (7 <=? fcGateTime s) eqn:E7; fields.
  - apply Z.leb_le in E7.
    destruct (fcOVF s =? 0) eqn:EO; cbn [negb]; fields; close_wired.
  - close_wired.
Qed.

Lemma PCChangeIntFunc_timer_wired (c : Z * Z) (s : state) :
  timer_wired s -> timer_wired (snd (PCChangeIntFunc c s)).
Proof.
  intros H. open_wired H.
  unfold PCChangeIntFunc, timer_wired, nz, FCPRDNO, FCEXTNO in *.
  destruct (fcGateTime s =? 6) eqn:E6; [|cbn [snd]; close_wired].
  apply Z.eqb_eq in E6.
  destruct (Z.land (fst c) FCEXTGATEMSK =? 0) eqn:EL; cbn [negb fst snd]; fields.
  - destruct (Z.land (snd c) FCEXTGATEMSK =? 0) eqn:EH; cbn [negb fst snd]; fields.
    + close_wired.
    + destruct (TCCR0B s =? 0) eqn:EB; cbn [negb]; fields; close_wired.
  - destruct (Z.land (snd c) FCEXTGATEMSK =? 0) eqn:EH; cbn [negb fst snd]; fields.
    + close_wired.
    + change (6 =? 0) with false. cbn [negb]. fields. close_wired.
Qed.

Lemma timer0_count_timer_wired (m : Z) (s : state) :
  timer_wired s -> timer_wired (timer0_count m s).
Proof.
  intros H. unfold timer0_count.
  destruct (TCCR0B s =? 6) eqn:EB; [|exact H].
  assert (H1 : timer_wired (set_TCNT0 (u8 (TCNT0 s + 1)) s)).
  { open_wired H. unfold timer_wired. fields. close_wired. }
  destruct (TCNT0 (set_TCNT0 (u8 (TCNT0 s + 1)) s) =? 0); [|exact H1].
  destruct (Z.testbit (TIMSK0 (set_TCNT0 (u8 (TCNT0 s + 1)) s)) 0).
  - apply TIMER0_OVF_vect_timer_wired, H1.
  - open_wired H1. unfold timer_wired. fields. close_wired.
Qed.

Lemma step_timer_wired (e : event) (s : state) :
  consistent s -> timer_wired s -> timer_wired (step e s).
Proof.
  intros Hc H. destruct e; cbn [step].
  - apply FreqCtrGateISR_timer_wired; assumption.
  - apply TIMER0_OVF_vect_timer_wired, H.
  - apply PCChangeIntFunc_timer_wired, H.
  - apply timer0_count_timer_wired, H.
  - apply mode_timer_wired, H.
  - rewrite read_format_state.
    open_wired H. unfold timer_wired. fields. close_wired.
  - open_wired H.
    unfold FrequencyCounter.read_ulong_body, timer_wired. cbn [snd]. fields.
    close_wired.
Qed.

Lemma run_timer_wired (evs : list event) (s : state) :
  consistent s -> timer_wired s -> timer_wired (run evs s).
Proof.
  revert s. induction evs as [|e evs IH]; intros s Hc H0; cbn [run].
  - exact H0.
  - apply IH; [apply step_consistent, Hc | apply step_timer_wired; assumption].
Qed.

Lemma init_timer_wired : timer_wired init.
Proof.
  unfold timer_wired, FCPRDNO. cbn.
  repeat split; auto; try lia; intros; try lia; try discriminate.
Qed.

(** X21: in every reachable state Timer0 is set up as the module needs it:
    the clock select is 0 (stopped) or 6 (external input), the count is a
    byte, the overflow interrupt is enabled while a mode is selected, the
    counter runs throughout a period mode, and in mode Off the counter is
    stopped, its interrupt disabled and nothing is reported. *)
Theorem reachable_timer_wired (s : state) :
  reachable s -> timer_wired s.
Proof.
  intros [evs <-].
  apply run_timer_wired.
  - apply init_consistent.
  - apply init_timer_wired.
Qed.

Lemma reachable_timer_wired_witness :
  timer_wired (run [SetMode 8; Pulse 10; Tick; SetMode 0] init).
Proof.
  apply (reachable_timer_wired (run [SetMode 8; Pulse 10; Tick; SetMode 0] init)).
  exists [SetMode 8; Pulse 10; Tick; SetMode 0]. reflexivity.
Defined.

(** X22: while the mode is Off nothing is measured: in a reachable state
    with mode Off input pulses and ticks change nothing, a raw read returns
    0 and a formatted read returns the string of 0. *)
Theorem off_measures_nothing (evs : list event) (s : state) :
  reachable s -> fcGateTime s = 0 ->
  forallb pulse_or_tick evs = true ->
  run evs s = s /\
  fst (FrequencyCounter.read_ulong_body s) = 0 /\
  fst (FrequencyCounter.read_format s) = "0" /\
  FrequencyCounter.available s = 0.
Proof.
  intros Hr H0 Hev.
  pose proof (reachable_consistent s Hr) as Hc.
  assert (Hw : timer_wired s).
  { destruct Hr as [evs0 <-].
    apply run_timer_wired; [apply init_consistent | apply init_timer_wired]. }
  destruct Hw as (_ & _ & _ & _ & _ & W6).
  destruct (W6 H0) as (B0 & _ & R0 & A0).
  pose proof (countdown_range s Hc) as Hp. rewrite H0 in Hp. cbn in Hp.
  split; [|split; [|split]].
  - induction evs as [|e evs IH]; [reflexivity|].
    cbn [forallb] in Hev. apply andb_prop in Hev. destruct Hev as [He Hev].
    cbn [run]. destruct e; try discriminate He; cbn [step].
    + rewrite tick_idle by exact Hp. apply IH, Hev.
    + unfold timer0_count. rewrite B0. change (0 =? 6) with false. cbv iota.
      apply IH, Hev.
  - unfold FrequencyCounter.read_ulong_body. fields. exact R0.
  - rewrite read_format_off; [| exact H0 |].
    + rewrite R0. reflexivity.
    + rewrite (init_is_divisor s Hc), H0. reflexivity.
  - exact A0.
Qed.

Lemma off_measures_nothing_witness :
  let s := run [SetMode 1; Tick; Pulse 0; Pulse 0; Tick; SetMode 0] init in
  run [Pulse 5; Tick; Pulse 7] s = s /\
  fst (FrequencyCounter.read_ulong_body s) = 0 /\
  fst (FrequencyCounter.read_format s) = "0" /\
  FrequencyCounter.available s = 0.
Proof.
  apply (off_measures_nothing [Pulse 5; Tick; Pulse 7]
           (run [SetMode 1; Tick; Pulse 0; Pulse 0; Tick; SetMode 0] init)).
  - exists [SetMode 1; Tick; Pulse 0; Pulse 0; Tick; SetMode 0]. reflexivity.
  - vm_compute. reflexivity.
  - reflexivity.
Defined.

(** * The pin-change interrupt and the gate *)

Lemma land_32 (x : Z) : Z.land x 32 = if Z.testbit x 5 then 32 else 0.
Proof.
  apply Z.bits_inj'. intros n Hn. rewrite Z.land_spec.
  change 32 with (2 ^ 5). rewrite Z.pow2_bits_eqb by lia.
  destruct (5 =? n) eqn:E.
  - apply Z.eqb_eq in E. subst n. rewrite andb_true_r.
    destruct (Z.testbit x 5); [symmetry; apply Z.pow2_bits_true; lia|].
    symmetry. apply Z.bits_0.
  - rewrite andb_false_r. destruct (Z.testbit x 5).
    + rewrite Z.pow2_bits_eqb by lia. rewrite E. reflexivity.
    + symmetry. apply Z.bits_0.
Qed.

Lemma nz_gate_mask (x : Z) : nz (Z.land x FCEXTGATEMSK) = gate_bit x.
Proof.
  unfold nz, FCEXTGATEMSK, gate_bit. rewrite land_32.
  destruct (Z.testbit x 5); reflexivity.
Qed.

Lemma gate_bit_u8 (x : Z) : gate_bit (u8 x) = gate_bit x.
Proof.
  unfold gate_bit, u8. change 256 with (2 ^ 8).
  apply Z.mod_pow2_bits_low. lia.
Qed.

Lemma gate_bit_read_pins (PINB PINE : Z) :
  gate_bit (read_pins PINB PINE) = gate_bit PINB.
Proof.
  unfold read_pins. rewrite gate_bit_u8. unfold gate_bit.
  rewrite Z.lor_spec, Z.land_spec, Z.shiftl_spec, Z.land_spec by lia.
  change (Z.testbit 127 5) with true. change (Z.testbit 64 (5 - 1)) with false.
  rewrite andb_true_r, andb_false_r, orb_false_r. reflexivity.
Qed.

Lemma gate_bit_went_low (c last new : Z) :
  gate_bit (u8 (Z.lor c (Z.land (u8 (Z.land (Z.lxor last new) FCEXTGATEMSK))
                                (Z.lnot new))))
  = gate_bit c || (gate_bit last && negb (gate_bit new)).
Proof.
  rewrite gate_bit_u8. unfold gate_bit.
  rewrite Z.lor_spec, Z.land_spec, Z.lnot_spec by lia.
  fold (gate_bit (u8 (Z.land (Z.lxor last new) FCEXTGATEMSK))).
  rewrite gate_bit_u8. unfold gate_bit.
  rewrite Z.land_spec, Z.lxor_spec.
  change (Z.testbit FCEXTGATEMSK 5) with true.
  destruct (Z.testbit c 5), (Z.testbit last 5), (Z.testbit new 5); reflexivity.
Qed.

Lemma gate_bit_went_high (c last new : Z) :
  gate_bit (u8 (Z.lor c (Z.land (u8 (Z.land (Z.lxor last new) FCEXTGATEMSK)) new)))
  = gate_bit c || (negb (gate_bit last) && gate_bit new).
Proof.
  rewrite gate_bit_u8. unfold gate_bit.
  rewrite Z.lor_spec, Z.land_spec.
  fold (gate_bit (u8 (Z.land (Z.lxor last new) FCEXTGATEMSK))).
  rewrite gate_bit_u8. unfold gate_bit.
  rewrite Z.land_spec, Z.lxor_spec.
  change (Z.testbit FCEXTGATEMSK 5) with true.
  destruct (Z.testbit c 5), (Z.testbit last 5), (Z.testbit new 5); reflexivity.
Qed.

Lemma PCChangeIntFunc_gate (c0 c1 : Z) (s : state) :
  fcGateTime s = FCEXTNO ->
  PCChangeIntFunc (c0, c1) s
  = (let '(c0', s1) :=
       if gate_bit c0
       then (Z.land c0 (u8 (Z.lnot FCEXTGATEMSK)),
             set_fcOVF 0 (set_TCCR0B 6 (set_TCNT0 0 s)))
       else (c0, s) in
     if gate_bit c1
     then ((c0', u8 (Z.lnot FCEXTGATEMSK)),
           snd (PCChangeIntFunc (0, FCEXTGATEMSK) s1))
     else ((c0', c1), s1)).
Proof.
  intros Hm. unfold PCChangeIntFunc at 1. rewrite Hm, Z.eqb_refl.
  cbn [fst snd]. rewrite nz_gate_mask.
  destruct (gate_bit c0); cbn [fst snd]; rewrite nz_gate_mask;
    destruct (gate_bit c1); try reflexivity.
  - unfold PCChangeIntFunc. fields. rewrite Hm, Z.eqb_refl. cbn [fst snd].
    change (nz (Z.land 0 FCEXTGATEMSK)) with false.
    change (nz (Z.land FCEXTGATEMSK FCEXTGATEMSK)) with true. cbv iota.
    cbn [fst snd]. reflexivity.
  - unfold PCChangeIntFunc. rewrite Hm, Z.eqb_refl. cbn [fst snd].
    change (nz (Z.land 0 FCEXTGATEMSK)) with false.
    change (nz (Z.land FCEXTGATEMSK FCEXTGATEMSK)) with true. cbv iota.
    cbn [fst snd]. reflexivity.
Qed.

Lemma PCChangeIntFunc_other_mode (c : Z * Z) (s : state) :
  fcGateTime s <> FCEXTNO -> PCChangeIntFunc c s = (c, s).
Proof.
  intros Hm. unfold PCChangeIntFunc.
  destruct (fcGateTime s =? FCEXTNO) eqn:E; [|reflexivity].
  apply Z.eqb_eq in E. contradiction.
Qed.

(** X23: the interrupt routine of PCInterrupt.cpp, with the pin-change
    interrupt enabled for the gate pin alone, for any content of its
    variables.  It hands the hook "gate went low" when the pin is seen to go
    from high to low or when an earlier fall is still unacknowledged in
    [Changes[0]], and "gate went high" likewise; it remembers the new level.
    In ExternalGate mode the counter state becomes what the hook makes of
    these two bits (both may be set at once: the counter is then started and
    stopped in the same call), and both gate bits come back acknowledged;
    after a "went high" the byte [Changes[1]] is 0xDF, since the hook
    assigns the complement of the gate mask instead of clearing the bit.
    In every other mode the hook leaves the counter state alone and
    acknowledges nothing, so the edges stay recorded in [Changes]. *)
Theorem PCINT0_vect_gate_edges (PINB PINE : Z) (p : pcint) (s : state) :
  gate_pin_enabled s ->
  let r := PCINT0_vect PINB PINE p s in
  LastPINB (fst r) = read_pins PINB PINE /\
  (fcGateTime s = FCEXTNO ->
   snd r = snd (PCChangeIntFunc (gate_changes p PINB) s) /\
   gate_bit (Changes0 (fst r)) = false /\
   gate_bit (Changes1 (fst r)) = false /\
   (gate_rose p PINB = true -> Changes1 (fst r) = 223)) /\
  (fcGateTime s <> FCEXTNO ->
   snd r = s /\
   gate_bit (Changes0 (fst r)) = gate_fell p PINB /\
   gate_bit (Changes1 (fst r)) = gate_rose p PINB).
Proof.
  intros [Hk _] r. subst r. unfold PCINT0_vect. rewrite Hk.
  set (New := read_pins PINB PINE).
  set (c0 := u8 (Z.lor (Changes0 p)
                   (Z.land (u8 (Z.land (Z.lxor (LastPINB p) New) FCEXTGATEMSK))
                           (Z.lnot New)))).
  set (c1 := u8 (Z.lor (Changes1 p)
                   (Z.land (u8 (Z.land (Z.lxor (LastPINB p) New) FCEXTGATEMSK))
                           New))).
  assert (F : gate_bit c0 = gate_fell p PINB).
  { subst c0 New. rewrite gate_bit_went_low, gate_bit_read_pins. reflexivity. }
  assert (R : gate_bit c1 = gate_rose p PINB).
  { subst c1 New. rewrite gate_bit_went_high, gate_bit_read_pins. reflexivity. }
  assert (Hack : forall c, gate_bit (Z.land c (u8 (Z.lnot FCEXTGATEMSK))) = false).
  { intros c. unfold gate_bit. rewrite Z.land_spec. apply andb_false_r. }
  split; [|split].
  - destruct (PCChangeIntFunc (c0, c1) s) as [[a b] s']. reflexivity.
  - intros Hm. unfold gate_changes.
    rewrite (PCChangeIntFunc_gate c0 c1 s Hm), (PCChangeIntFunc_gate _ _ s Hm).
    rewrite F, R.
    destruct (gate_fell p PINB) eqn:EF; destruct (gate_rose p PINB) eqn:ER;
      change (gate_bit FCEXTGATEMSK) with true; change (gate_bit 0) with false;
      cbv iota; cbn [fst snd LastPINB Changes0 Changes1].
    all: repeat split; try reflexivity; try discriminate; try apply Hack.
    all: try (rewrite F; reflexivity); try (rewrite R; reflexivity).
  - intros Hm. rewrite (PCChangeIntFunc_other_mode (c0, c1) s Hm).
    cbn [fst snd LastPINB Changes0 Changes1].
    split; [reflexivity|]. split; assumption.
Qed.

(** A low-to-high change of the gate pin that finds both gate bits still
    set. *)
Lemma PCINT0_vect_gate_edges_witness :
  let p := mkPcint 0 32 32 in
  let s := run [SetMode 6] init in
  let r := PCINT0_vect 32 0 p s in
  LastPINB (fst r) = read_pins 32 0 /\
  (fcGateTime s = FCEXTNO ->
   snd r = snd (PCChangeIntFunc (gate_changes p 32) s) /\
   gate_bit (Changes0 (fst r)) = false /\
   gate_bit (Changes1 (fst r)) = false /\
   (gate_rose p 32 = true -> Changes1 (fst r) = 223)) /\
  (fcGateTime s <> FCEXTNO ->
   snd r = s /\
   gate_bit (Changes0 (fst r)) = gate_fell p 32 /\
   gate_bit (Changes1 (fst r)) = gate_rose p 32).
Proof.
  apply (PCINT0_vect_gate_edges 32 0 (mkPcint 0 32 32) (run [SetMode 6] init)).
  split; reflexivity.
Defined.

(** A gate through the interrupt routine: pin low, 3 pulses, pin high. *)
Example gate_through_the_interrupt :
  let r1 := PCINT0_vect 0 0 (mkPcint 32 0 0) (run [SetMode 6] init) in
  let r2 := PCINT0_vect 32 0 (fst r1) (run [Pulse 0; Pulse 0; Pulse 0] (snd r1)) in
  fcResult (snd r2) = 3 /\ _FreqCtrReady (snd r2) = 1 /\ fst r2 = mkPcint 32 0 223.
Proof. vm_compute. repeat split. Qed.

(** Edges that arrive while another mode is selected stay recorded (the
    interrupt is left enabled by [mode(3)]); back in ExternalGate mode the
    next fall of the gate is handed over together with the old "went high",
    and the counter reports a result of 0 as ready at once. *)
Example stale_gate_edges_are_replayed :
  let r1 := PCINT0_vect 0 0 (mkPcint 32 0 0) (run [SetMode 6; SetMode 3] init) in
  let r2 := PCINT0_vect 32 0 (fst r1) (snd r1) in
  let r3 := PCINT0_vect 0 0 (fst r2) (run [SetMode 6] (snd r2)) in
  fst r2 = mkPcint 32 32 32 /\
  _FreqCtrReady (snd r3) = 1 /\ fcResult (snd r3) = 0 /\ TCCR0B (snd r3) = 0.
Proof. vm_compute. repeat split. Qed.

(** * The first tick of a period mode *)

(** X24: [mode] arms the countdown of a period mode with 1, so the first
    10 ms tick after it is a timeout unless a whole measurement's worth of
    input edges arrived first: with fewer than N edges since [mode], the
    tick stores the raw value 1 and sets ready, and a waiting formatted
    read started right after [mode] returns "0.00000" at that tick. *)
Theorem period_mode_first_tick_reports_timeout
        (g : Z) (ts : list Z) (buf : string) (rest : schedule) (s : state) :
  FCPRDNO <= g <= FCMODEMAX -> Z.of_nat (List.length ts) < averages g ->
  let s0 := snd (FrequencyCounter.mode g s) in
  let s1 := run (map Pulse ts ++ [Tick]) s0 in
  fcResult s1 = 1 /\ FrequencyCounter.available s1 = 1 /\
  read (Some buf) true ((map Pulse ts ++ [Tick]) :: rest) s0
  = Some (Some "0.00000", set__FreqCtrReady 0 s1, rest).
Proof.
  intros Hg Hn s0 s1.
  destruct (mode_period_arms g s Hg) as (M1 & M2 & M3 & M4 & M5 & M6 & M7 & M8).
  fold s0 in M1, M2, M3, M4, M5, M6, M7, M8.
  assert (Hp : fcprescaler s0 = 1).
  { unfold FCPRDNO, FCMODEMAX in Hg.
    destruct (mode_accepted g s) as (_ & _ & _ & E & _); [unfold FCMODEMAX; lia|].
    fold s0 in E. rewrite E. unfold armed_prescaler, FCEXTNO.
    destruct (g =? 0) eqn:E0; [lia|]. destruct (g =? 6) eqn:E6; [lia|]. reflexivity. }
  assert (Ha : 1 <= averages g <= 100).
  { unfold FCPRDNO, FCMODEMAX in Hg.
    assert (Hc : g = 7 \/ g = 8 \/ g = 9) by lia.
    destruct Hc as [-> | [-> | ->]]; simpl; lia. }
  assert (E1 : s1 = FreqCtrGateISR
                      (set_TCNT0 (TCNT0 s0 + Z.of_nat (List.length ts)) s0)).
  { subst s1. rewrite run_app.
    rewrite (pulses_advance_counter ts s0) by lia. reflexivity. }
  destruct (tick_period_timeout
              (set_TCNT0 (TCNT0 s0 + Z.of_nat (List.length ts)) s0))
    as (T1 & T2 & _ & T4 & T5 & _).
  { fields. unfold FCPRDNO in *. lia. }
  { fields. exact Hp. }
  { fields. exact M7. }
  rewrite <- E1 in T1, T2, T4, T5. revert T4 T5. fields. intros T4 T5.
  split; [exact T1|]. split; [exact T2|].
  assert (W : wait_loop true ((map Pulse ts ++ [Tick]) :: rest) s0 = Some (s1, rest)).
  { rewrite wait_loop_unfold.
    assert (W0 : FrequencyCounter.must_wait true s0 = true).
    { unfold FrequencyCounter.must_wait, nz. rewrite M1, M7.
      unfold FCPRDNO in Hg. destruct (g =? 0) eqn:E0; [lia | reflexivity]. }
    rewrite W0. fold s1. rewrite wait_loop_unfold.
    assert (W1 : FrequencyCounter.must_wait true s1 = false).
    { unfold FrequencyCounter.must_wait, nz. rewrite T2. apply andb_false_r. }
    rewrite W1. reflexivity. }
  rewrite (read_after_wait buf true _ rest s0 s1 W).
  rewrite read_format_period_sentinel; [reflexivity | | exact T1 |].
  - rewrite T4, M1. apply Hg.
  - rewrite T5, M2. apply Ha.
Qed.

(** Ninety-nine edges after [mode(9)], then the first tick. *)
Lemma period_mode_first_tick_reports_timeout_witness :
  let s0 := snd (FrequencyCounter.mode 9 init) in
  let s1 := run (map Pulse (repeat 50 99) ++ [Tick]) s0 in
  fcResult s1 = 1 /\ FrequencyCounter.available s1 = 1 /\
  read (Some "") true ((map Pulse (repeat 50 99) ++ [Tick]) :: [[Tick]]) s0
  = Some (Some "0.00000", set__FreqCtrReady 0 s1, [[Tick]]).
Proof.
  apply (period_mode_first_tick_reports_timeout 9 (repeat 50 99) "" [[Tick]] init).
  - vm_compute. split; discriminate.
  - vm_compute. reflexivity.
Defined.

(** * Selecting a mode twice *)

Lemma state_ext (a b : state) :
  _FreqCtrReady a = _FreqCtrReady b -> fcResult a = fcResult b ->
  fcOVF a = fcOVF b -> fcprescaler a = fcprescaler b ->
  fcprescalInit a = fcprescalInit b -> fcGateTime a = fcGateTime b ->
  PrdCnt a = PrdCnt b -> TCCR0A a = TCCR0A b -> TCCR0B a = TCCR0B b ->
  TCNT0 a = TCNT0 b -> TIFR0 a = TIFR0 b -> TIMSK0 a = TIMSK0 b ->
  PCMSK0 a = PCMSK0 b -> PCICR a = PCICR b -> a = b.
Proof.
  destruct a, b; cbn. intros. subst. reflexivity.
Qed.

Lemma mode_flags (g : Z) (s : state) :
  0 <= g <= FCMODEMAX ->
  TIFR0 (snd (FrequencyCounter.mode g s))
  = (if g >=? FCPRDNO then TIFR0 (clear_TIFR0_flags s) else TIFR0 s).
Proof.
  intros Hg.
  mode_cases g; unfold FrequencyCounter.mode; destruct s; simpl.
  all: try (destruct (u8 _ =? FCEXTNO); simpl).
  all: reflexivity.
Qed.

Lemma clear_TIFR0_flags_zero (s : state) : TIFR0 (clear_TIFR0_flags s) = 0.
Proof.
  unfold clear_TIFR0_flags. fields. apply Z.bits_inj'. intros n Hn.
  rewrite Z.land_spec, Z.bits_0. unfold u8. change 256 with (2 ^ 8).
  destruct (Z.testbit (TIFR0 s) n) eqn:E; [|reflexivity]. cbn [andb].
  destruct (Z.lt_ge_cases n 8) as [L | L].
  - rewrite Z.mod_pow2_bits_low by lia.
    rewrite Z.lnot_spec, Z.lor_spec, E by lia. reflexivity.
  - apply Z.mod_pow2_bits_high. lia.
Qed.

(** X25: selecting a mode is idempotent: from any state, calling [mode]
    with an accepted code twice in a row leaves exactly the state that one
    call leaves. *)
Theorem mode_twice_is_mode_once (g : Z) (s : state) :
  0 <= g <= FCMODEMAX ->
  snd (FrequencyCounter.mode g (snd (FrequencyCounter.mode g s)))
  = snd (FrequencyCounter.mode g s).
Proof.
  intros Hg. set (s1 := snd (FrequencyCounter.mode g s)).
  destruct (mode_accepted g s Hg) as (_ & A1 & A2 & A3 & A4 & A5 & A6 & A7).
  destruct (mode_accepted g s1 Hg) as (_ & B1 & B2 & B3 & B4 & B5 & B6 & B7).
  destruct (mode_registers g s Hg) as (R1 & R2 & R3 & R4 & R5).
  destruct (mode_registers g s1 Hg) as (Q1 & Q2 & Q3 & Q4 & Q5).
  pose proof (mode_flags g s Hg) as F1. pose proof (mode_flags g s1 Hg) as F2.
  fold s1 in A1, A2, A3, A4, A5, A6, A7, R1, R2, R3, R4, R5, F1.
  unfold FCMODEMAX, FCPRDNO, FCEXTNO in *.
  apply state_ext; try congruence.
  - destruct (Z.lt_ge_cases g 7) as [L | L].
    + destruct (A7 L) as (_ & E & _). destruct (B7 L) as (_ & E' & _). congruence.
    + destruct (A6 L) as (_ & E & _). destruct (B6 L) as (_ & E' & _). congruence.
  - destruct (Z.lt_ge_cases g 7) as [L | L].
    + destruct (A7 L) as (E & _). destruct (B7 L) as (E' & _). congruence.
    + destruct (A6 L) as (E & _). destruct (B6 L) as (E' & _). congruence.
  - destruct (Z.lt_ge_cases g 7) as [L | L].
    + destruct (A7 L) as (_ & _ & E). destruct (B7 L) as (_ & _ & E'). congruence.
    + destruct (A6 L) as (_ & _ & E). destruct (B6 L) as (_ & _ & E'). congruence.
  - destruct (g =? 0); congruence.
  - destruct (g >=? 7); [|congruence].
    rewrite F2, F1, !clear_TIFR0_flags_zero. reflexivity.
  - destruct (g =? 0); rewrite Q2, R2.
    + rewrite <- Z.land_assoc, Z.land_diag. reflexivity.
    + rewrite <- Z.lor_assoc, Z.lor_diag. reflexivity.
  - destruct (g =? 6) eqn:E6; rewrite Q4, R4.
    + rewrite <- Z.lor_assoc, Z.lor_diag. reflexivity.
    + rewrite A1. destruct (g =? 0) eqn:E0; [|reflexivity].
      apply Z.eqb_eq in E0. rewrite E0. change (u8 0 =? 6) with false.
      cbn [andb]. cbv iota. reflexivity.
  - destruct (g =? 6) eqn:E6; rewrite Q5, R5; [reflexivity|].
    rewrite A1. destruct (g =? 0) eqn:E0; [|reflexivity].
    apply Z.eqb_eq in E0. rewrite E0. change (u8 0 =? 6) with false.
    cbn [andb]. cbv iota. reflexivity.
Qed.

Lemma mode_twice_is_mode_once_witness :
  snd (FrequencyCounter.mode 8 (snd (FrequencyCounter.mode 8 three_overflows)))
  = snd (FrequencyCounter.mode 8 three_overflows).
Proof.
  apply (mode_twice_is_mode_once 8 three_overflows).
  vm_compute. split; discriminate.
Defined.

(** * The pin-change class *)

Lemma land_u8_lnot_u8 (c m : Z) : Z.land (Z.land c (u8 (Z.lnot (u8 m)))) (u8 m) = 0.
Proof.
  apply Z.bits_inj'. intros n Hn. rewrite !Z.land_spec, Z.bits_0.
  unfold u8. change 256 with (2 ^ 8).
  destruct (Z.lt_ge_cases n 8) as [L | L].
  - rewrite (Z.mod_pow2_bits_low (Z.lnot (m mod 2 ^ 8))) by lia.
    rewrite Z.lnot_spec by lia.
    destruct (Z.testbit (m mod 2 ^ 8) n); cbn;
      rewrite ?andb_false_r; reflexivity.
  - rewrite (Z.mod_pow2_bits_high m) by lia. apply andb_false_r.
Qed.

Lemma land_u8_lnot_other (c m m' : Z) :
  Z.land (u8 m') (u8 m) = 0 ->
  Z.land (Z.land c (u8 (Z.lnot (u8 m)))) (u8 m') = Z.land c (u8 m').
Proof.
  intros H. apply Z.bits_inj'. intros n Hn. rewrite !Z.land_spec.
  assert (Hb : Z.testbit (u8 m') n && Z.testbit (u8 m) n = false).
  { rewrite <- Z.land_spec, H. apply Z.bits_0. }
  destruct (Z.testbit (u8 m') n) eqn:E; [|rewrite !andb_false_r; reflexivity].
  cbn [andb] in Hb. rewrite !andb_true_r.
  assert (L : n < 8).
  { destruct (Z.lt_ge_cases n 8) as [L | L]; [exact L|].
    unfold u8 in E. change 256 with (2 ^ 8) in E.
    rewrite Z.mod_pow2_bits_high in E by lia. discriminate E. }
  unfold u8 at 1. change 256 with (2 ^ 8).
  rewrite Z.mod_pow2_bits_low by lia. rewrite Z.lnot_spec, Hb by lia.
  apply andb_true_r.
Qed.

(** X26: [clear] acknowledges exactly the pins of its mask: after
    [clear(mask)] none of [falling], [rising] and [change] reports a pin of
    the mask, and for a mask without a pin in common the three answers are
    what they were before. *)
Theorem clear_acknowledges_mask (mask mask' : Z) (r : PCInterrupt.regs) :
  let r' := PCInterrupt.clear mask r in
  PCInterrupt.falling mask r' = false /\
  PCInterrupt.rising mask r' = false /\
  PCInterrupt.change mask r' = false /\
  (Z.land (u8 mask') (u8 mask) = 0 ->
   PCInterrupt.falling mask' r' = PCInterrupt.falling mask' r /\
   PCInterrupt.rising mask' r' = PCInterrupt.rising mask' r /\
   PCInterrupt.change mask' r' = PCInterrupt.change mask' r).
Proof.
  intros r'. subst r'.
  unfold PCInterrupt.falling, PCInterrupt.rising, PCInterrupt.change,
    PCInterrupt.clear.
  cbn [PCInterrupt.Changes0 PCInterrupt.Changes1].
  rewrite !Z.land_lor_distr_l, !land_u8_lnot_u8.
  split; [reflexivity|]. split; [reflexivity|]. split; [reflexivity|].
  intros H. rewrite !(land_u8_lnot_other _ mask mask' H).
  repeat split; reflexivity.
Qed.

Lemma clear_acknowledges_mask_witness :
  let r := PCInterrupt.mkRegs 48 1 0 0 48 16 in
  let r' := PCInterrupt.clear 32 r in
  PCInterrupt.falling 32 r' = false /\
  PCInterrupt.rising 32 r' = false /\
  PCInterrupt.change 32 r' = false /\
  (Z.land (u8 16) (u8 32) = 0 ->
   PCInterrupt.falling 16 r' = PCInterrupt.falling 16 r /\
   PCInterrupt.rising 16 r' = PCInterrupt.rising 16 r /\
   PCInterrupt.change 16 r' = PCInterrupt.change 16 r).
Proof.
  exact (clear_acknowledges_mask 32 16 (PCInterrupt.mkRegs 48 1 0 0 48 16)).
Defined.

(** X27: [disable] keeps the pins of its mask and drops the others: the
    pin-change mask is and-ed with the mask itself.  After [enable(mask)]
    on an empty pin-change mask, [disable(mask)] leaves the same pins
    enabled with PCICR still 1, while [disable] of a mask that has port B
    pins but none in common with it turns the pin-change interrupt off. *)
Theorem disable_keeps_pins_of_mask (PINB PINE mask other : Z) (r : PCInterrupt.regs) :
  PCInterrupt.PCMSK0 r = 0 ->
  Z.land (u8 mask) 127 <> 0 ->
  Z.land (u8 other) 127 <> 0 ->
  Z.land (Z.land (u8 mask) 127) (Z.land (u8 other) 127) = 0 ->
  let r1 := PCInterrupt.enable PINB PINE mask r in
  PCInterrupt.PCMSK0 r1 = Z.land (u8 mask) 127 /\ PCInterrupt.PCICR r1 = 1 /\
  PCInterrupt.PCMSK0 (PCInterrupt.disable mask r1) = Z.land (u8 mask) 127 /\
  PCInterrupt.PCICR (PCInterrupt.disable mask r1) = 1 /\
  PCInterrupt.PCMSK0 (PCInterrupt.disable other r1) = 0 /\
  PCInterrupt.PCICR (PCInterrupt.disable other r1) = 0.
Proof.
  intros H0 Hm Ho Hd r1.
  assert (Hnz : forall m, Z.land (u8 m) 127 <> 0 -> nz (u8 m) = true).
  { intros m H. unfold nz. destruct (u8 m =? 0) eqn:E; [|reflexivity].
    apply Z.eqb_eq in E. rewrite E in H. contradiction H. reflexivity. }
  assert (Hx : forall x, x <> 0 -> nz x = true).
  { intros x H. unfold nz. destruct (x =? 0) eqn:E; [|reflexivity].
    apply Z.eqb_eq in E. contradiction. }
  assert (Hb : u8 (Z.land (u8 mask) 127) = Z.land (u8 mask) 127).
  { unfold u8 at 1. apply Z.mod_small.
    change 127 with (Z.ones 7). rewrite Z.land_ones by lia.
    pose proof (Z.mod_pos_bound (u8 mask) (2 ^ 7) ltac:(lia)).
    change (2 ^ 7) with 128 in *. lia. }
  assert (E1 : PCInterrupt.PCMSK0 r1 = Z.land (u8 mask) 127 /\
               PCInterrupt.PCICR r1 = 1).
  { subst r1. unfold PCInterrupt.enable. rewrite (Hnz mask Hm), (Hx _ Hm).
    cbn [PCInterrupt.PCMSK0 PCInterrupt.PCICR]. rewrite H0, Z.lor_0_l, Hb.
    split; reflexivity. }
  destruct E1 as [E1 E2]. split; [exact E1|]. split; [exact E2|].
  unfold PCInterrupt.disable.
  rewrite (Hnz mask Hm), (Hx _ Hm), (Hnz other Ho), (Hx _ Ho), E1, E2.
  rewrite Z.land_diag, Hd, (Hx _ Hm).
  cbn [negb PCInterrupt.PCMSK0 PCInterrupt.PCICR].
  change (nz 0) with false. cbn [negb PCInterrupt.PCMSK0 PCInterrupt.PCICR].
  repeat split; reflexivity.
Qed.

(** Pins 8 and 9 enabled, then [disable] of the same pins and of pin 10. *)
Lemma disable_keeps_pins_of_mask_witness :
  let r1 := PCInterrupt.enable 255 0 48 (PCInterrupt.mkRegs 0 0 0 0 0 0) in
  PCInterrupt.PCMSK0 r1 = Z.land (u8 48) 127 /\ PCInterrupt.PCICR r1 = 1 /\
  PCInterrupt.PCMSK0 (PCInterrupt.disable 48 r1) = Z.land (u8 48) 127 /\
  PCInterrupt.PCICR (PCInterrupt.disable 48 r1) = 1 /\
  PCInterrupt.PCMSK0 (PCInterrupt.disable 64 r1) = 0 /\
  PCInterrupt.PCICR (PCInterrupt.disable 64 r1) = 0.
Proof.
  apply (disable_keeps_pins_of_mask 255 0 48 64 (PCInterrupt.mkRegs 0 0 0 0 0 0)).
  - reflexivity.
  - vm_compute. discriminate.
  - vm_compute. discriminate.
  - reflexivity.
Defined.

(** * Overflows left behind by [mode] *)

(** C5: [mode] does not reset the overflow accumulator in every branch.
    The period branch clears [fcOVF]; the frequency branch clears the timer
    registers and misses it.  For every tick-gated frequency mode [g] (1 to
    5) and every state, [mode(g)] is accepted and leaves [fcOVF] as it was;
    the first gate close after it then stores the old overflows, 256 times
    [fcOVF], in the result register without setting ready, and a read that
    does not wait returns the string of that stale count. *)
Theorem mode_frequency_branch_keeps_fcOVF (g : Z) (s : state) :
  1 <= g < FCEXTNO ->
  let s1 := snd (FrequencyCounter.mode g s) in
  let s2 := FreqCtrGateISR s1 in
  fst (FrequencyCounter.mode g s) = g /\
  fcOVF s1 = fcOVF s /\
  fcOVF (snd (FrequencyCounter.mode FCPRDNO s)) = 0 /\
  fcResult s2 = u32 (256 * fcOVF s) /\
  _FreqCtrReady s2 = 0 /\
  fst (FrequencyCounter.read_format s2)
  = spec_frequency_string (divisor g) (u32 (256 * fcOVF s)).
Proof.
  intros Hg s1 s2. unfold FCEXTNO in Hg.
  destruct (mode_accepted g s) as (A0 & A1 & A2 & A3 & A4 & _ & _ & A7);
    [unfold FCMODEMAX; lia|].
  destruct (A7 ltac:(unfold FCPRDNO; lia)) as (_ & A8 & A9).
  destruct (mode_registers g s) as (_ & _ & R3 & _); [unfold FCMODEMAX; lia|].
  destruct (mode_accepted FCPRDNO s) as (_ & _ & _ & _ & _ & _ & P6 & _);
    [unfold FCPRDNO, FCMODEMAX; lia|].
  destruct (P6 ltac:(lia)) as (_ & P7 & _).
  fold s1 in A1, A2, A3, A4, A8, A9, R3.
  assert (T0 : TCNT0 s1 = 0).
  { rewrite R3. unfold FCPRDNO. rewrite Z.geb_leb.
    destruct (g =? 0) eqn:E0; [lia|]. destruct (7 <=? g) eqn:E7; [lia|].
    reflexivity. }
  assert (P1 : fcprescaler s1 = 1).
  { rewrite A3. unfold armed_prescaler, FCEXTNO.
    destruct (g =? 0) eqn:E0; [lia|]. destruct (g =? 6) eqn:E6; [lia|].
    reflexivity. }
  destruct (gate_close_counting s1) as (G1 & G2 & _ & _ & _ & _ & G7 & G8 & _);
    [rewrite A1; unfold FCPRDNO; lia | exact P1 |].
  fold s2 in G1, G2, G7, G8.
  assert (E : fcResult s2 = u32 (256 * fcOVF s)).
  { rewrite G1. unfold raw_count. rewrite T0, A8, Z.add_0_r. reflexivity. }
  assert (Rd : _FreqCtrReady s2 = 0).
  { rewrite G2, A9. change (0 =? 0) with true. cbv iota. exact A4. }
  do 5 (split; [assumption|]).
  rewrite read_format_frequency.
  - cbn [fst]. rewrite G7, A2, E. reflexivity.
  - rewrite G8, A1. unfold FCEXTNO. lia.
  - rewrite G7, G8, A1. exact A2.
  - rewrite E. apply u32_range.
Qed.

(** Three overflows from the 1 s gate, then [mode(2)] and the first tick. *)
Lemma mode_frequency_branch_keeps_fcOVF_witness :
  let s1 := snd (FrequencyCounter.mode 2 three_overflows) in
  let s2 := FreqCtrGateISR s1 in
  fst (FrequencyCounter.mode 2 three_overflows) = 2 /\
  fcOVF s1 = fcOVF three_overflows /\
  fcOVF (snd (FrequencyCounter.mode FCPRDNO three_overflows)) = 0 /\
  fcResult s2 = u32 (256 * fcOVF three_overflows) /\
  _FreqCtrReady s2 = 0 /\
  fst (FrequencyCounter.read_format s2)
  = spec_frequency_string (divisor 2) (u32 (256 * fcOVF three_overflows)).
Proof.
  apply (mode_frequency_branch_keeps_fcOVF 2 three_overflows).
  unfold FCEXTNO. lia.
Defined.

(** The numbers: 3 overflows become a count of 768, read as "76800" in the
    10 ms gate mode although no pulse was counted since [mode]. *)
Example stale_overflows_are_read :
  fcOVF three_overflows = 3 /\
  fcResult (run [SetMode 2; Tick] three_overflows) = 768 /\
  fst (FrequencyCounter.read_format (run [SetMode 2; Tick] three_overflows))
  = "76800".
Proof. vm_compute. repeat split. Qed.
